(** * submit_to_app_store.py: App Store Connect release pipeline

    A shallow embedding of [src/submit_to_app_store.py].  The script is a
    sequence of authenticated HTTP calls, polling loops and exits; it is
    modelled as a state-and-exception monad over a [world] that holds the
    scripted replies of the remote API, a millisecond clock and the trace
    of observable events (requests, sleeps, log lines). *)

From Stdlib Require Import ZArith NArith List String Ascii Bool Lia.
Import ListNotations.
Open Scope string_scope.
Open Scope Z_scope.

(** ** Python values

    [response.json()] yields None, booleans, numbers, strings, lists and
    dicts; the script passes these around untyped, tests their truthiness
    and subscripts them.  A dict is an association list read by first
    match. *)

Set Warnings "-register-all".

Inductive value : Type :=
| VNone
| VBool (b : bool)
| VInt (n : Z)
| VStr (s : string)
| VList (l : list value)
| VDict (d : list (string * value)).

(** Exceptions the script can meet.  [requests] exceptions never leave
    [make_api_request] and are replies of the remote side instead. *)
Inductive exn : Type :=
| KeyboardInterrupt
| ValueError
| IndexError
| KeyError
| TypeError
| AttributeError
| OverflowError.

(** How a computation ends: a value, an uncaught exception, [sys.exit], or
    the model's loop bound reached before the loop ended. *)
Inductive result (A : Type) : Type :=
| Ret (a : A)
| Raise (e : exn)
| Exit (code : Z)
| OutOfFuel.

Arguments Ret {A} a.
Arguments Raise {A} e.
Arguments Exit {A} code.
Arguments OutOfFuel {A}.

Definition rbind {A B} (r : result A) (f : A -> result B) : result B :=
  match r with
  | Ret a => f a
  | Raise e => Raise e
  | Exit c => Exit c
  | OutOfFuel => OutOfFuel
  end.

(** [bool(v)] *)
Definition py_truthy (v : value) : bool :=
  match v with
  | VNone => false
  | VBool b => b
  | VInt n => negb (n =? 0)
  | VStr s => negb (String.eqb s EmptyString)
  | VList l => match l with [] => false | _ => true end
  | VDict d => match d with [] => false | _ => true end
  end.

Fixpoint dict_lookup (k : string) (d : list (string * value)) : option value :=
  match d with
  | [] => None
  | (k', v) :: d' => if String.eqb k k' then Some v else dict_lookup k d'
  end.

(** [v.get(k, default)]: only dicts have [get]. *)
Definition py_get (v : value) (k : string) (default : value) : result value :=
  match v with
  | VDict d => Ret (match dict_lookup k d with Some x => x | None => default end)
  | _ => Raise AttributeError
  end.

(** [v[k]] for a string key [k]. *)
Definition py_item (v : value) (k : string) : result value :=
  match v with
  | VDict d => match dict_lookup k d with Some x => Ret x | None => Raise KeyError end
  | _ => Raise TypeError
  end.

(** [v[0]] *)
Definition py_first (v : value) : result value :=
  match v with
  | VList (x :: _) => Ret x
  | VList [] => Raise IndexError
  | VStr (String c _) => Ret (VStr (String c EmptyString))
  | VStr EmptyString => Raise IndexError
  | VDict _ => Raise KeyError
  | _ => Raise TypeError
  end.

Fixpoint chars (s : string) : list value :=
  match s with
  | EmptyString => []
  | String c s' => VStr (String c EmptyString) :: chars s'
  end.

(** [for x in v]: the items a [for] loop visits. *)
Definition py_iter (v : value) : result (list value) :=
  match v with
  | VList l => Ret l
  | VStr s => Ret (chars s)
  | VDict d => Ret (map (fun kv => VStr (fst kv)) d)
  | _ => Raise TypeError
  end.

(** [len(v)] *)
Definition py_len (v : value) : result Z :=
  match v with
  | VList l => Ret (Z.of_nat (List.length l))
  | VStr s => Ret (Z.of_nat (String.length s))
  | VDict d => Ret (Z.of_nat (List.length d))
  | _ => Raise TypeError
  end.

Fixpoint str_take (n : nat) (s : string) : string :=
  match n, s with
  | S n', String c s' => String c (str_take n' s')
  | _, _ => EmptyString
  end.

(** [v[:12]]: strings and lists slice, nothing else does. *)
Definition py_slice12 (v : value) : result value :=
  match v with
  | VStr s => Ret (VStr (str_take 12 s))
  | VList l => Ret (VList (firstn 12 l))
  | _ => Raise TypeError
  end.

(** [a == b]: booleans compare as the integers 0 and 1, lists element by
    element, dicts key by key whatever the order. *)
Fixpoint py_eq (a b : value) {struct a} : bool :=
  match a, b with
  | VNone, VNone => true
  | VBool x, VBool y => Bool.eqb x y
  | VBool x, VInt n => (if x then 1 else 0) =? n
  | VInt n, VBool x => n =? (if x then 1 else 0)
  | VInt m, VInt n => m =? n
  | VStr s, VStr t => String.eqb s t
  | VList l, VList m =>
      (fix eql (l m : list value) {struct l} : bool :=
         match l, m with
         | [], [] => true
         | x :: l', y :: m' => py_eq x y && eql l' m'
         | _, _ => false
         end) l m
  | VDict d, VDict e =>
      Nat.eqb (List.length d) (List.length e) &&
      (fix sub (d : list (string * value)) {struct d} : bool :=
         match d with
         | [] => true
         | (k, v) :: d' =>
             match dict_lookup k e with
             | Some v' => py_eq v v'
             | None => false
             end && sub d'
         end) d
  | _, _ => false
  end.

(** [v in [s1, s2, ...]] for a list of string literals. *)
Definition py_in (v : value) (l : list string) : bool :=
  existsb (fun s => py_eq v (VStr s)) l.

(** [sep in s] and [s.split(sep)] for a one-character separator. *)
Fixpoint py_contains (sep : ascii) (s : string) : bool :=
  match s with
  | EmptyString => false
  | String c s' => Ascii.eqb c sep || py_contains sep s'
  end.

Fixpoint py_split (sep : ascii) (s : string) : list string :=
  match s with
  | EmptyString => [EmptyString]
  | String c s' =>
      if Ascii.eqb c sep then EmptyString :: py_split sep s'
      else match py_split sep s' with
           | [] => [String c EmptyString]
           | p :: ps => String c p :: ps
           end
  end.

(** An f-string: literal pieces and interpolated values, kept apart. *)
Inductive frag : Type :=
| Lit (s : string)
| Fmt (v : value)
| FmtExn (e : exn)
| FmtLibError.          (* the text of a [requests] or [jwt] exception *)

Definition fstring := list frag.

(** ** The remote side, the clock and the trace *)

Inductive method : Type := GET | POST | PATCH.

(** [response.content] and what [response.json()] makes of it. *)
Inductive body : Type :=
| Empty
| Malformed
| Json (v : value).

Record response : Type := mkResponse {
  status_code : Z;
  retry_after : option string;   (* the Retry-After header, when sent *)
  content : body
}.

(** What one [requests.get/post/patch] call comes back with, and how many
    milliseconds it took. *)
Inductive reply : Type :=
| Responds (latency : N) (r : response)
| TimesOut (latency : N)          (* requests.exceptions.Timeout *)
| NetworkError (latency : N)      (* any other RequestException *)
| Interrupted (latency : N).      (* Ctrl-C while the call blocks *)

Definition latency_of (r : reply) : N :=
  match r with
  | Responds l _ | TimesOut l | NetworkError l | Interrupted l => l
  end.

Inductive event : Type :=
| Log (msg : fstring)
| Request (m : method) (url : fstring) (json : value)
| Sleep (seconds : Z).

Record world : Type := mkWorld {
  replies : nat -> reply;   (* the i-th HTTP call of the run gets [replies i] *)
  cursor : nat;             (* HTTP calls made so far *)
  now : Z;                  (* [time.time()], in milliseconds *)
  trace : list event        (* oldest first *)
}.

Definition M (A : Type) : Type := world -> result A * world.

Definition ret {A} (a : A) : M A := fun w => (Ret a, w).

Definition bind {A B} (m : M A) (f : A -> M B) : M B :=
  fun w =>
    match m w with
    | (Ret a, w') => f a w'
    | (Raise e, w') => (Raise e, w')
    | (Exit c, w') => (Exit c, w')
    | (OutOfFuel, w') => (OutOfFuel, w')
    end.

Declare Scope py_scope.
Delimit Scope py_scope with py.
Notation "x <- m ;; k" := (bind m (fun x => k))
  (at level 61, m at next level, right associativity) : py_scope.
Notation "m ;; k" := (bind m (fun _ => k))
  (at level 61, right associativity) : py_scope.
Open Scope py_scope.

Definition lift {A} (r : result A) : M A := fun w => (r, w).
Definition raise {A} (e : exn) : M A := lift (Raise e).
Definition sys_exit {A} (code : Z) : M A := lift (Exit code).

Definition emit (e : event) : M unit :=
  fun w => (Ret tt, mkWorld (replies w) (cursor w) (now w) (trace w ++ [e])%list).

Definition log (msg : fstring) : M unit := emit (Log msg).

(** [print()] *)
Definition print_blank : M unit := log [].

Definition time_time : M Z := fun w => (Ret (now w), w).

(** [time.sleep(s)] for an integer [s].  The length is first converted to
    a 64-bit count of nanoseconds, which overflows beyond [SLEEP_MAX]
    seconds either way (OverflowError); a negative length is then refused
    (ValueError); otherwise the clock moves on by [s] seconds. *)
Definition SLEEP_MAX : Z := 9223372036.

Definition sleep (s : Z) : M unit :=
  if (s <? - SLEEP_MAX) || (SLEEP_MAX <? s) then raise OverflowError
  else if s <? 0 then raise ValueError
  else fun w =>
    (Ret tt, mkWorld (replies w) (cursor w) (now w + 1000 * s)
                     (trace w ++ [Sleep s])%list).

(** One call of [requests]: the next scripted reply is consumed. *)
Definition send (m : method) (url : fstring) (json : value) : M reply :=
  fun w =>
    let r := replies w (cursor w) in
    (Ret r, mkWorld (replies w) (S (cursor w))
                    (now w + Z.of_N (latency_of r))
                    (trace w ++ [Request m url json])%list).

(** ** Process configuration (the module-level globals) *)

(** What [find_bundle_id] finds on disk: no project file, a project file
    without a [PRODUCT_BUNDLE_IDENTIFIER] line, or the identifier. *)
Inductive detection : Type :=
| NoProjectFile
| NoMatch
| Detected (bundle_id : string).

Record config : Type := mkConfig {
  API_KEY_ID : option string;             (* os.environ.get("APP_STORE_API_KEY_ID") *)
  ISSUER_ID : option string;              (* os.environ.get("APP_STORE_ISSUER_ID") *)
  APP_STORE_P8_KEY_PATH : option string;  (* the environment variable of that name *)
  expanduser : string -> string;          (* os.path.expanduser *)
  key_file_exists : bool;      (* os.path.exists(P8_KEY_PATH), the path being a string *)
  jwt_signs : bool;            (* jwt.encode succeeds on the key *)
  project_file : string -> detection
}.

Definition BASE_URL : string := "https://api.appstoreconnect.apple.com/v1".
Definition dquote : string := String (ascii_of_nat 34) EmptyString.
Definition RELEASE_NOTES : string := "Bug fixes and improvements.".

Definition env_set (v : option string) : bool :=
  match v with
  | Some s => negb (String.eqb s EmptyString)
  | None => false
  end.

(** [P8_KEY_PATH] (lines 53-56): the environment variable when it is set,
    else the default location under the home directory when there is a
    key identifier, else None. *)
Definition P8_KEY_PATH (cfg : config) : option string :=
  match APP_STORE_P8_KEY_PATH cfg with
  | Some path => Some path
  | None =>
      match API_KEY_ID cfg with
      | Some key_id =>
          if String.eqb key_id EmptyString then None
          else Some (expanduser cfg
                       ("~/.appstoreconnect/private_keys/AuthKey_" ++ key_id ++ ".p8"))
      | None => None
      end
  end.

(** The command line, as [argparse] hands it over. *)
Record arguments : Type := mkArguments {
  version : string;
  project_path : string;
  dry_run : bool;
  bundle_id : option string
}.

(** ** The bundle identifier in a project file (lines 122-136)

    [find_bundle_id] searches the text of [project.pbxproj] with two
    regular expressions.  Both are deterministic enough to be written as
    functions on the text: a match is tried at every position from the
    left, and at a position the greedy [\s*] and character classes leave
    one way to match at most.  Characters are those below 256. *)

(** [\s], and what [str.strip()] removes. *)
Definition is_space (c : ascii) : bool :=
  let n := nat_of_ascii c in
  ((9 <=? n)%nat && (n <=? 13)%nat) || ((28 <=? n)%nat && (n <=? 32)%nat)
  || (n =? 133)%nat || (n =? 160)%nat.

(** [[a-z0-9\.]] *)
Definition is_id_char (c : ascii) : bool :=
  let n := nat_of_ascii c in
  ((97 <=? n)%nat && (n <=? 122)%nat) || ((48 <=? n)%nat && (n <=? 57)%nat)
  || (n =? 46)%nat.

Definition is_quote (c : ascii) : bool := Ascii.eqb c (ascii_of_nat 34).

Definition is_semicolon (c : ascii) : bool := Ascii.eqb c ";".

Definition KEY : string := "PRODUCT_BUNDLE_IDENTIFIER".

Fixpoint strip_prefix (p s : string) : option string :=
  match p with
  | EmptyString => Some s
  | String a p' =>
      match s with
      | String b s' => if Ascii.eqb a b then strip_prefix p' s' else None
      | EmptyString => None
      end
  end.

(** [s.lstrip(chars)] and [s.rstrip(chars)] for the characters [p]. *)
Fixpoint lstrip (p : ascii -> bool) (s : string) : string :=
  match s with
  | EmptyString => EmptyString
  | String c s' => if p c then lstrip p s' else s
  end.

Fixpoint rstrip (p : ascii -> bool) (s : string) : string :=
  match s with
  | EmptyString => EmptyString
  | String c s' =>
      match rstrip p s' with
      | EmptyString => if p c then EmptyString else String c EmptyString
      | r => String c r
      end
  end.

Definition py_strip (p : ascii -> bool) (s : string) : string :=
  rstrip p (lstrip p s).

(** The longest prefix without a character of [stop], and the rest. *)
Fixpoint span_until (stop : ascii -> bool) (s : string) : string * string :=
  match s with
  | EmptyString => (EmptyString, EmptyString)
  | String c s' =>
      if stop c then (EmptyString, s)
      else let (run, rest) := span_until stop s' in (String c run, rest)
  end.

Fixpoint last_char (s : string) : string :=
  match s with
  | EmptyString => EmptyString
  | String c EmptyString => String c EmptyString
  | String _ s' => last_char s'
  end.

(** Group 1 of [PRODUCT_BUNDLE_IDENTIFIER\s*=\s*([^;]+);] matched at the
    start of [s].  The second [\s*] takes all the white space it can and
    gives one character back only when nothing else is left for the
    group. *)
Definition match_assignment (s : string) : option string :=
  match strip_prefix KEY s with
  | None => None
  | Some r =>
      match lstrip is_space r with
      | String eq t =>
          if Ascii.eqb eq "=" then
            let (run, rest) := span_until is_semicolon t in
            match rest, run with
            | EmptyString, _ => None
            | _, EmptyString => None
            | _, _ =>
                match lstrip is_space run with
                | EmptyString => Some (last_char run)
                | group => Some group
                end
            end
          else None
      | EmptyString => None
      end
  end.

(** Group 1 of [PRODUCT_BUNDLE_IDENTIFIER\s*=\s*"?([a-z0-9\.]+)"?;]
    matched at the start of [s]. *)
Definition match_literal (s : string) : option string :=
  match strip_prefix KEY s with
  | None => None
  | Some r =>
      match lstrip is_space r with
      | String eq t =>
          if Ascii.eqb eq "=" then
            let t1 := lstrip is_space t in
            let t2 := match t1 with
                      | String c t' => if is_quote c then t' else t1
                      | EmptyString => t1
                      end in
            let (group, rest) := span_until (fun c => negb (is_id_char c)) t2 in
            match group with
            | EmptyString => None
            | _ =>
                let rest' := match rest with
                             | String c r' => if is_quote c then r' else rest
                             | EmptyString => rest
                             end in
                match rest' with
                | String c _ => if is_semicolon c then Some group else None
                | EmptyString => None
                end
            end
          else None
      | EmptyString => None
      end
  end.

(** [re.search]: the match at the leftmost position that has one. *)
Fixpoint search {A} (pattern : string -> option A) (s : string) : option A :=
  match pattern s with
  | Some x => Some x
  | None =>
      match s with
      | EmptyString => None
      | String _ s' => search pattern s'
      end
  end.

(** Lines 123-136: the bundle identifier read from the text of the
    project file, None when the first expression does not match. *)
Definition bundle_id_of_content (content : string) : option string :=
  match search match_assignment content with
  | None => None
  | Some group =>
      let bundle_id := py_strip is_quote (py_strip is_space group) in
      match strip_prefix "$(" bundle_id with
      | Some _ =>
          match search match_literal content with
          | Some literal => Some literal
          | None => Some bundle_id
          end
      | None => Some bundle_id
      end
  end.

Fixpoint string_forall (p : ascii -> bool) (s : string) : bool :=
  match s with
  | EmptyString => true
  | String c s' => p c && string_forall p s'
  end.

(** A character an identifier can be written with as it is: not white
    space, not a quote, not a semicolon. *)
Definition is_plain (c : ascii) : bool :=
  negb (is_space c) && negb (is_quote c) && negb (is_semicolon c).

(** ** Concrete inputs for the examples *)

Definition digit_of (c : ascii) : option Z :=
  let n := nat_of_ascii c in
  if (48 <=? n)%nat && (n <=? 57)%nat then Some (Z.of_nat (n - 48)) else None.

Fixpoint decimal_from (acc : Z) (s : string) : option Z :=
  match s with
  | EmptyString => Some acc
  | String c s' =>
      match digit_of c with
      | Some d => decimal_from (10 * acc + d) s'
      | None => None
      end
  end.

(** An [int()] for the examples: plain decimal digits only. *)
Definition decimal (s : string) : option Z :=
  match s with
  | EmptyString => None
  | _ => decimal_from 0 s
  end.

(** An [expanduser] for the examples: the home directory is /home/dev. *)
Definition home_dev (path : string) : string :=
  match path with
  | String c rest => if Ascii.eqb c "~" then "/home/dev" ++ rest else path
  | EmptyString => path
  end.

Definition cfg0 : config :=
  mkConfig (Some "KEY123") (Some "ISSUER") None home_dev true true
           (fun _ => Detected "com.example.app").

(** A world that answers the calls with the replies of [l], then with
    [d] for ever. *)
Definition script (l : list reply) (d : reply) : world :=
  mkWorld (fun i => nth i l d) 0 0 [].

Definition http (status : Z) (b : body) : reply :=
  Responds 0 (mkResponse status None b).

Definition ok (j : value) : reply := http 200 (Json j).

Definition server_error : reply :=
  http 500 (Json (VDict [("errors", VList [VDict [("detail", VStr "boom")]])])).

Definition rate_limited (h : option string) : reply :=
  Responds 0 (mkResponse 429 h Empty).

Definition sleeps (t : list event) : list Z :=
  flat_map (fun e => match e with Sleep s => [s] | _ => [] end) t.

Definition requests (t : list event) : list (method * fstring) :=
  flat_map (fun e => match e with Request m u _ => [(m, u)] | _ => [] end) t.

Definition logs (t : list event) : list fstring :=
  flat_map (fun e => match e with Log m => [m] | _ => [] end) t.

Definition app_listing : value :=
  VDict [("data", VList [VDict [("id", VStr "app-1");
                                ("attributes", VDict [("name", VStr "Demo")])]])].

Definition build_30 (state : string) : value :=
  VDict [("id", VStr "b-30");
         ("attributes", VDict [("version", VStr "30");
                               ("processingState", VStr state)])].

Definition builds_listing (state : string) : value :=
  VDict [("data", VList [build_30 state])].

(** A listing that holds build 29 only. *)
Definition other_builds : value :=
  VDict [("data", VList [VDict [("id", VStr "b-29");
                                ("attributes", VDict [("version", VStr "29");
                                                      ("processingState", VStr "VALID")])]])].

Definition version_listing (state : string) : value :=
  VDict [("data", VList [VDict [("id", VStr "ver-1");
                                ("attributes", VDict [("appStoreState", VStr state)])]])].

Definition empty_listing : value := VDict [("data", VList [])].

Definition created : value := VDict [("data", VDict [("id", VStr "ver-1")])].

Definition localization (id locale : string) : value :=
  VDict [("id", VStr id); ("attributes", VDict [("locale", VStr locale)])].

Definition localizations_listing : value :=
  VDict [("data", VList [localization "l1" "en-US"; localization "l2" "de-DE"])].

Definition args_live : arguments :=
  mkArguments "1.13.0+30" "/project" false (Some "com.example.app").


(** The run finds version 1.13.0 already in review. *)
Definition world_in_review : world :=
  script [ok app_listing; ok (builds_listing "VALID"); ok (version_listing "IN_REVIEW")]
         server_error.

(** The version is not there yet and its creation fails three times. *)
Definition world_creation_fails : world :=
  script [ok app_listing; ok (builds_listing "VALID"); ok empty_listing]
         server_error.

(** The version exists, the build links, no localization is attached. *)
Definition world_no_localization : world :=
  script [ok app_listing; ok (builds_listing "VALID");
          ok (version_listing "PREPARE_FOR_SUBMISSION"); ok created; ok empty_listing]
         server_error.

Definition three_localizations : value :=
  VDict [("data", VList [localization "l1" "en-US"; localization "l2" "de-DE";
                         localization "l3" "fr-FR"])].

(** Two localizations; the update of the second one fails. *)
Definition world_partial_notes : world :=
  script [ok localizations_listing; ok created] server_error.

(** Everything goes through up to the review submission, which fails on
    both endpoints. *)
Definition world_submission_fails : world :=
  script [ok app_listing; ok (builds_listing "VALID");
          ok (version_listing "PREPARE_FOR_SUBMISSION"); ok created;
          ok localizations_listing; ok created; ok created]
         server_error.


(** The key file is not where the script looks for it. *)
Definition cfg_no_key : config :=
  mkConfig (Some "KEY123") (Some "ISSUER") None home_dev false true
           (fun _ => Detected "com.example.app").

(** Neither a key identifier nor a key path in the environment. *)
Definition cfg_no_path : config :=
  mkConfig None (Some "ISSUER") None home_dev true true
           (fun _ => Detected "com.example.app").

(** The issuer identifier is not set. *)
Definition cfg_no_issuer : config :=
  mkConfig (Some "KEY123") None None home_dev true true
           (fun _ => Detected "com.example.app").

(** The project file has no bundle identifier line. *)
Definition cfg_no_bundle : config :=
  mkConfig (Some "KEY123") (Some "ISSUER") None home_dev true true (fun _ => NoMatch).

Definition args_no_bundle : arguments :=
  mkArguments "1.13.0" "/project" false None.

Definition args_two_plus : arguments :=
  mkArguments "1.13.0+30+1" "/project" false (Some "com.example.app").

Definition unreadable_error : reply :=
  http 500 (Json (VDict [("errors", VList [])])).

(** The app lookup finds nothing. *)
Definition world_no_app : world := script [ok empty_listing] server_error.

(** The app is there, the builds listing is empty. *)
Definition world_no_build : world :=
  script [ok app_listing; ok empty_listing] server_error.

(** The version exists; the build link fails three times. *)
Definition world_link_fails : world :=
  script [ok app_listing; ok (builds_listing "VALID");
          ok (version_listing "PREPARE_FOR_SUBMISSION")]
         server_error.

(** Every call is answered at once. *)
Definition world_all_ok : world :=
  script [ok app_listing; ok (builds_listing "VALID");
          ok (version_listing "PREPARE_FOR_SUBMISSION"); ok created;
          ok localizations_listing]
         (ok created).

(** The localizations are listed; every update fails. *)
Definition world_notes_fail : world :=
  script [ok app_listing; ok (builds_listing "VALID");
          ok (version_listing "PREPARE_FOR_SUBMISSION"); ok created;
          ok localizations_listing]
         server_error.

(** Three localizations: the update of en-US goes through, the update of
    de-DE is answered with an HTTP 500 whose 'errors' list is empty, and
    every later call would go through. *)
Definition world_notes_abort : world :=
  script [ok app_listing; ok (builds_listing "VALID");
          ok (version_listing "PREPARE_FOR_SUBMISSION"); ok created;
          ok three_localizations; ok created; unreadable_error]
         (ok created).

(** The build is still processing on two polls and valid on the third. *)
Definition world_processing_twice : world :=
  script [ok (builds_listing "PROCESSING"); ok (builds_listing "PROCESSING")]
         (ok (builds_listing "VALID")).

Definition tab : string := String (ascii_of_nat 9) EmptyString.
Definition newline : string := String (ascii_of_nat 10) EmptyString.

Fixpoint for_each {A} (l : list A) (f : A -> M unit) : M unit :=
  match l with
  | [] => ret tt
  | x :: l' => f x ;; for_each l' f
  end.

Section Pipeline.

(** The built-in [int()] on a header string ([None]: ValueError), and
    whether this version of [requests] raises its JSON decoding error as a
    [RequestException] (2.27 and later) or as a plain [ValueError]. *)
Variable py_int : string -> option Z.
Variable json_error_is_request_exception : bool.
Variable cfg : config.

Definition check_environment_variables : M unit :=
  let missing :=
    ((if env_set (API_KEY_ID cfg) then [] else ["APP_STORE_API_KEY_ID"]) ++
     (if env_set (ISSUER_ID cfg) then [] else ["APP_STORE_ISSUER_ID"]))%list in
  match missing with
  | [] => ret tt
  | _ =>
      log [Lit "Missing required environment variables:"] ;;
      for_each missing (fun var => log [Lit "  - "; Lit var]) ;;
      print_blank ;;
      log [Lit "Set them with:"] ;;
      log [Lit "  export APP_STORE_API_KEY_ID=your_key_id"] ;;
      log [Lit "  export APP_STORE_ISSUER_ID=your_issuer_id"] ;;
      log [Lit "  export APP_STORE_P8_KEY_PATH=/path/to/AuthKey.p8  # optional"] ;;
      print_blank ;;
      log [Lit "You can find these in App Store Connect > Users and Access > Keys"] ;;
      sys_exit 1
  end.

Definition find_bundle_id (project_path : string) : M value :=
  log [Lit "Detecting bundle ID from Xcode project..."] ;;
  match project_file cfg project_path with
  | NoProjectFile =>
      log [Lit "Could not find project.pbxproj file"] ;;
      ret VNone
  | Detected bundle_id =>
      log [Lit "Found bundle ID: "; Lit bundle_id] ;;
      ret (VStr bundle_id)
  | NoMatch =>
      log [Lit "Could not parse bundle ID from project file"] ;;
      ret VNone
  end.

(** [os.path.exists] raises TypeError on a path that is None. *)
Definition generate_jwt_token : M unit :=
  match P8_KEY_PATH cfg with
  | None => raise TypeError
  | Some path =>
      if negb (key_file_exists cfg) then
        log [Lit "P8 key file not found: "; Lit path] ;;
        log [Lit "Set APP_STORE_P8_KEY_PATH or place the key at the default location"] ;;
        sys_exit 1
      else if jwt_signs cfg then ret tt
      else
        log [Lit "Failed to generate JWT token: "; FmtLibError] ;;
        sys_exit 1
  end.

(** [int(response.headers.get('Retry-After', 60))] *)
Definition retry_after_seconds (r : response) : result Z :=
  match retry_after r with
  | None => Ret 60
  | Some s => match py_int s with Some n => Ret n | None => Raise ValueError end
  end.

(** [error_data.get('errors', [{}])[0].get('detail', 'Unknown error')] *)
Definition error_detail (error_data : value) : result value :=
  rbind (py_get error_data "errors" (VList [VDict []])) (fun errors =>
  rbind (py_first errors) (fun e0 =>
  py_get e0 "detail" (VStr "Unknown error"))).

(** The body of [for attempt in range(retries)]; [remaining] counts the
    iterations of the range still to run, this one included. *)
Fixpoint attempt_loop (m : method) (url : fstring) (data : value)
    (retries : Z) (remaining : nat) (attempt : Z) {struct remaining} : M value :=
  match remaining with
  | O => ret VNone
  | S remaining' =>
      let continue := attempt_loop m url data retries remaining' (attempt + 1) in
      let back_off :=
        if attempt <? retries - 1 then
          sleep (5 * (attempt + 1)) ;; continue
        else ret VNone in
      let request_exception :=
        log [Lit "Network error: "; FmtLibError] ;; back_off in
      let response_json (b : body) (k : value -> M value) : M value :=
        match b with
        | Json v => k v
        | _ => if json_error_is_request_exception then request_exception
               else raise ValueError
        end in
      r <- send m url (match m with GET => VNone | _ => data end) ;;
      match r with
      | Responds _ resp =>
          if status_code resp =? 429 then
            wait_time <- lift (retry_after_seconds resp) ;;
            log [Lit "Rate limited. Waiting "; Fmt (VInt wait_time); Lit "s..."] ;;
            sleep wait_time ;;
            continue
          else if status_code resp >=? 400 then
            let handle (error_data : value) : M value :=
              error_msg <- lift (error_detail error_data) ;;
              log [Lit "API Error ("; Fmt (VInt (status_code resp)); Lit "): ";
                   Fmt error_msg] ;;
              if attempt <? retries - 1 then
                log [Lit "Retrying... (attempt "; Fmt (VInt (attempt + 2));
                     Lit "/"; Fmt (VInt retries); Lit ")"] ;;
                sleep (5 * (attempt + 1)) ;;
                continue
              else ret VNone in
            match content resp with
            | Empty => handle (VDict [])
            | b => response_json b handle
            end
          else response_json (content resp) ret
      | TimesOut _ =>
          log [Lit "Request timed out"] ;;
          back_off
      | NetworkError _ => request_exception
      | Interrupted _ => raise KeyboardInterrupt
      end
  end.

Definition make_api_request_with (m : method) (endpoint : fstring)
    (data : value) (retries : Z) : M value :=
  generate_jwt_token ;;
  attempt_loop m (Lit BASE_URL :: endpoint) data retries (Z.to_nat retries) 0.

(** [make_api_request(method, endpoint, data=None, retries=3)]; no caller
    passes [retries]. *)
Definition make_api_request (m : method) (endpoint : fstring) (data : value) : M value :=
  make_api_request_with m endpoint data 3.

(** [not response or not response.get('data')] *)
Definition no_data (response : value) : result bool :=
  if negb (py_truthy response) then Ret true
  else rbind (py_get response "data" VNone) (fun data =>
       Ret (negb (py_truthy data))).

Definition find_app_by_bundle_id (bundle_id : value) : M value :=
  log [Lit "Finding app with bundle ID: "; Fmt bundle_id] ;;
  response <- make_api_request GET [Lit "/apps?filter[bundleId]="; Fmt bundle_id] VNone ;;
  empty <- lift (no_data response) ;;
  if (empty : bool) then
    log [Lit "App not found with bundle ID: "; Fmt bundle_id] ;;
    log [Lit "Make sure the app exists in App Store Connect"] ;;
    ret VNone
  else
    app_id <- lift (rbind (py_item response "data") (fun data =>
                    rbind (py_first data) (fun app => py_item app "id"))) ;;
    app_name <- lift (rbind (py_item response "data") (fun data =>
                      rbind (py_first data) (fun app =>
                      rbind (py_item app "attributes") (fun attrs =>
                      py_item attrs "name")))) ;;
    short_id <- lift (py_slice12 app_id) ;;
    log [Lit "Found app: "; Fmt app_name; Lit " (ID: "; Fmt short_id; Lit "...)"] ;;
    ret app_id.

(** The search of lines 284-288: the first build whose version label
    equals the expected build number, or None. *)
Fixpoint find_build (expected_build_number : value) (builds : list value)
    : result value :=
  match builds with
  | [] => Ret VNone
  | build :: rest =>
      rbind (py_item build "attributes") (fun attrs =>
      rbind (py_get attrs "version" (VStr EmptyString)) (fun build_version =>
      if py_eq build_version expected_build_number then Ret build
      else find_build expected_build_number rest))
  end.

(** [target_build['attributes'].get('processingState', 'UNKNOWN')] and
    [target_build['attributes'].get('version', 'unknown')] (lines 310-311). *)
Definition build_state (target_build : value) : result value :=
  rbind (py_item target_build "attributes") (fun attrs =>
  py_get attrs "processingState" (VStr "UNKNOWN")).

Definition build_label (target_build : value) : result value :=
  rbind (py_item target_build "attributes") (fun attrs =>
  py_get attrs "version" (VStr "unknown")).

(** Lines 280-307: the build the poll settles on, None when the expected
    build number is not in the listing yet. *)
Definition target_of (expected_build_number response : value) : result value :=
  if py_truthy expected_build_number then
    rbind (py_item response "data") (fun data =>
    rbind (py_iter data) (find_build expected_build_number))
  else
    rbind (py_item response "data") py_first.

Definition builds_endpoint (app_id : value) : fstring :=
  [Lit "/builds?filter[app]="; Fmt app_id; Lit "&sort=-uploadedDate&limit=5"].

(** The [while True] loop of [wait_for_build_processing]; [fuel] bounds the
    number of polls the model follows. *)
Fixpoint wait_loop (fuel : nat) (app_id expected_build_number : value)
    (max_wait_minutes start_time : Z) (last_state last_version : value)
    {struct fuel} : M value :=
  match fuel with
  | O => lift OutOfFuel
  | S fuel' =>
      let max_wait_seconds := max_wait_minutes * 60 in
      let found (target_build : value) : M value :=
        build_id <- lift (py_item target_build "id") ;;
        processing_state <- lift (build_state target_build) ;;
        version <- lift (build_label target_build) ;;
        let changed := negb (py_eq processing_state last_state)
                       || negb (py_eq version last_version) in
        (if changed then
           log [Lit "Build "; Fmt version; Lit " - State: "; Fmt processing_state]
         else ret tt) ;;
        let last_state' := if changed then processing_state else last_state in
        let last_version' := if changed then version else last_version in
        if py_eq processing_state (VStr "VALID") then
          log [Lit "Build "; Fmt version; Lit " is ready!"] ;;
          ret build_id
        else if py_eq processing_state (VStr "INVALID") then
          log [Lit "Build "; Fmt version; Lit " processing failed"] ;;
          log [Lit "Check App Store Connect for details"] ;;
          ret VNone
        else
          t <- time_time ;;
          let elapsed := t - start_time in
          if elapsed >? 1000 * max_wait_seconds then
            log [Lit "Timeout after "; Fmt (VInt max_wait_minutes); Lit " minutes"] ;;
            log [Lit "Build "; Fmt version;
                 Lit " is still processing. Run this script again later:"] ;;
            log [Lit "  ./submit_to_app_store.py "; Fmt version] ;;
            ret VNone
          else
            sleep (if py_truthy target_build
                      && negb (py_eq processing_state (VStr "PROCESSING"))
                   then 30 else 5) ;;
            wait_loop fuel' app_id expected_build_number max_wait_minutes
                      start_time last_state' last_version' in
      response <- make_api_request GET (builds_endpoint app_id) VNone ;;
      empty <- lift (no_data response) ;;
      if (empty : bool) then
        log [Lit "No builds found"] ;;
        log [Lit "Make sure you uploaded the IPA with xcrun altool first"] ;;
        ret VNone
      else if py_truthy expected_build_number then
        target_build <- lift (target_of expected_build_number response) ;;
        if negb (py_truthy target_build) then
          t <- time_time ;;
          let elapsed := t - start_time in
          if elapsed >? 1000 * max_wait_seconds then
            log [Lit "Timeout after "; Fmt (VInt max_wait_minutes); Lit " minutes"] ;;
            log [Lit "Build "; Fmt expected_build_number;
                 Lit " never appeared in App Store Connect"] ;;
            log [Lit "Check App Store Connect to verify the upload succeeded"] ;;
            ret VNone
          else
            (if (Z.quot elapsed 1000 mod 30 =? 0) && (elapsed >? 0) then
               log [Lit "Still waiting for build "; Fmt expected_build_number;
                    Lit " to appear... ("; Fmt (VInt (Z.quot elapsed 1000));
                    Lit "s elapsed)"]
             else ret tt) ;;
            sleep 5 ;;
            wait_loop fuel' app_id expected_build_number max_wait_minutes
                      start_time last_state last_version
        else found target_build
      else
        target_build <- lift (target_of expected_build_number response) ;;
        found target_build
  end.

Definition wait_for_build_processing (fuel : nat) (app_id expected_build_number : value)
    (max_wait_minutes : Z) (dry_run : bool) : M value :=
  (if py_truthy expected_build_number then
     log [Lit "Waiting for build "; Fmt expected_build_number;
          Lit " to finish processing (max "; Fmt (VInt max_wait_minutes); Lit " min)..."]
   else
     log [Lit "Waiting for latest build to finish processing (max ";
          Fmt (VInt max_wait_minutes); Lit " min)..."]) ;;
  if dry_run then
    log [Lit "[DRY RUN] Skipping build processing wait"] ;;
    ret (VStr "dry-run-build-id")
  else
    start_time <- time_time ;;
    wait_loop fuel app_id expected_build_number max_wait_minutes start_time VNone VNone.

Definition submitted_states : list string :=
  ["WAITING_FOR_REVIEW"; "IN_REVIEW"; "PENDING_DEVELOPER_RELEASE"; "READY_FOR_SALE"].

Definition versions_endpoint (app_id : value) (version_string : string) : fstring :=
  [Lit "/apps/"; Fmt app_id;
   Lit "/appStoreVersions?filter[platform]=IOS&filter[versionString]=";
   Lit version_string].

(** [response['data'][0]['id']] and
    [response['data'][0]['attributes'].get('appStoreState', 'UNKNOWN')]
    (lines 353-354). *)
Definition first_version_id (response : value) : result value :=
  rbind (py_item response "data") (fun data =>
  rbind (py_first data) (fun v => py_item v "id")).

Definition first_version_state (response : value) : result value :=
  rbind (py_item response "data") (fun data =>
  rbind (py_first data) (fun v =>
  rbind (py_item v "attributes") (fun attrs =>
  py_get attrs "appStoreState" (VStr "UNKNOWN")))).

Definition get_or_create_version (app_id : value) (version_string : string)
    (dry_run : bool) : M value :=
  log [Lit "Looking for version "; Lit version_string; Lit "..."] ;;
  response <- make_api_request GET (versions_endpoint app_id version_string) VNone ;;
  if negb (py_truthy response) then ret VNone
  else
    data <- lift (py_get response "data" VNone) ;;
    if py_truthy data then
      version_id <- lift (first_version_id response) ;;
      state <- lift (first_version_state response) ;;
      log [Lit "Found existing version: "; Lit version_string; Lit " (State: ";
           Fmt state; Lit ")"] ;;
      if py_in state submitted_states then
        log [Lit "Version already in state: "; Fmt state] ;;
        log [Lit "Skipping submission (already submitted)"] ;;
        ret VNone
      else ret version_id
    else if dry_run then
      log [Lit "[DRY RUN] Would create new version "; Lit version_string] ;;
      ret (VStr "dry-run-version-id")
    else
      log [Lit "Creating new version "; Lit version_string; Lit "..."] ;;
      let data :=
        VDict [("data", VDict [
          ("type", VStr "appStoreVersions");
          ("attributes", VDict [("platform", VStr "IOS");
                                ("versionString", VStr version_string)]);
          ("relationships", VDict [
             ("app", VDict [("data", VDict [("type", VStr "apps"); ("id", app_id)])])])])] in
      response <- make_api_request POST [Lit "/appStoreVersions"] data ;;
      if negb (py_truthy response) then ret VNone
      else
        version_id <- lift (rbind (py_item response "data") (fun d => py_item d "id")) ;;
        log [Lit "Created version: "; Lit version_string] ;;
        ret version_id.

Definition link_build_to_version (version_id build_id : value) (dry_run : bool)
    : M bool :=
  if dry_run then
    log [Lit "[DRY RUN] Would link build to version"] ;;
    ret true
  else
    log [Lit "Linking build to version..."] ;;
    let data :=
      VDict [("data", VDict [
        ("type", VStr "appStoreVersions");
        ("id", version_id);
        ("relationships", VDict [
           ("build", VDict [("data", VDict [("type", VStr "builds"); ("id", build_id)])])])])] in
    response <- make_api_request PATCH [Lit "/appStoreVersions/"; Fmt version_id] data ;;
    if negb (py_truthy response) then ret false
    else
      log [Lit "Build linked to version"] ;;
      ret true.

(** [loc['attributes']['locale']] (line 452). *)
Definition locale_of (loc : value) : result value :=
  rbind (py_item loc "attributes") (fun attrs => py_item attrs "locale").

(** The [for loc in localizations] loop, threading [success_count]. *)
Fixpoint update_locales (release_notes : string) (localizations : list value)
    (success_count : Z) {struct localizations} : M Z :=
  match localizations with
  | [] => ret success_count
  | loc :: rest =>
      locale_code <- lift (locale_of loc) ;;
      loc_id <- lift (py_item loc "id") ;;
      let data :=
        VDict [("data", VDict [
          ("type", VStr "appStoreVersionLocalizations");
          ("id", loc_id);
          ("attributes", VDict [("whatsNew", VStr release_notes)])])] in
      response <- make_api_request PATCH
                    [Lit "/appStoreVersionLocalizations/"; Fmt loc_id] data ;;
      if py_truthy response then
        log [Lit "Added release notes for "; Fmt locale_code] ;;
        update_locales release_notes rest (success_count + 1)
      else
        log [Lit "Failed to add release notes for "; Fmt locale_code] ;;
        update_locales release_notes rest success_count
  end.

Definition localizations_endpoint (version_id : value) : fstring :=
  [Lit "/appStoreVersions/"; Fmt version_id; Lit "/appStoreVersionLocalizations"].

Definition add_release_notes_all_locales (version_id : value)
    (release_notes : string) (dry_run : bool) : M bool :=
  if dry_run then
    log [Lit "[DRY RUN] Would add release notes to all locales: "; Lit dquote;
         Lit release_notes; Lit dquote] ;;
    ret true
  else
    log [Lit "Adding release notes for all localizations..."] ;;
    response <- make_api_request GET (localizations_endpoint version_id) VNone ;;
    if negb (py_truthy response) then ret false
    else
      localizations <- lift (py_get response "data" (VList [])) ;;
      if negb (py_truthy localizations) then
        log [Lit "No localizations found"] ;;
        ret false
      else
        total_count <- lift (py_len localizations) ;;
        locs <- lift (py_iter localizations) ;;
        success_count <- update_locales release_notes locs 0 ;;
        if success_count =? total_count then
          log [Lit "Release notes added to all "; Fmt (VInt total_count);
               Lit " localizations"] ;;
          ret true
        else if success_count >? 0 then
          log [Lit "Release notes added to "; Fmt (VInt success_count); Lit "/";
               Fmt (VInt total_count); Lit " localizations"] ;;
          ret true
        else
          log [Lit "Failed to add release notes to any localization"] ;;
          ret false.

Definition submit_for_review_legacy (version_id : value) : M bool :=
  let data :=
    VDict [("data", VDict [
      ("type", VStr "appStoreVersionSubmissions");
      ("relationships", VDict [
         ("appStoreVersion",
          VDict [("data", VDict [("type", VStr "appStoreVersions");
                                 ("id", version_id)])])])])] in
  response <- make_api_request POST [Lit "/appStoreVersionSubmissions"] data ;;
  if negb (py_truthy response) then
    log [Lit "Submission failed - may require manual action"] ;;
    log [Lit "Please check App Store Connect and submit manually"] ;;
    ret false
  else
    log [Lit "Submitted for review!"] ;;
    ret true.

Definition submit_for_review (version_id app_id : value) (dry_run : bool) : M bool :=
  if dry_run then
    log [Lit "[DRY RUN] Would submit for review"] ;;
    ret true
  else
    log [Lit "Submitting for review..."] ;;
    log [Lit "Creating review submission..."] ;;
    let create_data :=
      VDict [("data", VDict [
        ("type", VStr "reviewSubmissions");
        ("relationships", VDict [
           ("app", VDict [("data", VDict [("type", VStr "apps"); ("id", app_id)])])])])] in
    response <- make_api_request POST [Lit "/reviewSubmissions"] create_data ;;
    if negb (py_truthy response) then
      log [Lit "Trying legacy submission endpoint..."] ;;
      submit_for_review_legacy version_id
    else
      submission_id <- lift (rbind (py_item response "data") (fun d => py_item d "id")) ;;
      log [Lit "Created review submission: "; Fmt submission_id] ;;
      log [Lit "Adding version to submission..."] ;;
      let item_data :=
        VDict [("data", VDict [
          ("type", VStr "reviewSubmissionItems");
          ("relationships", VDict [
             ("reviewSubmission",
              VDict [("data", VDict [("type", VStr "reviewSubmissions");
                                     ("id", submission_id)])]);
             ("appStoreVersion",
              VDict [("data", VDict [("type", VStr "appStoreVersions");
                                     ("id", version_id)])])])])] in
      response <- make_api_request POST [Lit "/reviewSubmissionItems"] item_data ;;
      if negb (py_truthy response) then
        log [Lit "Failed to add version to submission"] ;;
        log [Lit "Please submit manually via App Store Connect"] ;;
        ret false
      else
        log [Lit "Confirming submission..."] ;;
        let confirm_data :=
          VDict [("data", VDict [
            ("type", VStr "reviewSubmissions");
            ("id", submission_id);
            ("attributes", VDict [("submitted", VBool true)])])] in
        response <- make_api_request PATCH
                      [Lit "/reviewSubmissions/"; Fmt submission_id] confirm_data ;;
        if negb (py_truthy response) then
          log [Lit "Failed to confirm submission"] ;;
          log [Lit "Please submit manually via App Store Connect"] ;;
          ret false
        else
          log [Lit "Submitted for review!"] ;;
          ret true.

(** Lines 608-616 of [main]: the version part and the build number. *)
Definition parse_version (version_string : string) : result (string * value) :=
  if py_contains "+" version_string then
    match py_split "+" version_string with
    | [version_part; build_number] => Ret (version_part, VStr build_number)
    | _ => Raise ValueError   (* the two-name unpacking fails *)
    end
  else Ret (version_string, VNone).

Definition rule : string :=
  "============================================================".

(** [main], cut at the numbered stage comments of the source.  Lines
    594-640: banner, environment, version parsing, bundle identifier (# 1),
    app lookup (# 2) and build wait (# 3). *)
Record located : Type := mkLocated {
  version_part : string;
  build_number : value;
  app_id : value;
  build_id : value
}.

Definition locate_build (fuel : nat) (args : arguments) : M located :=
  log [Lit rule] ;;
  log [Lit "App Store Connect Automation"] ;;
  log [Lit "Built by Filip Kowalski | @filippkowalski | fkowalski.com"] ;;
  log [Lit rule] ;;
  check_environment_variables ;;
  (if dry_run args then
     log [Lit "DRY RUN MODE - No changes will be made"] ;; print_blank
   else ret tt) ;;
  parsed <- lift (parse_version (version args)) ;;
  let version_part := fst parsed in
  let build_number := snd parsed in
  (if py_contains "+" (version args) then
     log [Lit "Parsed: Version "; Lit version_part; Lit ", Build "; Fmt build_number]
   else
     log [Lit "Version "; Lit version_part; Lit " (no specific build number)"]) ;;
  print_blank ;;
  bundle <- (if env_set (bundle_id args)
             then ret (match bundle_id args with Some b => VStr b | None => VNone end)
             else find_bundle_id (project_path args)) ;;
  if negb (py_truthy bundle) then
    log [Lit "Could not detect bundle ID. Use --bundle-id to specify manually"] ;;
    sys_exit 1
  else
    print_blank ;;
    app_id <- find_app_by_bundle_id bundle ;;
    if negb (py_truthy app_id) then sys_exit 1
    else
      print_blank ;;
      build_id <- wait_for_build_processing fuel app_id build_number 60 (dry_run args) ;;
      if negb (py_truthy build_id) then sys_exit 1
      else
        print_blank ;;
        ret (mkLocated version_part build_number app_id build_id).

(** Lines 642-655: version resolution (# 4) and build link (# 5). *)
Definition link_version (fuel : nat) (args : arguments) : M (located * value) :=
  b <- locate_build fuel args ;;
  version_id <- get_or_create_version (app_id b) (version_part b) (dry_run args) ;;
  if negb (py_truthy version_id) then
    (if negb (dry_run args) then log [Lit "Version may already be submitted"]
     else ret tt) ;;
    sys_exit 0
  else
    print_blank ;;
    linked <- link_build_to_version version_id (build_id b) (dry_run args) ;;
    if negb linked then sys_exit 1
    else
      print_blank ;;
      ret (b, version_id).

(** Lines 657-661: release notes (# 6). *)
Definition annotate_version (fuel : nat) (args : arguments) : M (located * value) :=
  bv <- link_version fuel args ;;
  noted <- add_release_notes_all_locales (snd bv) RELEASE_NOTES (dry_run args) ;;
  if negb noted then sys_exit 1
  else
    print_blank ;;
    ret bv.

(** Lines 663-679: review submission (# 7) and the summary. *)
Definition main (fuel : nat) (args : arguments) : M unit :=
  bv <- annotate_version fuel args ;;
  let b := fst bv in
  submission_success <- submit_for_review (snd bv) (app_id b) (dry_run args) ;;
  print_blank ;;
  log [Lit rule] ;;
  (if dry_run args then
     log [Lit "DRY RUN COMPLETE - No changes were made"]
   else if (submission_success : bool) then
     log [Lit "Success! App submitted for review"]
   else
     log [Lit "Setup complete, but submission requires manual action"] ;;
     log [Lit "Version created and configured - please submit via App Store Connect"]) ;;
  log [Lit rule] ;;
  print_blank ;;
  log ([Lit "Version: "; Lit (version_part b)] ++
       (if py_truthy (build_number b)
        then [Lit " (Build "; Fmt (build_number b); Lit ")"] else []))%list ;;
  log [Lit "Release notes: "; Lit RELEASE_NOTES] ;;
  log [Lit "View status: https://appstoreconnect.apple.com"].

(** The [__main__] guard: the exit status of the process, or [None] when
    the model's loop bound ran out first. *)
Definition program (fuel : nat) (args : arguments) (w : world) : option Z * world :=
  match main fuel args w with
  | (Ret _, w') => (Some 0, w')
  | (Exit code, w') => (Some code, w')
  | (Raise KeyboardInterrupt, w') =>
      (Some 130, snd ((print_blank ;; log [Lit "Interrupted by user"]) w'))
  | (Raise e, w') =>
      (Some 1, snd ((print_blank ;; log [Lit "Unexpected error: "; FmtExn e]) w'))
  | (OutOfFuel, w') => (None, w')
  end.

(** ** Vocabulary of the statements *)

Local Open Scope list_scope.

(** The JSON document [requests] is given to send: none on a GET. *)
Definition sent (m : method) (data : value) : value :=
  match m with GET => VNone | _ => data end.

(** [calls_le k c]: the computation [c] makes at most [k] HTTP calls. *)
Definition calls_le {A} (k : nat) (c : M A) : Prop :=
  forall w, (cursor (snd (c w)) <= cursor w + k)%nat.

(** A reply that sends [make_api_request] down one of its three retry
    paths: an HTTP error other than 429 whose body the error report can
    read, a timeout, or a network error. *)
Definition plain_failure (r : reply) : bool :=
  match r with
  | Responds _ resp =>
      (status_code resp >=? 400) && negb (status_code resp =? 429) &&
      match content resp with
      | Empty => true
      | Malformed => json_error_is_request_exception
      | Json error_data =>
          match error_detail error_data with Ret _ => true | _ => false end
      end
  | TimesOut _ | NetworkError _ => true
  | Interrupted _ => false
  end.

(** The signing key is in place: [generate_jwt_token] returns. *)
Definition key_ready : bool :=
  match P8_KEY_PATH cfg with
  | Some _ => key_file_exists cfg && jwt_signs cfg
  | None => false
  end.

(** The world after more events, and after a sleep of [s] seconds. *)
Definition record (w : world) (evs : list event) : world :=
  mkWorld (replies w) (cursor w) (now w) (trace w ++ evs).

Definition asleep (w : world) (s : Z) : world :=
  mkWorld (replies w) (cursor w) (now w + 1000 * s) (trace w ++ [Sleep s]).

(** The progress line of line 315. *)
Definition progress_line (version processing_state : value) : event :=
  Log [Lit "Build "; Fmt version; Lit " - State: "; Fmt processing_state].

(** The line of line 320. *)
Definition ready_line (version : value) : event :=
  Log [Lit "Build "; Fmt version; Lit " is ready!"].

(** [processing_state != last_state or version != last_version] *)
Definition changed (processing_state version last_state last_version : value) : bool :=
  negb (py_eq processing_state last_state) || negb (py_eq version last_version).

(** The pause of line 336. *)
Definition nap (target_build processing_state : value) : Z :=
  if py_truthy target_build && negb (py_eq processing_state (VStr "PROCESSING"))
  then 30 else 5.

(** The first line of [wait_for_build_processing] (lines 253-256). *)
Definition wait_header (expected : value) (max_wait_minutes : Z) : event :=
  if py_truthy expected then
    Log [Lit "Waiting for build "; Fmt expected;
         Lit " to finish processing (max "; Fmt (VInt max_wait_minutes); Lit " min)..."]
  else
    Log [Lit "Waiting for latest build to finish processing (max ";
         Fmt (VInt max_wait_minutes); Lit " min)..."].

(** A builds listing that keeps the wait going: it is not empty, and the
    expected build is not in it yet, or the build the poll settles on is
    in a state other than VALID and INVALID. *)
Definition keeps_waiting (expected response : value) : bool :=
  match no_data response, target_of expected response with
  | Ret false, Ret target =>
      if py_truthy expected && negb (py_truthy target) then true
      else
        match py_item target "id", build_state target, build_label target with
        | Ret _, Ret ps, Ret _ =>
            negb (py_eq ps (VStr "VALID")) && negb (py_eq ps (VStr "INVALID"))
        | _, _, _ => false
        end
  | _, _ => false
  end.

(** From [w] on every poll of the builds listing, at whatever reply of
    the script it starts, comes back within [D] milliseconds (at once,
    after retries, or after a rate-limit pause) with a listing that keeps
    the wait going. *)
Definition keeps_polling (app expected : value) (D : Z) (w : world) : Prop :=
  forall w1 : world,
    replies w1 = replies w -> (cursor w <= cursor w1)%nat ->
    exists (response : value) (w2 : world),
      make_api_request GET (builds_endpoint app) VNone w1 = (Ret response, w2) /\
      keeps_waiting expected response = true /\
      now w2 - now w1 <= D.

(** [steady c]: [c] leaves the script of replies as it is, consumes the
    replies in order and never turns the clock back. *)
Definition steady {A} (c : M A) : Prop :=
  forall w,
    replies (snd (c w)) = replies w /\
    (cursor w <= cursor (snd (c w)))%nat /\
    now w <= now (snd (c w)).

(** [emits P c]: whatever the world, [c] only adds events accepted by [P]
    to the trace. *)
Definition emits {A} (P : event -> bool) (c : M A) : Prop :=
  forall w, exists evs : list event,
    trace (snd (c w)) = trace w ++ evs /\ forallb P evs = true.

Definition method_eqb (a b : method) : bool :=
  match a, b with
  | GET, GET | POST, POST | PATCH, PATCH => true
  | _, _ => false
  end.

(** The events of one [make_api_request(m, ...)] call: requests with
    method [m], sleeps, and the helper's own log lines. *)
Definition helper_event (m : method) (e : event) : bool :=
  match e with
  | Sleep _ => true
  | Request m' _ _ => method_eqb m m'
  | Log (Lit s :: _) =>
      existsb (String.eqb s)
        ["Rate limited. Waiting "; "API Error ("; "Retrying... (attempt ";
         "Request timed out"; "Network error: "; "P8 key file not found: ";
         "Set APP_STORE_P8_KEY_PATH or place the key at the default location";
         "Failed to generate JWT token: "]
  | Log _ => false
  end.

(** A POST or PATCH request: the calls that change the remote state. *)
Definition mutating (e : event) : bool :=
  match e with
  | Request POST _ _ | Request PATCH _ _ => true
  | _ => false
  end.

Definition calm (e : event) : bool := negb (mutating e).


(** The per-locale report lines of lines 467 and 470: the locale and
    whether its update went through. *)
Definition report_of (e : event) : option (value * bool) :=
  match e with
  | Log [Lit s; Fmt locale] =>
      if String.eqb s "Added release notes for " then Some (locale, true)
      else if String.eqb s "Failed to add release notes for " then Some (locale, false)
      else None
  | _ => None
  end.

Definition reports (evs : list event) : list (value * bool) :=
  flat_map (fun e => match report_of e with Some r => [r] | None => [] end) evs.

Definition unreported (e : event) : bool :=
  match report_of e with None => true | Some _ => false end.

(** How many of the reports are successes. *)
Definition updated (rs : list (value * bool)) : Z :=
  Z.of_nat (List.length (filter snd rs)).

(** The summary the run writes after a review submission that did not go
    through (lines 666-679). *)
Definition manual_action_summary (b : located) : list event :=
  [Log [];
   Log [Lit rule];
   Log [Lit "Setup complete, but submission requires manual action"];
   Log [Lit "Version created and configured - please submit via App Store Connect"];
   Log [Lit rule];
   Log [];
   Log ([Lit "Version: "; Lit (version_part b)] ++
        (if py_truthy (build_number b)
         then [Lit " (Build "; Fmt (build_number b); Lit ")"] else []));
   Log [Lit "Release notes: "; Lit RELEASE_NOTES];
   Log [Lit "View status: https://appstoreconnect.apple.com"]].

(** What [main] writes before it looks for the bundle identifier (lines
    594-618), given the parsed version. *)
Definition banner : list event :=
  [Log [Lit rule];
   Log [Lit "App Store Connect Automation"];
   Log [Lit "Built by Filip Kowalski | @filippkowalski | fkowalski.com"];
   Log [Lit rule]].

Definition dry_run_notice (args : arguments) : list event :=
  if dry_run args
  then [Log [Lit "DRY RUN MODE - No changes will be made"]; Log []]
  else [].

Definition startup_events (args : arguments) (parsed : string * value) : list event :=
  banner ++ dry_run_notice args ++
  [if py_contains "+" (version args) then
     Log [Lit "Parsed: Version "; Lit (fst parsed); Lit ", Build "; Fmt (snd parsed)]
   else
     Log [Lit "Version "; Lit (fst parsed); Lit " (no specific build number)"];
   Log []].

(** [args.bundle_id or find_bundle_id(args.project_path)] (line 621): the
    value, and the lines written on the way. *)
Definition resolved_bundle (args : arguments) : value :=
  if env_set (bundle_id args) then
    match bundle_id args with Some b => VStr b | None => VNone end
  else
    match project_file cfg (project_path args) with
    | Detected b => VStr b
    | _ => VNone
    end.

Definition bundle_events (args : arguments) : list event :=
  if env_set (bundle_id args) then []
  else
    [Log [Lit "Detecting bundle ID from Xcode project..."];
     match project_file cfg (project_path args) with
     | NoProjectFile => Log [Lit "Could not find project.pbxproj file"]
     | Detected b => Log [Lit "Found bundle ID: "; Lit b]
     | NoMatch => Log [Lit "Could not parse bundle ID from project file"]
     end].

(** Both credentials are set in the environment. *)
Definition credentials_set : bool :=
  env_set (API_KEY_ID cfg) && env_set (ISSUER_ID cfg).

Definition apps_endpoint (bundle : value) : fstring :=
  [Lit "/apps?filter[bundleId]="; Fmt bundle].

(** What [check_environment_variables] writes when [missing] is not empty
    (lines 85-95). *)
Definition missing_report (missing : list string) : list event :=
  [Log [Lit "Missing required environment variables:"]] ++
  map (fun var => Log [Lit "  - "; Lit var]) missing ++
  [Log [];
   Log [Lit "Set them with:"];
   Log [Lit "  export APP_STORE_API_KEY_ID=your_key_id"];
   Log [Lit "  export APP_STORE_ISSUER_ID=your_issuer_id"];
   Log [Lit "  export APP_STORE_P8_KEY_PATH=/path/to/AuthKey.p8  # optional"];
   Log [];
   Log [Lit "You can find these in App Store Connect > Users and Access > Keys"]].

Definition missing_variables : list string :=
  (if env_set (API_KEY_ID cfg) then [] else ["APP_STORE_API_KEY_ID"]) ++
  (if env_set (ISSUER_ID cfg) then [] else ["APP_STORE_ISSUER_ID"]).

(** [main] from line 622 to line 640, once the version is parsed and the
    bundle identifier resolved. *)
Definition after_bundle (fuel : nat) (args : arguments) (parsed : string * value)
    (bundle : value) : M located :=
  if negb (py_truthy bundle) then
    log [Lit "Could not detect bundle ID. Use --bundle-id to specify manually"] ;;
    sys_exit 1
  else
    print_blank ;;
    app_id <- find_app_by_bundle_id bundle ;;
    if negb (py_truthy app_id) then sys_exit 1
    else
      print_blank ;;
      build_id <- wait_for_build_processing fuel app_id (snd parsed) 60 (dry_run args) ;;
      if negb (py_truthy build_id) then sys_exit 1
      else
        print_blank ;;
        ret (mkLocated (fst parsed) (snd parsed) app_id build_id).

(** The last event of a trace. *)
Definition last_event (t : list event) : option event :=
  match rev t with
  | [] => None
  | e :: _ => Some e
  end.

(** The version label of an entry of the builds listing compared with the
    expected build number, as the search of lines 284-288 reads it:
    [None] when the entry raises. *)
Definition label_matches (expected build : value) : option bool :=
  match rbind (py_item build "attributes") (fun attrs =>
               py_get attrs "version" (VStr EmptyString)) with
  | Ret build_version => Some (py_eq build_version expected)
  | _ => None
  end.

(** The JSON documents the stages send (lines 371-384, 404-414, 493-502,
    515-527, 537-545 and 559-568). *)
Definition version_payload (app_id : value) (version_string : string) : value :=
  VDict [("data", VDict [
    ("type", VStr "appStoreVersions");
    ("attributes", VDict [("platform", VStr "IOS");
                          ("versionString", VStr version_string)]);
    ("relationships", VDict [
       ("app", VDict [("data", VDict [("type", VStr "apps"); ("id", app_id)])])])])].

Definition create_payload (app_id : value) : value :=
  VDict [("data", VDict [
    ("type", VStr "reviewSubmissions");
    ("relationships", VDict [
       ("app", VDict [("data", VDict [("type", VStr "apps"); ("id", app_id)])])])])].

Definition item_payload (submission_id version_id : value) : value :=
  VDict [("data", VDict [
    ("type", VStr "reviewSubmissionItems");
    ("relationships", VDict [
       ("reviewSubmission",
        VDict [("data", VDict [("type", VStr "reviewSubmissions");
                               ("id", submission_id)])]);
       ("appStoreVersion",
        VDict [("data", VDict [("type", VStr "appStoreVersions");
                               ("id", version_id)])])])])].

(** [response['data']['id']] *)
Definition data_id (response : value) : result value :=
  rbind (py_item response "data") (fun d => py_item d "id").

(** The summary after a submission that went through (lines 666-679). *)
Definition success_summary (b : located) : list event :=
  [Log [];
   Log [Lit rule];
   Log [Lit "Success! App submitted for review"];
   Log [Lit rule];
   Log [];
   Log ([Lit "Version: "; Lit (version_part b)] ++
        (if py_truthy (build_number b)
         then [Lit " (Build "; Fmt (build_number b); Lit ")"] else []));
   Log [Lit "Release notes: "; Lit RELEASE_NOTES];
   Log [Lit "View status: https://appstoreconnect.apple.com"]].

(** [sep.join(pieces)] for a one-character separator. *)
Fixpoint py_join (sep : ascii) (pieces : list string) : string :=
  match pieces with
  | [] => EmptyString
  | [p] => p
  | p :: rest => (p ++ String sep (py_join sep rest))%string
  end.

(** A reply to the builds listing that is handed back at once and in
    which the poll settles on a build: the identifier and the processing
    state of that build. *)
Definition polled (expected : value) (r : reply) : option (value * value) :=
  match r with
  | Responds _ resp =>
      if status_code resp <? 400 then
        match content resp with
        | Json response =>
            match no_data response, target_of expected response with
            | Ret false, Ret target =>
                if py_truthy target then
                  match py_item target "id", build_state target, build_label target with
                  | Ret id, Ret ps, Ret _ => Some (id, ps)
                  | _, _, _ => None
                  end
                else None
            | _, _ => None
            end
        | _ => None
        end
      else None
  | _ => None
  end.

(** ** The request helper (lines 176-231) *)

Lemma calls_le_ret {A} (k : nat) (a : A) : calls_le k (ret a).
Proof. intros w. simpl. lia. Qed.

Lemma calls_le_lift {A} (k : nat) (r : result A) : calls_le k (lift r).
Proof. intros w. simpl. lia. Qed.

Lemma calls_le_log (k : nat) (msg : fstring) : calls_le k (log msg).
Proof. intros w. simpl. lia. Qed.

Lemma calls_le_sleep (k : nat) (s : Z) : calls_le k (sleep s).
Proof.
  intros w. unfold sleep.
  destruct ((s <? - SLEEP_MAX) || (SLEEP_MAX <? s)); [simpl; lia|].
  destruct (s <? 0); simpl; lia.
Qed.

Lemma calls_le_send (m : method) (url : fstring) (j : value) :
  calls_le 1 (send m url j).
Proof. intros w. simpl. lia. Qed.

Lemma calls_le_bind {A B} (k1 k2 : nat) (c : M A) (f : A -> M B) :
  calls_le k1 c -> (forall a, calls_le k2 (f a)) -> calls_le (k1 + k2) (bind c f).
Proof.
  intros Hc Hf w. unfold bind. specialize (Hc w).
  destruct (c w) as [[a| e | code |] w1]; simpl in *; try lia.
  specialize (Hf a w1). lia.
Qed.

Lemma calls_le_bind0 {A B} (k : nat) (c : M A) (f : A -> M B) :
  calls_le 0 c -> (forall a, calls_le k (f a)) -> calls_le k (bind c f).
Proof. intros Hc Hf. apply (calls_le_bind 0 k); assumption. Qed.

Lemma calls_le_weaken {A} (k k' : nat) (c : M A) :
  (k <= k')%nat -> calls_le k c -> calls_le k' c.
Proof. intros Hk Hc w. specialize (Hc w). lia. Qed.

Ltac calls_quiet :=
  repeat first
    [ apply calls_le_ret | apply calls_le_lift | apply calls_le_log
    | apply calls_le_sleep | assumption
    | apply calls_le_bind0; [|intros ?] ].

Lemma calls_le_token : calls_le 0 generate_jwt_token.
Proof.
  unfold generate_jwt_token.
  destruct (P8_KEY_PATH cfg); [|apply calls_le_lift].
  destruct (negb (key_file_exists cfg)); [|destruct (jwt_signs cfg)];
    calls_quiet.
Qed.

Lemma attempt_loop_calls (m : method) (url : fstring) (data : value) (retries : Z)
    (n : nat) :
  forall attempt, calls_le n (attempt_loop m url data retries n attempt).
Proof.
  induction n as [|n IH]; intros attempt.
  - apply calls_le_ret.
  - specialize (IH (attempt + 1)).
    cbn [attempt_loop].
    apply (calls_le_bind 1 n); [apply calls_le_send|].
    intros [l resp | l | l | l].
    + destruct (status_code resp =? 429); [calls_quiet|].
      destruct (status_code resp >=? 400).
      * destruct (content resp); [| destruct json_error_is_request_exception |];
          calls_quiet; destruct (attempt <? retries - 1); calls_quiet.
      * destruct (content resp); try destruct json_error_is_request_exception;
          calls_quiet; destruct (attempt <? retries - 1); calls_quiet.
    + calls_quiet. destruct (attempt <? retries - 1); calls_quiet.
    + calls_quiet. destruct (attempt <? retries - 1); calls_quiet.
    + calls_quiet.
Qed.

Lemma make_api_request_calls (m : method) (endpoint : fstring) (data : value) :
  calls_le 3 (make_api_request m endpoint data).
Proof.
  unfold make_api_request, make_api_request_with.
  apply calls_le_bind0; [apply calls_le_token|intros _].
  apply (attempt_loop_calls m _ data 3 3).
Qed.

Lemma world_eq (r : nat -> reply) (c c' : nat) (t t' : Z) (e e' : list event) :
  c = c' -> t = t' -> e = e' -> mkWorld r c t e = mkWorld r c' t' e'.
Proof. intros -> -> ->. reflexivity. Qed.

Lemma sleep_run (s : Z) (w : world) :
  0 <= s <= SLEEP_MAX ->
  sleep s w = (Ret tt, mkWorld (replies w) (cursor w) (now w + 1000 * s)
                               (trace w ++ [Sleep s])).
Proof.
  intros Hs. unfold sleep.
  replace ((s <? - SLEEP_MAX) || (SLEEP_MAX <? s)) with false
    by (symmetry; apply orb_false_iff; split; apply Z.ltb_ge;
        unfold SLEEP_MAX in *; lia).
  destruct (s <? 0) eqn:E; [apply Z.ltb_lt in E; lia|reflexivity].
Qed.

Lemma sleep_max : SLEEP_MAX = 9223372036.
Proof. reflexivity. Qed.

Lemma generate_jwt_token_ready (w : world) :
  key_ready = true -> generate_jwt_token w = (Ret tt, w).
Proof.
  unfold key_ready, generate_jwt_token. intros H.
  destruct (P8_KEY_PATH cfg); [|discriminate].
  apply andb_true_iff in H as [-> ->]. reflexivity.
Qed.

(** One 429 reply: the helper sleeps and goes on with the next attempt. *)
Lemma attempt_loop_rate_limited (m : method) (url : fstring) (data : value)
    (retries : Z) (n : nat) (attempt : Z) (w : world) (l : N) (resp : response)
    (s : Z) :
  replies w (cursor w) = Responds l resp ->
  status_code resp = 429 ->
  retry_after_seconds resp = Ret s ->
  0 <= s <= SLEEP_MAX ->
  attempt_loop m url data retries (S n) attempt w =
  attempt_loop m url data retries n (attempt + 1)
    (mkWorld (replies w) (S (cursor w)) (now w + Z.of_N l + 1000 * s)
       (trace w ++ [Request m url (sent m data);
                    Log [Lit "Rate limited. Waiting "; Fmt (VInt s); Lit "s..."];
                    Sleep s])).
Proof.
  intros Hr H429 Hs Hs0.
  cbn [attempt_loop]. unfold bind at 1. unfold send at 1. cbn [fst snd].
  rewrite Hr, H429. cbn [Z.eqb Pos.eqb].
  unfold bind at 1. unfold lift at 1. rewrite Hs.
  unfold bind at 1. unfold log at 1, emit at 1.
  unfold bind at 1. rewrite sleep_run by assumption.
  cbn [replies cursor now trace latency_of].
  f_equal. apply world_eq; try reflexivity.
  rewrite <- !app_assoc. reflexivity.
Qed.

(** One plain failure: a retry after [5 * (attempt + 1)] seconds while
    attempts remain, the None result on the last one. *)
Lemma attempt_loop_failure (m : method) (url : fstring) (data : value)
    (retries : Z) (n : nat) (attempt : Z) (w : world) :
  plain_failure (replies w (cursor w)) = true ->
  0 <= attempt ->
  5 * (attempt + 1) <= SLEEP_MAX ->
  exists evs : list event,
    requests evs = [(m, url)] /\
    if attempt <? retries - 1 then
      sleeps evs = [5 * (attempt + 1)] /\
      attempt_loop m url data retries (S n) attempt w =
      attempt_loop m url data retries n (attempt + 1)
        (mkWorld (replies w) (S (cursor w))
           (now w + Z.of_N (latency_of (replies w (cursor w)))
            + 1000 * (5 * (attempt + 1)))
           (trace w ++ evs))
    else
      sleeps evs = [] /\
      attempt_loop m url data retries (S n) attempt w =
      (Ret VNone,
       mkWorld (replies w) (S (cursor w))
         (now w + Z.of_N (latency_of (replies w (cursor w))))
         (trace w ++ evs)).
Proof.
  intros Hf Ha Hmax.
  assert (Hs : 0 <= 5 * (attempt + 1) <= SLEEP_MAX) by lia.
  destruct (replies w (cursor w)) as [l resp | l | l | l] eqn:Hr;
    cbn [plain_failure latency_of] in *; try discriminate;
    destruct (attempt <? retries - 1) eqn:Hlt.
  all: repeat match goal with
       | H : (_ && _) = true |- _ => apply andb_true_iff in H as [? ?]
       | H : negb _ = true |- _ => apply negb_true_iff in H
       end.
  all: try (match goal with H : match content ?r with _ => _ end = true |- _ =>
              destruct (content r) as [| |error_data] eqn:Hc end;
            [ | | destruct (error_detail error_data) as [msg| | |] eqn:Hd;
                  try discriminate ]).
  all: eexists; split; [|split]; cycle 2;
     [ cbn [attempt_loop]; unfold bind at 1; unfold send at 1; cbn [fst snd];
       rewrite Hr;
       try match goal with
       | H1 : (status_code ?r =? 429) = false,
         H2 : (status_code ?r >=? 400) = true |- _ => rewrite H1, H2
       end;
       rewrite ?Hc;
       try match goal with H : json_error_is_request_exception = true |- _ =>
             rewrite H end;
       unfold bind, lift, log, emit; rewrite ?Hd, ?Hlt;
       cbn [error_detail py_get dict_lookup rbind py_first];
       rewrite ?sleep_run by assumption; unfold ret;
       cbn [replies cursor now trace];
       f_equal; apply world_eq; try reflexivity;
       rewrite <- ?app_assoc; cbn [app]; reflexivity
     | reflexivity | reflexivity ].
Qed.

(** C1 (amended): on every HTTP 429 response whose Retry-After interval
    (60 seconds when the header is absent, else the header as [int()]
    reads it) is a number of seconds that [time.sleep] accepts, from 0 to
    9223372036, the helper sleeps for that interval and then goes on with
    the next attempt of its bounded loop, so the 429 uses up one of the
    attempts: as the first reply of a call it leaves two attempts, a 429
    on the last attempt ends the loop with the None result after the
    sleep, and whatever the replies are the helper never issues more than
    its three requests. *)
Theorem rate_limit_consumes_attempt (m : method) (endpoint : fstring) (data : value)
    (n : nat) (attempt : Z) (w : world) (l : N) (resp : response) (s : Z) :
  replies w (cursor w) = Responds l resp ->
  status_code resp = 429 ->
  retry_after_seconds resp = Ret s ->
  0 <= s <= 9223372036 ->
  let url := Lit BASE_URL :: endpoint in
  let w' :=
    mkWorld (replies w) (S (cursor w)) (now w + Z.of_N l + 1000 * s)
      (trace w ++ [Request m url (sent m data);
                   Log [Lit "Rate limited. Waiting "; Fmt (VInt s); Lit "s..."];
                   Sleep s]) in
  attempt_loop m url data 3 (S n) attempt w
    = attempt_loop m url data 3 n (attempt + 1) w' /\
  attempt_loop m url data 3 1 attempt w = (Ret VNone, w') /\
  (key_ready = true ->
   make_api_request m endpoint data w = attempt_loop m url data 3 2 1 w') /\
  (retry_after resp = None -> s = 60) /\
  (forall h, retry_after resp = Some h -> py_int h = Some s) /\
  (forall endpoint0 data0 w0,
      (cursor (snd (make_api_request m endpoint0 data0 w0)) <= cursor w0 + 3)%nat).
Proof.
  intros Hr H429 Hs Hs0 url w'.
  rewrite <- sleep_max in Hs0.
  assert (Hstep : forall k a,
             attempt_loop m url data 3 (S k) a w = attempt_loop m url data 3 k (a + 1) w')
    by (intros k a;
        apply (attempt_loop_rate_limited m url data 3 k a w l resp s Hr H429 Hs Hs0)).
  split; [apply Hstep|]. split; [|split; [|split; [|split]]].
  - rewrite Hstep. reflexivity.
  - intros Hkey. unfold make_api_request, make_api_request_with. unfold bind at 1.
    rewrite (generate_jwt_token_ready w Hkey).
    change (Z.to_nat 3) with 3%nat. fold url. rewrite Hstep. reflexivity.
  - intros Hnone. unfold retry_after_seconds in Hs. rewrite Hnone in Hs.
    congruence.
  - intros h Hh. unfold retry_after_seconds in Hs. rewrite Hh in Hs.
    destruct (py_int h); [congruence|discriminate].
  - intros endpoint0 data0 w0. apply make_api_request_calls.
Qed.

(** C2 (amended): on 3 consecutive plain failures (an HTTP status of 400
    or more other than 429 with a readable error body, a timeout, or a
    network error) and with the signing key in place, the helper makes
    exactly 3 requests, sleeps 5 and then 10 seconds between them, and
    returns None without raising. *)
Theorem three_failures_give_up (m : method) (endpoint : fstring) (data : value)
    (w : world) :
  key_ready = true ->
  (forall i, (i < 3)%nat -> plain_failure (replies w (cursor w + i)) = true) ->
  exists evs : list event,
    make_api_request m endpoint data w =
      (Ret VNone,
       mkWorld (replies w) (cursor w + 3)
         (now w + Z.of_N (latency_of (replies w (cursor w)))
          + Z.of_N (latency_of (replies w (cursor w + 1)))
          + Z.of_N (latency_of (replies w (cursor w + 2))) + 15000)
         (trace w ++ evs)) /\
    requests evs = [(m, Lit BASE_URL :: endpoint); (m, Lit BASE_URL :: endpoint);
                    (m, Lit BASE_URL :: endpoint)] /\
    sleeps evs = [5; 10].
Proof.
  intros Hkey Hfail.
  unfold make_api_request, make_api_request_with, bind.
  rewrite (generate_jwt_token_ready w Hkey).
  change (Z.to_nat 3) with 3%nat.
  set (url := Lit BASE_URL :: endpoint).
  pose proof (Hfail 0%nat ltac:(lia)) as H0. rewrite Nat.add_0_r in H0.
  destruct (attempt_loop_failure m url data 3 2 0 w H0 ltac:(lia) ltac:(rewrite sleep_max; lia))
    as (e0 & Hq0 & Hrest0).
  change (0 <? 3 - 1) with true in Hrest0. cbv iota in Hrest0.
  destruct Hrest0 as [Hs0 E0]. change (0 + 1) with 1 in *.
  rewrite E0. clear E0.
  set (w1 := mkWorld _ _ _ _).
  pose proof (Hfail 1%nat ltac:(lia)) as H1.
  replace (cursor w + 1)%nat with (cursor w1) in H1 by (subst w1; simpl; lia).
  change (replies w) with (replies w1) in H1.
  destruct (attempt_loop_failure m url data 3 1 1 w1 H1 ltac:(lia) ltac:(rewrite sleep_max; lia))
    as (e1 & Hq1 & Hrest1).
  change (1 <? 3 - 1) with true in Hrest1. cbv iota in Hrest1.
  destruct Hrest1 as [Hs1 E1]. change (1 + 1) with 2 in *.
  change (1 + 1) with 2 in *.
  rewrite E1. clear E1.
  set (w2 := mkWorld _ _ _ _).
  pose proof (Hfail 2%nat ltac:(lia)) as H2.
  replace (cursor w + 2)%nat with (cursor w2) in H2 by (subst w2 w1; simpl; lia).
  change (replies w) with (replies w2) in H2.
  destruct (attempt_loop_failure m url data 3 0 2 w2 H2 ltac:(lia) ltac:(rewrite sleep_max; lia))
    as (e2 & Hq2 & Hrest2).
  change (2 <? 3 - 1) with false in Hrest2. cbv iota in Hrest2.
  destruct Hrest2 as [Hs2 E2]. 
  rewrite E2. clear E2.
  exists (e0 ++ e1 ++ e2)%list. split; [|split].
  - f_equal. subst w2 w1. cbn [replies cursor now trace].
    replace (S (cursor w)) with (cursor w + 1)%nat by lia.
    replace (S (S (cursor w + 1))) with (cursor w + 3)%nat by lia.
    replace (S (cursor w + 1)) with (cursor w + 2)%nat by lia.
    apply world_eq; [reflexivity|lia|].
    rewrite <- !app_assoc. reflexivity.
  - unfold requests in *. rewrite !flat_map_app, Hq0, Hq1, Hq2. reflexivity.
  - unfold sleeps in *. rewrite !flat_map_app, Hs0, Hs1, Hs2. reflexivity.
Qed.

(** A reply that [make_api_request] hands back at once: a status below
    400 with a JSON body. *)
Lemma make_api_request_ok (m : method) (endpoint : fstring) (data : value)
    (w : world) (l : N) (resp : response) (v : value) :
  key_ready = true ->
  replies w (cursor w) = Responds l resp ->
  status_code resp < 400 ->
  content resp = Json v ->
  make_api_request m endpoint data w =
  (Ret v, mkWorld (replies w) (S (cursor w)) (now w + Z.of_N l)
            (trace w ++ [Request m (Lit BASE_URL :: endpoint) (sent m data)])).
Proof.
  intros Hkey Hr Hst Hc.
  unfold make_api_request, make_api_request_with. unfold bind at 1.
  rewrite (generate_jwt_token_ready w Hkey).
  change (Z.to_nat 3) with 3%nat.
  cbn [attempt_loop]. unfold bind at 1. unfold send at 1. cbn [fst snd].
  rewrite Hr.
  replace (status_code resp =? 429) with false by (symmetry; apply Z.eqb_neq; lia).
  replace (status_code resp >=? 400) with false
    by (symmetry; rewrite Z.geb_leb; apply Z.leb_gt; lia).
  rewrite Hc. reflexivity.
Qed.

(** A bind that returns: its first part returned, and the rest ran from
    there. *)
Lemma bind_ret_inv {A B} (c : M A) (f : A -> M B) (w w' : world) (b : B) :
  bind c f w = (Ret b, w') ->
  exists a w1, c w = (Ret a, w1) /\ f a w1 = (Ret b, w').
Proof.
  unfold bind. destruct (c w) as [[a|e|code|] w1]; try discriminate.
  intros H. exists a, w1. split; [reflexivity|exact H].
Qed.

(** ** Version strings (lines 608-616) *)

Lemma py_split_length_pos (sep : ascii) (s : string) :
  (1 <= List.length (py_split sep s))%nat.
Proof.
  induction s as [|c s IH]; simpl; [lia|].
  destruct (Ascii.eqb c sep); simpl; [lia|].
  destruct (py_split sep s); simpl in *; lia.
Qed.

Lemma py_split_without (sep : ascii) (s : string) :
  py_contains sep s = false -> py_split sep s = [s].
Proof.
  induction s as [|c s IH]; simpl; [reflexivity|].
  intros H. apply orb_false_iff in H as [Hc Hs].
  rewrite Hc, (IH Hs). reflexivity.
Qed.

Lemma py_split_at_first (sep : ascii) (v t : string) :
  py_contains sep v = false ->
  py_split sep (v ++ String sep t)%string = v :: py_split sep t.
Proof.
  induction v as [|c v IH]; simpl; intros H.
  - rewrite Ascii.eqb_refl. reflexivity.
  - apply orb_false_iff in H as [Hc Hv].
    rewrite Hc, (IH Hv). reflexivity.
Qed.

Lemma py_contains_app (sep : ascii) (v t : string) :
  py_contains sep (v ++ String sep t)%string = true.
Proof.
  induction v as [|c v IH]; simpl.
  - rewrite Ascii.eqb_refl. reflexivity.
  - rewrite IH. apply orb_true_r.
Qed.

Lemma py_split_length_app (sep : ascii) (v t : string) :
  (List.length (py_split sep (v ++ String sep t)%string)
   = List.length (py_split sep v) + List.length (py_split sep t))%nat.
Proof.
  induction v as [|c v IH]; simpl.
  - rewrite Ascii.eqb_refl. reflexivity.
  - destruct (Ascii.eqb c sep); simpl; [rewrite IH; reflexivity|].
    pose proof (py_split_length_pos sep v) as Hv.
    destruct (py_split sep (v ++ String sep t)%string) eqn:E1;
      destruct (py_split sep v) eqn:E2; simpl in *; lia.
Qed.

(** C3 (amended): a version string without '+' is kept whole and has no
    build number; a version string with exactly one '+' is cut there into
    the version part and the build number; a version string with two or
    more '+' is not split at all: the unpacking raises ValueError. *)
Theorem parse_version_by_plus_count (s : string) :
  (py_contains "+" s = false -> parse_version s = Ret (s, VNone)) /\
  (forall v b : string,
      s = (v ++ "+" ++ b)%string ->
      py_contains "+" v = false -> py_contains "+" b = false ->
      parse_version s = Ret (v, VStr b)) /\
  (forall v b c : string,
      s = (v ++ "+" ++ b ++ "+" ++ c)%string ->
      parse_version s = Raise ValueError).
Proof.
  unfold parse_version. repeat split.
  - intros H. rewrite H. reflexivity.
  - intros v b -> Hv Hb. simpl. rewrite py_contains_app.
    rewrite (py_split_at_first _ _ _ Hv), (py_split_without _ _ Hb).
    reflexivity.
  - intros v b c ->. simpl. rewrite py_contains_app.
    pose proof (py_split_length_app "+" v (b ++ String "+" c)%string) as H1.
    pose proof (py_split_length_app "+" b c) as H2.
    pose proof (py_split_length_pos "+" v) as Hv.
    pose proof (py_split_length_pos "+" b) as Hb.
    pose proof (py_split_length_pos "+" c) as Hc.
    destruct (py_split "+" (v ++ String "+" (b ++ String "+" c))%string) as [|x [|y [|z l]]];
      simpl in *; try reflexivity; lia.
Qed.

Lemma parse_version_many_plus (v b c : string) :
  parse_version (v ++ "+" ++ b ++ "+" ++ c)%string = Raise ValueError.
Proof.
  unfold parse_version. simpl. rewrite py_contains_app.
  pose proof (py_split_length_app "+" v (b ++ String "+" c)%string) as H1.
  pose proof (py_split_length_app "+" b c) as H2.
  pose proof (py_split_length_pos "+" v) as Hv.
  pose proof (py_split_length_pos "+" b) as Hb.
  pose proof (py_split_length_pos "+" c) as Hc.
  destruct (py_split "+" (v ++ String "+" (b ++ String "+" c))%string) as [|x [|y [|z l]]];
    simpl in *; try reflexivity; lia.
Qed.

Lemma py_split_join (sep : ascii) (s : string) :
  py_join sep (py_split sep s) = s.
Proof.
  induction s as [|c s IH]; [reflexivity|].
  cbn [py_split]. destruct (Ascii.eqb c sep) eqn:E.
  - apply Ascii.eqb_eq in E. subst c.
    pose proof (py_split_length_pos sep s) as Hpos.
    destruct (py_split sep s) as [|p ps] eqn:Es; [cbn in Hpos; lia|].
    cbn [py_join]. cbn [py_join] in IH. rewrite IH. reflexivity.
  - pose proof (py_split_length_pos sep s) as Hpos.
    destruct (py_split sep s) as [|p ps] eqn:Es; [cbn in Hpos; lia|].
    destruct ps as [|q qs]; cbn [py_join] in *; rewrite <- IH; reflexivity.
Qed.

Lemma py_split_pieces (sep : ascii) (s : string) :
  Forall (fun p => py_contains sep p = false) (py_split sep s).
Proof.
  induction s as [|c s IH]; [repeat constructor|].
  cbn [py_split]. destruct (Ascii.eqb c sep) eqn:E.
  - constructor; [reflexivity|exact IH].
  - destruct (py_split sep s) as [|p ps].
    + constructor; [cbn; rewrite E; reflexivity|constructor].
    + inversion IH as [|? ? Hp Hps]; subst.
      constructor; [cbn; rewrite E, Hp; reflexivity|exact Hps].
Qed.

(** X21: what [main] parses can be put back together: a version part and
    a build number joined by '+' give the argument back, neither holds a
    '+', and a parse without build number kept the whole argument, which
    holds no '+'. *)
Theorem parse_version_round_trip (s v : string) (build : value) :
  parse_version s = Ret (v, build) ->
  match build with
  | VStr b =>
      s = (v ++ "+" ++ b)%string /\
      py_contains "+" v = false /\ py_contains "+" b = false
  | VNone => s = v /\ py_contains "+" s = false
  | _ => False
  end.
Proof.
  unfold parse_version. intros H.
  destruct (py_contains "+" s) eqn:Hc.
  - pose proof (py_split_join "+" s) as Hjoin.
    pose proof (py_split_pieces "+" s) as Hpieces.
    destruct (py_split "+" s) as [|x [|y [|z l]]]; try discriminate.
    injection H as <- <-. cbn [py_join] in Hjoin.
    apply Forall_cons_iff in Hpieces as [Hx Hrest].
    apply Forall_cons_iff in Hrest as [Hy _].
    repeat split; [symmetry; exact Hjoin|exact Hx|exact Hy].
  - injection H as <- <-. split; reflexivity.
Qed.

(** ** The build-processing wait (lines 251-336) *)

Lemma record_record (w : world) (a b : list event) :
  record (record w a) b = record w (a ++ b).
Proof. unfold record. cbn. rewrite <- app_assoc. reflexivity. Qed.

Lemma wait_loop_no_data (fuel : nat) (app expected : value) (max start : Z)
    (ls lv : value) (w w1 : world) (response : value) :
  make_api_request GET (builds_endpoint app) VNone w = (Ret response, w1) ->
  no_data response = Ret true ->
  wait_loop (S fuel) app expected max start ls lv w =
  (Ret VNone,
   record w1 [Log [Lit "No builds found"];
              Log [Lit "Make sure you uploaded the IPA with xcrun altool first"]]).
Proof.
  intros Hreq Hnd. cbn [wait_loop]. unfold bind at 1. rewrite Hreq.
  unfold bind at 1. unfold lift at 1. rewrite Hnd.
  unfold bind, log, emit, ret, record. cbn. rewrite <- app_assoc. reflexivity.
Qed.

(** A poll whose listing does not hold the expected build yet. *)
Lemma wait_loop_absent (fuel : nat) (app expected : value) (max start : Z)
    (ls lv : value) (w w1 : world) (response target : value) :
  make_api_request GET (builds_endpoint app) VNone w = (Ret response, w1) ->
  no_data response = Ret false ->
  py_truthy expected = true ->
  target_of expected response = Ret target ->
  py_truthy target = false ->
  let elapsed := now w1 - start in
  wait_loop (S fuel) app expected max start ls lv w =
  if elapsed >? 1000 * (max * 60) then
    (Ret VNone,
     record w1 [Log [Lit "Timeout after "; Fmt (VInt max); Lit " minutes"];
                Log [Lit "Build "; Fmt expected;
                     Lit " never appeared in App Store Connect"];
                Log [Lit "Check App Store Connect to verify the upload succeeded"]])
  else
    wait_loop fuel app expected max start ls lv
      (asleep
         (if (Z.quot elapsed 1000 mod 30 =? 0) && (elapsed >? 0) then
            record w1 [Log [Lit "Still waiting for build "; Fmt expected;
                            Lit " to appear... ("; Fmt (VInt (Z.quot elapsed 1000));
                            Lit "s elapsed)"]]
          else w1) 5).
Proof.
  intros Hreq Hnd Hexp Htarget Hfalsy elapsed.
  cbn [wait_loop]. unfold bind at 1. rewrite Hreq.
  unfold bind at 1. unfold lift at 1. rewrite Hnd. rewrite Hexp.
  unfold bind at 1. unfold lift at 1. rewrite Htarget, Hfalsy. cbn [negb].
  unfold bind at 1. unfold time_time at 1. fold elapsed.
  destruct (elapsed >? 1000 * (max * 60)).
  - unfold bind, log, emit, ret, record. cbn. rewrite <- !app_assoc. reflexivity.
  - destruct ((Z.quot elapsed 1000 mod 30 =? 0) && (elapsed >? 0)).
    + unfold bind at 1. unfold log at 1, emit at 1. unfold bind at 1.
      rewrite sleep_run by (rewrite sleep_max; lia). reflexivity.
    + unfold bind at 1. unfold ret at 1. unfold bind at 1.
      rewrite sleep_run by (rewrite sleep_max; lia). reflexivity.
Qed.

(** A poll that settles on a build. *)
Lemma wait_loop_found (fuel : nat) (app expected : value) (max start : Z)
    (ls lv : value) (w w1 : world) (response target id ps v : value) :
  make_api_request GET (builds_endpoint app) VNone w = (Ret response, w1) ->
  no_data response = Ret false ->
  target_of expected response = Ret target ->
  (py_truthy expected = true -> py_truthy target = true) ->
  py_item target "id" = Ret id ->
  build_state target = Ret ps ->
  build_label target = Ret v ->
  let w2 := if changed ps v ls lv then record w1 [progress_line v ps] else w1 in
  wait_loop (S fuel) app expected max start ls lv w =
  if py_eq ps (VStr "VALID") then
    (Ret id, record w2 [Log [Lit "Build "; Fmt v; Lit " is ready!"]])
  else if py_eq ps (VStr "INVALID") then
    (Ret VNone,
     record w2 [Log [Lit "Build "; Fmt v; Lit " processing failed"];
                Log [Lit "Check App Store Connect for details"]])
  else if now w1 - start >? 1000 * (max * 60) then
    (Ret VNone,
     record w2 [Log [Lit "Timeout after "; Fmt (VInt max); Lit " minutes"];
                Log [Lit "Build "; Fmt v;
                     Lit " is still processing. Run this script again later:"];
                Log [Lit "  ./submit_to_app_store.py "; Fmt v]])
  else
    wait_loop fuel app expected max start
      (if changed ps v ls lv then ps else ls)
      (if changed ps v ls lv then v else lv)
      (asleep w2 (nap target ps)).
Proof.
  intros Hreq Hnd Htarget Htruthy Hid Hps Hv w2.
  assert (Hnap : 0 <= nap target ps <= SLEEP_MAX)
    by (rewrite sleep_max; unfold nap; destruct (_ && _); lia).
  assert (Hnow : now w2 = now w1)
    by (subst w2; destruct (changed ps v ls lv); reflexivity).
  cbn [wait_loop]. unfold bind at 1. rewrite Hreq.
  unfold bind at 1. unfold lift at 1. rewrite Hnd.
  destruct (py_truthy expected) eqn:Hexp.
  - unfold bind at 1. unfold lift at 1. rewrite Htarget.
    rewrite (Htruthy eq_refl). cbn [negb].
    unfold bind at 1. unfold lift at 1. rewrite Hid.
    unfold bind at 1. unfold lift at 1. rewrite Hps.
    unfold bind at 1. unfold lift at 1. rewrite Hv.
    fold (changed ps v ls lv). fold (nap target ps).
    unfold bind at 1.
    replace ((if changed ps v ls lv
              then log [Lit "Build "; Fmt v; Lit " - State: "; Fmt ps]
              else ret tt) w1) with (Ret tt, w2)
      by (subst w2; destruct (changed ps v ls lv); reflexivity).
    destruct (py_eq ps (VStr "VALID")); [reflexivity|].
    destruct (py_eq ps (VStr "INVALID"));
      [unfold bind, log, emit, ret, record; cbn; rewrite <- !app_assoc; reflexivity|].
    unfold bind at 1. unfold time_time at 1. rewrite Hnow.
    destruct (now w1 - start >? 1000 * (max * 60));
      [unfold bind, log, emit, ret, record; cbn; rewrite <- !app_assoc; reflexivity|].
    unfold bind at 1.
    replace (if true && negb (py_eq ps (VStr "PROCESSING")) then 30 else 5)
      with (nap target ps)
      by (unfold nap; rewrite (Htruthy eq_refl); reflexivity).
    rewrite sleep_run by assumption. reflexivity.
  - unfold bind at 1. unfold lift at 1. rewrite Htarget.
    unfold bind at 1. unfold lift at 1. rewrite Hid.
    unfold bind at 1. unfold lift at 1. rewrite Hps.
    unfold bind at 1. unfold lift at 1. rewrite Hv.
    fold (changed ps v ls lv). fold (nap target ps).
    unfold bind at 1.
    replace ((if changed ps v ls lv
              then log [Lit "Build "; Fmt v; Lit " - State: "; Fmt ps]
              else ret tt) w1) with (Ret tt, w2)
      by (subst w2; destruct (changed ps v ls lv); reflexivity).
    destruct (py_eq ps (VStr "VALID")); [reflexivity|].
    destruct (py_eq ps (VStr "INVALID"));
      [unfold bind, log, emit, ret, record; cbn; rewrite <- !app_assoc; reflexivity|].
    unfold bind at 1. unfold time_time at 1. rewrite Hnow.
    destruct (now w1 - start >? 1000 * (max * 60));
      [unfold bind, log, emit, ret, record; cbn; rewrite <- !app_assoc; reflexivity|].
    unfold bind at 1. rewrite sleep_run by assumption. reflexivity.
Qed.

Lemma nap_bounds (target ps : value) : 5 <= nap target ps <= 30.
Proof. unfold nap. destruct (_ && _); lia. Qed.

(** *** The helper keeps the script, the order of the replies and the clock *)

Lemma steady_ret {A} (a : A) : steady (ret a).
Proof. intros w. cbn. repeat split; lia. Qed.

Lemma steady_lift {A} (r : result A) : steady (lift r).
Proof. intros w. cbn. repeat split; lia. Qed.

Lemma steady_log (msg : fstring) : steady (log msg).
Proof. intros w. cbn. repeat split; lia. Qed.

Lemma steady_sleep (s : Z) : steady (sleep s).
Proof.
  intros w. unfold sleep.
  destruct ((s <? - SLEEP_MAX) || (SLEEP_MAX <? s)); [cbn; repeat split; lia|].
  destruct (s <? 0) eqn:E; [cbn; repeat split; lia|].
  apply Z.ltb_ge in E. cbn [snd replies cursor now]. repeat split; lia.
Qed.

Lemma steady_send (m : method) (url : fstring) (j : value) : steady (send m url j).
Proof. intros w. cbn. repeat split; lia. Qed.

Lemma steady_bind {A B} (c : M A) (f : A -> M B) :
  steady c -> (forall a, steady (f a)) -> steady (bind c f).
Proof.
  intros Hc Hf w. unfold bind. destruct (Hc w) as (Hr & Hk & Ht).
  destruct (c w) as [[a|e|code|] w1]; cbn [snd] in *; try (repeat split; assumption).
  destruct (Hf a w1) as (Hr' & Hk' & Ht').
  repeat split; [congruence|lia|lia].
Qed.

Ltac steady_quiet :=
  repeat first
    [ apply steady_ret | apply steady_lift | apply steady_log
    | apply steady_sleep | assumption
    | apply steady_bind; [|intros ?] ].

Lemma steady_token : steady generate_jwt_token.
Proof.
  unfold generate_jwt_token.
  destruct (P8_KEY_PATH cfg); [|apply steady_lift].
  destruct (negb (key_file_exists cfg)); [|destruct (jwt_signs cfg)];
    steady_quiet.
Qed.

Lemma attempt_loop_steady (m : method) (url : fstring) (data : value) (retries : Z)
    (n : nat) :
  forall attempt, steady (attempt_loop m url data retries n attempt).
Proof.
  induction n as [|n IH]; intros attempt.
  - apply steady_ret.
  - specialize (IH (attempt + 1)).
    cbn [attempt_loop].
    apply steady_bind; [apply steady_send|].
    intros [l resp | l | l | l].
    + destruct (status_code resp =? 429); [steady_quiet|].
      destruct (status_code resp >=? 400).
      * destruct (content resp); [| destruct json_error_is_request_exception |];
          steady_quiet; destruct (attempt <? retries - 1); steady_quiet.
      * destruct (content resp); try destruct json_error_is_request_exception;
          steady_quiet; destruct (attempt <? retries - 1); steady_quiet.
    + steady_quiet. destruct (attempt <? retries - 1); steady_quiet.
    + steady_quiet. destruct (attempt <? retries - 1); steady_quiet.
    + steady_quiet.
Qed.

Lemma make_api_request_steady (m : method) (endpoint : fstring) (data : value) :
  steady (make_api_request m endpoint data).
Proof.
  unfold make_api_request, make_api_request_with.
  apply steady_bind; [apply steady_token|intros _].
  apply attempt_loop_steady.
Qed.

Lemma keeps_polling_later (app expected : value) (D : Z) (w w' : world) :
  keeps_polling app expected D w ->
  replies w' = replies w -> (cursor w <= cursor w')%nat ->
  keeps_polling app expected D w'.
Proof.
  intros H Hr Hc w1 Hr1 Hc1. apply H; [congruence|lia].
Qed.

Lemma wait_for_build_processing_loop (fuel : nat) (app expected : value)
    (max : Z) (w : world) :
  wait_for_build_processing fuel app expected max false w =
  wait_loop fuel app expected max (now w) VNone VNone
    (record w [wait_header expected max]).
Proof.
  unfold wait_for_build_processing, wait_header.
  destruct (py_truthy expected); reflexivity.
Qed.

(** While every poll comes back with a listing that keeps the wait going,
    the loop runs until the first poll that ends after the time limit and
    returns None there. *)
Lemma wait_loop_times_out (app expected : value) (max start D : Z) :
  forall (fuel : nat) (ls lv : value) (w : world),
    keeps_polling app expected D w ->
    now w - start <= 1000 * (max * 60) + 30000 ->
    (0 < fuel)%nat ->
    (0 <= 1000 * (max * 60) - (now w - start) ->
     1000 * (max * 60) - (now w - start) + 5000 < 5000 * Z.of_nat fuel) ->
    exists w',
      wait_loop fuel app expected max start ls lv w = (Ret VNone, w') /\
      1000 * (max * 60) < now w' - start <= 1000 * (max * 60) + 30000 + D.
Proof.
  intros fuel.
  induction fuel as [|fuel IH]; intros ls lv w Hpoll Hentry Hpos Hfuel; [lia|].
  destruct (Hpoll w eq_refl (le_n _)) as (response & w1 & Hreq & Hkeep & Hdur).
  destruct (make_api_request_steady GET (builds_endpoint app) VNone w)
    as (Hrep1 & Hcur1 & Hnow1).
  rewrite Hreq in Hrep1, Hcur1, Hnow1. cbn [snd] in Hrep1, Hcur1, Hnow1.
  unfold keeps_waiting in Hkeep.
  destruct (no_data response) as [[|]| | |] eqn:Hnd; try discriminate.
  destruct (target_of expected response) as [target| | |] eqn:Ht; try discriminate.
  (* what the recursive call needs, for any world [w2] one pause later *)
  assert (Hnext : forall (w2 : world) (ls' lv' : value) (s : Z),
             replies w2 = replies w1 -> cursor w2 = cursor w1 ->
             now w2 = now w1 + 1000 * s -> 5 <= s <= 30 ->
             now w1 - start <= 1000 * (max * 60) ->
             exists w',
               wait_loop fuel app expected max start ls' lv' w2 = (Ret VNone, w') /\
               1000 * (max * 60) < now w' - start <= 1000 * (max * 60) + 30000 + D).
  { intros w2 ls' lv' s Hrep Hcur Hnow2 Hs Hin.
    apply IH.
    - apply (keeps_polling_later app expected D w); [assumption|congruence|lia].
    - lia.
    - lia.
    - lia. }
  destruct (py_truthy expected && negb (py_truthy target)) eqn:Habs.
  - (* not in the listing *)
    apply andb_true_iff in Habs as [Hexp Hfalsy]. apply negb_true_iff in Hfalsy.
    rewrite (wait_loop_absent fuel app expected max start ls lv w w1 response target
               Hreq Hnd Hexp Ht Hfalsy).
    destruct (now w1 - start >? 1000 * (max * 60)) eqn:Hout.
    + eexists. split; [reflexivity|]. apply Z.gtb_lt in Hout.
      cbn [record now]. lia.
    + assert (now w1 - start <= 1000 * (max * 60))
        by (rewrite Z.gtb_ltb in Hout; apply Z.ltb_ge in Hout; lia).
      apply (Hnext _ ls lv 5); try lia;
        destruct (_ && _); reflexivity.
  - (* settled on a build that is neither VALID nor INVALID *)
    destruct (py_item target "id") as [id| | |] eqn:Hid; try discriminate.
    destruct (build_state target) as [ps| | |] eqn:Hps; try discriminate.
    destruct (build_label target) as [v| | |] eqn:Hv; try discriminate.
    apply andb_true_iff in Hkeep as [Hvalid Hinvalid].
    apply negb_true_iff in Hvalid, Hinvalid.
    assert (Htruthy : py_truthy expected = true -> py_truthy target = true).
    { intros E. rewrite E in Habs. cbn in Habs.
      apply negb_false_iff in Habs. exact Habs. }
    rewrite (wait_loop_found fuel app expected max start ls lv w w1 response target
               id ps v Hreq Hnd Ht Htruthy Hid Hps Hv).
    rewrite Hvalid, Hinvalid.
    destruct (now w1 - start >? 1000 * (max * 60)) eqn:Hout.
    + eexists. split; [reflexivity|]. apply Z.gtb_lt in Hout.
      assert (now (if changed ps v ls lv then record w1 [progress_line v ps] else w1)
              = now w1) as Hn by (destruct (changed ps v ls lv); reflexivity).
      cbn [record now]. rewrite Hn. lia.
    + assert (now w1 - start <= 1000 * (max * 60))
        by (rewrite Z.gtb_ltb in Hout; apply Z.ltb_ge in Hout; lia).
      apply (Hnext _ _ _ (nap target ps)); try lia;
        try apply nap_bounds; destruct (changed ps v ls lv); reflexivity.
Qed.

(** C5 (amended): with a time limit of 0 minutes or more, when every poll
    of the builds listing, at whatever reply it starts, comes back within
    [D] milliseconds (at once, after retries, or after a rate-limit pause)
    with a non-empty listing in which the expected build is missing or
    the build is in a state other than VALID and INVALID, the wait
    returns None at the first poll that ends after the time limit: never
    before [max_wait_minutes] have elapsed, and at most one pause (30
    seconds at most) and the duration of one poll later.  A poll that
    fails or whose listing is empty makes the wait return None right
    after that poll, whatever time has elapsed: as the first poll of the
    call, and as any later poll of the loop. *)
Theorem wait_returns_at_timeout (fuel : nat) (app expected : value)
    (max_wait_minutes D : Z) (w : world) :
  (0 <= max_wait_minutes ->
   keeps_polling app expected D w ->
   (Z.to_nat (12 * max_wait_minutes) + 2 <= fuel)%nat ->
   exists w',
     wait_for_build_processing fuel app expected max_wait_minutes false w
       = (Ret VNone, w') /\
     1000 * (max_wait_minutes * 60) < now w' - now w
       <= 1000 * (max_wait_minutes * 60) + 30000 + D) /\
  (forall (response : value) (w1 : world),
     make_api_request GET (builds_endpoint app) VNone
       (record w [wait_header expected max_wait_minutes]) = (Ret response, w1) ->
     no_data response = Ret true ->
     wait_for_build_processing (S fuel) app expected max_wait_minutes false w =
     (Ret VNone,
      record w1 [Log [Lit "No builds found"];
                 Log [Lit "Make sure you uploaded the IPA with xcrun altool first"]])) /\
  (forall (start : Z) (ls lv response : value) (wa wb : world),
     make_api_request GET (builds_endpoint app) VNone wa = (Ret response, wb) ->
     no_data response = Ret true ->
     wait_loop (S fuel) app expected max_wait_minutes start ls lv wa =
     (Ret VNone,
      record wb [Log [Lit "No builds found"];
                 Log [Lit "Make sure you uploaded the IPA with xcrun altool first"]])).
Proof.
  split; [|split].
  - intros Hmax Hpoll Hfuel.
    rewrite wait_for_build_processing_loop.
    destruct (wait_loop_times_out app expected max_wait_minutes (now w) D
                fuel VNone VNone (record w [wait_header expected max_wait_minutes]))
      as (w' & Hrun & Hbound).
    + apply (keeps_polling_later app expected D w); [assumption|reflexivity|].
      cbn [record cursor]. lia.
    + cbn [record now]. lia.
    + lia.
    + intros _. cbn [record now]. lia.
    + exists w'. split; [exact Hrun|exact Hbound].
  - intros response w1 Hreq Hnd.
    rewrite wait_for_build_processing_loop.
    apply (wait_loop_no_data fuel app expected max_wait_minutes _ VNone VNone _ w1
             response Hreq Hnd).
  - intros start ls lv response wa wb Hreq Hnd.
    apply (wait_loop_no_data fuel app expected max_wait_minutes start ls lv wa wb
             response Hreq Hnd).
Qed.

(** *** What the wait returns *)

Lemma last_event_snoc (t : list event) (e : event) : last_event (t ++ [e]) = Some e.
Proof. unfold last_event. rewrite rev_unit. reflexivity. Qed.

Lemma py_eq_str (v : value) (s : string) : py_eq v (VStr s) = true -> v = VStr s.
Proof.
  destruct v as [|b|n|t|l|d]; cbn; try discriminate.
  intros H. apply String.eqb_eq in H. congruence.
Qed.

Ltac invert_lift H a Ha :=
  let w := fresh "w" in
  apply bind_ret_inv in H as (a & w & Ha & H);
  unfold lift in Ha; injection Ha as Ha <-.

Ltac invert_log H :=
  let a := fresh "a" in let w := fresh "w" in let Hlog := fresh "Hlog" in
  apply bind_ret_inv in H as (a & w & Hlog & H);
  destruct a; unfold log, emit in Hlog; injection Hlog as <-.

(** A value other than None comes back from the loop only through the
    VALID branch of some poll: it is the identifier of the build that
    poll settled on, and the last line written is the ready line. *)
Lemma wait_loop_value (app expected : value) (max start : Z) :
  forall (fuel : nat) (ls lv : value) (w w' : world) (r : value),
    wait_loop fuel app expected max start ls lv w = (Ret r, w') ->
    r = VNone \/
    exists (wa wb : world) (response target version : value),
      make_api_request GET (builds_endpoint app) VNone wa = (Ret response, wb) /\
      target_of expected response = Ret target /\
      py_item target "id" = Ret r /\
      build_state target = Ret (VStr "VALID") /\
      build_label target = Ret version /\
      last_event (trace w') = Some (ready_line version).
Proof.
  intros fuel.
  induction fuel as [|fuel IH]; intros ls lv w w' r H; [discriminate H|].
  cbn [wait_loop] in H.
  apply bind_ret_inv in H as (response & w1 & Hreq & H).
  invert_lift H empty Hnd.
  assert (Hfound : forall target : value,
    target_of expected response = Ret target ->
    (build_id <- lift (py_item target "id") ;;
     processing_state <- lift (build_state target) ;;
     version <- lift (build_label target) ;;
     (if negb (py_eq processing_state ls) || negb (py_eq version lv)
      then log [Lit "Build "; Fmt version; Lit " - State: "; Fmt processing_state]
      else ret tt) ;;
     if py_eq processing_state (VStr "VALID") then
       log [Lit "Build "; Fmt version; Lit " is ready!"] ;;
       ret build_id
     else if py_eq processing_state (VStr "INVALID") then
       log [Lit "Build "; Fmt version; Lit " processing failed"] ;;
       log [Lit "Check App Store Connect for details"] ;;
       ret VNone
     else
       t <- time_time ;;
       if t - start >? 1000 * (max * 60) then
         log [Lit "Timeout after "; Fmt (VInt max); Lit " minutes"] ;;
         log [Lit "Build "; Fmt version;
              Lit " is still processing. Run this script again later:"] ;;
         log [Lit "  ./submit_to_app_store.py "; Fmt version] ;;
         ret VNone
       else
         sleep (if py_truthy target
                   && negb (py_eq processing_state (VStr "PROCESSING"))
                then 30 else 5) ;;
         wait_loop fuel app expected max start
           (if negb (py_eq processing_state ls) || negb (py_eq version lv)
            then processing_state else ls)
           (if negb (py_eq processing_state ls) || negb (py_eq version lv)
            then version else lv)) w1 = (Ret r, w') ->
    r = VNone \/
    exists (wa wb : world) (response target version : value),
      make_api_request GET (builds_endpoint app) VNone wa = (Ret response, wb) /\
      target_of expected response = Ret target /\
      py_item target "id" = Ret r /\
      build_state target = Ret (VStr "VALID") /\
      build_label target = Ret version /\
      last_event (trace w') = Some (ready_line version)).
  { intros target Ht Hrun.
    invert_lift Hrun bid Hid.
    invert_lift Hrun ps Hps.
    invert_lift Hrun v Hv.
    apply bind_ret_inv in Hrun as (u & w2 & _ & Hrun).
    destruct (py_eq ps (VStr "VALID")) eqn:Hvalid.
    - invert_log Hrun. unfold ret in Hrun. injection Hrun as Hr Hw.
      apply py_eq_str in Hvalid. subst ps.
      right. exists w, w1, response, target, v.
      rewrite <- Hr, <- Hw. repeat split; try assumption.
      cbn [trace]. apply last_event_snoc.
    - destruct (py_eq ps (VStr "INVALID")).
      + invert_log Hrun. invert_log Hrun. unfold ret in Hrun. left. congruence.
      + apply bind_ret_inv in Hrun as (t & w3 & Htime & Hrun).
        destruct (t - start >? 1000 * (max * 60)).
        * invert_log Hrun. invert_log Hrun. invert_log Hrun.
          unfold ret in Hrun. left. congruence.
        * apply bind_ret_inv in Hrun as (u' & w4 & _ & Hrun).
          apply IH in Hrun. exact Hrun. }
  destruct empty.
  - invert_log H. invert_log H. unfold ret in H. left. congruence.
  - destruct (py_truthy expected).
    + invert_lift H target Ht.
      destruct (negb (py_truthy target)).
      * apply bind_ret_inv in H as (t & w3 & Htime & H).
        destruct (t - start >? 1000 * (max * 60)).
        -- invert_log H. invert_log H. invert_log H.
           unfold ret in H. left. congruence.
        -- apply bind_ret_inv in H as (u & w4 & _ & H).
           apply bind_ret_inv in H as (u' & w5 & _ & H).
           apply IH in H. exact H.
      * apply (Hfound target Ht H).
    + invert_lift H target Ht.
      apply (Hfound target Ht H).
Qed.

(** C6 (amended): on a poll that settles on the target build, the first
    poll of a call included, the progress line is written only when the
    state or the version label differs from the last ones reported; a
    VALID state returns the build identifier, and a value other than None
    comes back from the wait only that way; an INVALID state returns
    None, and so does, without the state becoming INVALID, a poll that
    finds any other state after the time limit, or a later poll that
    fails or comes back empty; within the time limit a PROCESSING state
    pauses 5 seconds, any other state than VALID and INVALID 30 seconds,
    and the wait polls again. *)
Theorem found_build_poll (fuel : nat) (app expected : value) (max start : Z)
    (ls lv : value) (w w1 : world) (response target id ps v : value) :
  make_api_request GET (builds_endpoint app) VNone w = (Ret response, w1) ->
  no_data response = Ret false ->
  target_of expected response = Ret target ->
  py_truthy target = true ->
  py_item target "id" = Ret id ->
  build_state target = Ret ps ->
  build_label target = Ret v ->
  let w2 := if changed ps v ls lv then record w1 [progress_line v ps] else w1 in
  let ls' := if changed ps v ls lv then ps else ls in
  let lv' := if changed ps v ls lv then v else lv in
  let poll := wait_loop (S fuel) app expected max start ls lv w in
  (forall w0 : world,
      w = record w0 [wait_header expected max] ->
      start = now w0 -> ls = VNone -> lv = VNone ->
      wait_for_build_processing (S fuel) app expected max false w0 = poll) /\
  (ps = VStr "VALID" -> poll = (Ret id, record w2 [ready_line v])) /\
  (forall (fuel0 : nat) (w0 w' : world) (r : value),
      wait_for_build_processing fuel0 app expected max false w0 = (Ret r, w') ->
      r <> VNone ->
      exists (wa wb : world) (response0 target0 version : value),
        make_api_request GET (builds_endpoint app) VNone wa = (Ret response0, wb) /\
        target_of expected response0 = Ret target0 /\
        py_item target0 "id" = Ret r /\
        build_state target0 = Ret (VStr "VALID") /\
        build_label target0 = Ret version /\
        last_event (trace w') = Some (ready_line version)) /\
  (ps = VStr "INVALID" ->
   poll = (Ret VNone,
           record w2 [Log [Lit "Build "; Fmt v; Lit " processing failed"];
                      Log [Lit "Check App Store Connect for details"]])) /\
  (py_eq ps (VStr "VALID") = false -> py_eq ps (VStr "INVALID") = false ->
   1000 * (max * 60) < now w1 - start ->
   poll = (Ret VNone,
           record w2 [Log [Lit "Timeout after "; Fmt (VInt max); Lit " minutes"];
                      Log [Lit "Build "; Fmt v;
                           Lit " is still processing. Run this script again later:"];
                      Log [Lit "  ./submit_to_app_store.py "; Fmt v]])) /\
  (forall (fuel0 : nat) (ls0 lv0 response0 : value) (wa wb : world),
      make_api_request GET (builds_endpoint app) VNone wa = (Ret response0, wb) ->
      no_data response0 = Ret true ->
      wait_loop (S fuel0) app expected max start ls0 lv0 wa =
      (Ret VNone,
       record wb [Log [Lit "No builds found"];
                  Log [Lit "Make sure you uploaded the IPA with xcrun altool first"]])) /\
  (ps = VStr "PROCESSING" -> now w1 - start <= 1000 * (max * 60) ->
   poll = wait_loop fuel app expected max start ls' lv' (asleep w2 5)) /\
  (py_eq ps (VStr "VALID") = false -> py_eq ps (VStr "INVALID") = false ->
   now w1 - start <= 1000 * (max * 60) ->
   poll = wait_loop fuel app expected max start ls' lv' (asleep w2 (nap target ps)) /\
   (ps <> VStr "PROCESSING" -> nap target ps = 30)).
Proof.
  intros Hreq Hnd Ht Htruthy Hid Hps Hv w2 ls' lv' poll.
  pose proof (wait_loop_found fuel app expected max start ls lv w w1 response target
                id ps v Hreq Hnd Ht (fun _ => Htruthy) Hid Hps Hv) as Hpoll.
  fold w2 ls' lv' poll in Hpoll. cbv zeta in Hpoll. fold w2 in Hpoll.
  assert (Hin : forall t, t <= 1000 * (max * 60) -> (t >? 1000 * (max * 60)) = false)
    by (intros t Hle; rewrite Z.gtb_ltb; apply Z.ltb_ge; lia).
  assert (Hout : forall t, 1000 * (max * 60) < t -> (t >? 1000 * (max * 60)) = true)
    by (intros t Hlt; apply Z.gtb_lt; lia).
  split; [|split; [|split; [|split; [|split; [|split; [|split]]]]]].
  - intros w0 -> -> -> ->. apply wait_for_build_processing_loop.
  - intros ->. rewrite Hpoll. reflexivity.
  - intros fuel0 w0 w' r Hrun Hr.
    rewrite wait_for_build_processing_loop in Hrun.
    apply wait_loop_value in Hrun as [Hnone|Hvalid]; [contradiction|exact Hvalid].
  - intros ->. rewrite Hpoll. reflexivity.
  - intros Hvalid Hinvalid Htime.
    rewrite Hpoll, Hvalid, Hinvalid, (Hout _ Htime). reflexivity.
  - intros fuel0 ls0 lv0 response0 wa wb Hreq0 Hnd0.
    apply (wait_loop_no_data fuel0 app expected max start ls0 lv0 wa wb response0
             Hreq0 Hnd0).
  - intros -> Htime. rewrite Hpoll, (Hin _ Htime).
    unfold nap. rewrite Htruthy. reflexivity.
  - intros Hvalid Hinvalid Htime. split.
    + rewrite Hpoll, Hvalid, Hinvalid, (Hin _ Htime). reflexivity.
    + intros Hproc. unfold nap. rewrite Htruthy.
      destruct (py_eq ps (VStr "PROCESSING")) eqn:E; [|reflexivity].
      apply py_eq_str in E. contradiction.
Qed.

(** ** What a computation adds to the trace *)

Lemma emits_ret {A} (P : event -> bool) (a : A) : emits P (ret a).
Proof. intros w. exists []. rewrite app_nil_r. split; reflexivity. Qed.

Lemma emits_lift {A} (P : event -> bool) (r : result A) : emits P (lift r).
Proof. intros w. exists []. rewrite app_nil_r. split; reflexivity. Qed.

Lemma emits_time (P : event -> bool) : emits P time_time.
Proof. intros w. exists []. rewrite app_nil_r. split; reflexivity. Qed.

Lemma emits_log (P : event -> bool) (msg : fstring) :
  P (Log msg) = true -> emits P (log msg).
Proof. intros H w. exists [Log msg]. split; [reflexivity|]. simpl. rewrite H. reflexivity. Qed.

Lemma emits_sleep (P : event -> bool) (s : Z) :
  P (Sleep s) = true -> emits P (sleep s).
Proof.
  intros H w. unfold sleep.
  destruct ((s <? - SLEEP_MAX) || (SLEEP_MAX <? s));
    [exists []; rewrite app_nil_r; split; reflexivity|].
  destruct (s <? 0).
  - exists []. rewrite app_nil_r. split; reflexivity.
  - exists [Sleep s]. split; [reflexivity|]. simpl. rewrite H. reflexivity.
Qed.

Lemma emits_send (P : event -> bool) (m : method) (url : fstring) (j : value) :
  P (Request m url j) = true -> emits P (send m url j).
Proof.
  intros H w. exists [Request m url j]. split; [reflexivity|].
  simpl. rewrite H. reflexivity.
Qed.

Lemma emits_bind {A B} (P : event -> bool) (c : M A) (f : A -> M B) :
  emits P c -> (forall a, emits P (f a)) -> emits P (bind c f).
Proof.
  intros Hc Hf w. unfold bind. destruct (Hc w) as (e1 & Ht1 & Hp1).
  destruct (c w) as [[a| e | code |] w1]; simpl in *;
    try (exists e1; split; assumption).
  destruct (Hf a w1) as (e2 & Ht2 & Hp2).
  exists (e1 ++ e2). rewrite Ht2, Ht1, app_assoc. split; [reflexivity|].
  rewrite forallb_app, Hp1, Hp2. reflexivity.
Qed.

Lemma emits_weaken {A} (P Q : event -> bool) (c : M A) :
  (forall e, P e = true -> Q e = true) -> emits P c -> emits Q c.
Proof.
  intros HPQ Hc w. destruct (Hc w) as (evs & Ht & Hp).
  exists evs. split; [exact Ht|].
  rewrite forallb_forall in *. auto.
Qed.

Lemma emits_for_each {A} (P : event -> bool) (l : list A) (f : A -> M unit) :
  (forall a, emits P (f a)) -> emits P (for_each l f).
Proof.
  intros Hf. induction l as [|x l IH]; simpl.
  - apply emits_ret.
  - apply emits_bind; [apply Hf|intros _; exact IH].
Qed.

(** Peel binds off and close the leaves, reading the shape of the
    computation; conditionals are left to the caller. *)
Ltac emits_step :=
  lazymatch goal with
  | |- emits _ (let _ := _ in _) => cbv zeta
  | |- emits _ (bind _ _) => apply emits_bind; [|intros ?]
  | |- emits _ (ret _) => apply emits_ret
  | |- emits _ (lift _) => apply emits_lift
  | |- emits _ (raise _) => apply emits_lift
  | |- emits _ (sys_exit _) => apply emits_lift
  | |- emits _ time_time => apply emits_time
  | |- emits _ (log _) => apply emits_log; reflexivity
  | |- emits _ print_blank => apply emits_log; reflexivity
  | |- emits _ (sleep _) => apply emits_sleep; reflexivity
  | |- emits _ _ => assumption
  end.

Ltac emits_auto := repeat emits_step.

Lemma method_eqb_refl (m : method) : method_eqb m m = true.
Proof. destruct m; reflexivity. Qed.

Lemma generate_jwt_token_footprint (m : method) :
  emits (helper_event m) generate_jwt_token.
Proof.
  unfold generate_jwt_token.
  destruct (P8_KEY_PATH cfg); [|apply emits_lift].
  destruct (negb (key_file_exists cfg)); [|destruct (jwt_signs cfg)]; emits_auto.
Qed.

Lemma attempt_loop_footprint (m : method) (url : fstring) (data : value)
    (retries : Z) (n : nat) :
  forall attempt, emits (helper_event m) (attempt_loop m url data retries n attempt).
Proof.
  induction n as [|n IH]; intros attempt; [apply emits_ret|].
  specialize (IH (attempt + 1)).
  cbn [attempt_loop].
  apply emits_bind;
    [apply emits_send; cbn [helper_event]; apply method_eqb_refl|].
  intros [l resp | l | l | l].
  - destruct (status_code resp =? 429); [emits_auto|].
    destruct (status_code resp >=? 400).
    + destruct (content resp); [| destruct json_error_is_request_exception |];
        emits_auto; destruct (attempt <? retries - 1); emits_auto.
    + destruct (content resp); try destruct json_error_is_request_exception;
        emits_auto; destruct (attempt <? retries - 1); emits_auto.
  - emits_auto. destruct (attempt <? retries - 1); emits_auto.
  - emits_auto. destruct (attempt <? retries - 1); emits_auto.
  - emits_auto.
Qed.

(** The footprint of the request helper. *)
Lemma make_api_request_footprint (m : method) (endpoint : fstring) (data : value) :
  emits (helper_event m) (make_api_request m endpoint data).
Proof.
  unfold make_api_request, make_api_request_with.
  apply emits_bind; [apply generate_jwt_token_footprint|intros _].
  apply attempt_loop_footprint.
Qed.

Lemma helper_event_get_calm (e : event) : helper_event GET e = true -> calm e = true.
Proof.
  destruct e as [msg|[| |] url j|s]; intros H; try reflexivity;
    simpl in H; discriminate.
Qed.

Lemma make_api_request_get_calm (endpoint : fstring) (data : value) :
  emits calm (make_api_request GET endpoint data).
Proof.
  apply (emits_weaken (helper_event GET)); [apply helper_event_get_calm|].
  apply make_api_request_footprint.
Qed.

(** ** Dry-run mode *)

Ltac emits_calm :=
  repeat first
    [ emits_step
    | apply make_api_request_get_calm
    | match goal with
      | |- emits _ (if ?b then _ else _) => destruct b
      | |- emits _ (match ?x with _ => _ end) => destruct x
      end ].

Lemma check_environment_variables_calm : emits calm check_environment_variables.
Proof.
  unfold check_environment_variables.
  destruct (env_set (API_KEY_ID cfg)), (env_set (ISSUER_ID cfg)); cbn [app];
    emits_auto; apply emits_for_each; intros var; emits_auto.
Qed.

Lemma find_bundle_id_calm (p : string) : emits calm (find_bundle_id p).
Proof. unfold find_bundle_id. emits_calm. Qed.

Lemma find_app_by_bundle_id_calm (b : value) : emits calm (find_app_by_bundle_id b).
Proof. unfold find_app_by_bundle_id. emits_calm. Qed.


















(** ** Version resolution (lines 339-393) and its use in [main] *)

Lemma py_in_strs (s : string) (l : list string) :
  In s l -> py_in (VStr s) l = true.
Proof.
  intros H. unfold py_in. apply existsb_exists. exists s.
  split; [exact H|]. cbn [py_eq]. apply String.eqb_refl.
Qed.

Lemma get_or_create_version_submitted (app : value) (v : string) (dry : bool)
    (w w1 : world) (response data id : value) (s : string) :
  make_api_request GET (versions_endpoint app v) VNone
    (record w [Log [Lit "Looking for version "; Lit v; Lit "..."]])
    = (Ret response, w1) ->
  py_truthy response = true ->
  py_get response "data" VNone = Ret data ->
  py_truthy data = true ->
  first_version_id response = Ret id ->
  first_version_state response = Ret (VStr s) ->
  In s submitted_states ->
  get_or_create_version app v dry w =
  (Ret VNone,
   record w1 [Log [Lit "Found existing version: "; Lit v; Lit " (State: ";
                   Fmt (VStr s); Lit ")"];
              Log [Lit "Version already in state: "; Fmt (VStr s)];
              Log [Lit "Skipping submission (already submitted)"]]).
Proof.
  intros Hreq Hresp Hdata Hsome Hid Hstate Hin.
  unfold get_or_create_version. unfold bind at 1. unfold log at 1, emit at 1.
  fold (record w [Log [Lit "Looking for version "; Lit v; Lit "..."]]).
  unfold bind at 1. rewrite Hreq, Hresp. cbn [negb].
  unfold bind at 1. unfold lift at 1. rewrite Hdata, Hsome.
  unfold bind at 1. unfold lift at 1. rewrite Hid.
  unfold bind at 1. unfold lift at 1. rewrite Hstate.
  rewrite (py_in_strs s _ Hin).
  unfold bind, log, emit, ret, record. cbn [fst snd replies cursor now trace].
  f_equal. apply world_eq; try reflexivity.
  rewrite <- !app_assoc. reflexivity.
Qed.

(** C4: when the version lookup finds a version whose state is
    WAITING_FOR_REVIEW, IN_REVIEW, PENDING_DEVELOPER_RELEASE or
    READY_FOR_SALE, [get_or_create_version] returns None, nothing but the
    read-only lookup has been sent (no version is created), and the run
    exits with status 0. *)
Theorem submitted_version_exits_0 (fuel : nat) (args : arguments)
    (w w0 w1 : world) (b : located) (response data id : value) (s : string) :
  locate_build fuel args w = (Ret b, w0) ->
  make_api_request GET (versions_endpoint (app_id b) (version_part b)) VNone
    (record w0 [Log [Lit "Looking for version "; Lit (version_part b); Lit "..."]])
    = (Ret response, w1) ->
  py_truthy response = true ->
  py_get response "data" VNone = Ret data ->
  py_truthy data = true ->
  first_version_id response = Ret id ->
  first_version_state response = Ret (VStr s) ->
  In s submitted_states ->
  let w2 :=
    record w1 [Log [Lit "Found existing version: "; Lit (version_part b);
                    Lit " (State: "; Fmt (VStr s); Lit ")"];
               Log [Lit "Version already in state: "; Fmt (VStr s)];
               Log [Lit "Skipping submission (already submitted)"]] in
  get_or_create_version (app_id b) (version_part b) (dry_run args) w0
    = (Ret VNone, w2) /\
  (exists evs : list event,
      trace w2 = trace w0 ++ evs /\ forallb calm evs = true) /\
  program fuel args w =
    (Some 0,
     if dry_run args then w2
     else record w2 [Log [Lit "Version may already be submitted"]]).
Proof.
  intros Hloc Hreq Hresp Hdata Hsome Hid Hstate Hin w2.
  pose proof (get_or_create_version_submitted (app_id b) (version_part b)
                (dry_run args) w0 w1 response data id s
                Hreq Hresp Hdata Hsome Hid Hstate Hin) as Hver.
  fold w2 in Hver.
  split; [exact Hver|]. split.
  - destruct (make_api_request_get_calm
                (versions_endpoint (app_id b) (version_part b)) VNone
                (record w0 [Log [Lit "Looking for version "; Lit (version_part b);
                                 Lit "..."]])) as (evs & Ht & Hc).
    rewrite Hreq in Ht. cbn [snd record trace] in Ht.
    subst w2. cbn [record trace]. rewrite Ht, <- !app_assoc.
    eexists. split; [reflexivity|].
    cbn [app forallb]. rewrite forallb_app, Hc. reflexivity.
  - unfold program, main, annotate_version, link_version.
    unfold bind at 1 2 3. rewrite Hloc.
    unfold bind at 1. rewrite Hver. cbn [py_truthy negb].
    destruct (dry_run args); reflexivity.
Qed.

(** ** Release notes (lines 425-480) *)

Lemma reports_app (a b : list event) : reports (a ++ b) = reports a ++ reports b.
Proof. unfold reports. apply flat_map_app. Qed.

Lemma reports_unreported (evs : list event) :
  forallb unreported evs = true -> reports evs = [].
Proof.
  induction evs as [|e evs IH]; [reflexivity|].
  cbn [forallb]. intros H. apply andb_true_iff in H as [He Hevs].
  unfold reports in *. cbn [flat_map]. rewrite (IH Hevs).
  unfold unreported in He. destruct (report_of e); [discriminate|reflexivity].
Qed.

Lemma helper_event_unreported (m : method) (e : event) :
  helper_event m e = true -> unreported e = true.
Proof.
  destruct e as [msg|m' url j|s]; try reflexivity.
  destruct msg as [|[s| | |] rest]; try discriminate.
  cbn [helper_event existsb]. intros H.
  repeat (apply orb_true_iff in H as [H|H];
          [apply String.eqb_eq in H; subst s;
           destruct rest as [|[| | |] [|]]; reflexivity|]).
  discriminate.
Qed.

Lemma make_api_request_unreported (m : method) (endpoint : fstring) (data : value) :
  emits unreported (make_api_request m endpoint data).
Proof.
  apply (emits_weaken (helper_event m)); [apply helper_event_unreported|].
  apply make_api_request_footprint.
Qed.

Lemma updated_app (a b : list (value * bool)) : updated (a ++ b) = updated a + updated b.
Proof. unfold updated. rewrite filter_app, length_app. lia. Qed.

(** The loop gives every localization its own update and its own report,
    failures included, and counts the successes. *)
Lemma update_locales_reports (notes : string) (locs : list value) :
  forall (n : Z) (w w' : world) (n' : Z),
    update_locales notes locs n w = (Ret n', w') ->
    exists evs : list event,
      trace w' = trace w ++ evs /\
      Forall2 (fun loc r => locale_of loc = Ret (fst r)) locs (reports evs) /\
      n' = n + updated (reports evs).
Proof.
  induction locs as [|loc locs IH]; intros n w w' n' H.
  - cbn in H. injection H as <- <-. exists [].
    rewrite app_nil_r. repeat split; [constructor|cbn; lia].
  - cbn [update_locales] in H.
    apply bind_ret_inv in H as (code & w1 & Hcode & H).
    apply bind_ret_inv in H as (id & w2 & Hid & H).
    apply bind_ret_inv in H as (response & w3 & Hreq & H).
    unfold lift in Hcode, Hid.
    injection Hcode as Hcode <-. injection Hid as Hid <-.
    destruct (make_api_request_unreported PATCH
                [Lit "/appStoreVersionLocalizations/"; Fmt id]
                (VDict [("data", VDict [
                   ("type", VStr "appStoreVersionLocalizations");
                   ("id", id);
                   ("attributes", VDict [("whatsNew", VStr notes)])])]) w)
      as (e1 & Ht1 & Hu1).
    rewrite Hreq in Ht1. cbn [snd] in Ht1.
    apply reports_unreported in Hu1.
    destruct (py_truthy response).
    + apply bind_ret_inv in H as ([] & w4 & Hlog & H).
      unfold log, emit in Hlog. injection Hlog as <-.
      apply IH in H as (e2 & Ht2 & Hrep & Hn).
      cbn [trace] in Ht2.
      exists (e1 ++ [Log [Lit "Added release notes for "; Fmt code]] ++ e2).
      split; [rewrite Ht2, Ht1, <- !app_assoc; reflexivity|].
      rewrite !reports_app, Hu1. cbn [app]. split.
      * change (reports [Log [Lit "Added release notes for "; Fmt code]])
          with [(code, true)]. cbn [app]. constructor; [exact Hcode|exact Hrep].
      * change (reports [Log [Lit "Added release notes for "; Fmt code]])
          with [(code, true)]. rewrite updated_app.
        change (updated [(code, true)]) with 1. lia.
    + apply bind_ret_inv in H as ([] & w4 & Hlog & H).
      unfold log, emit in Hlog. injection Hlog as <-.
      apply IH in H as (e2 & Ht2 & Hrep & Hn).
      cbn [trace] in Ht2.
      exists (e1 ++ [Log [Lit "Failed to add release notes for "; Fmt code]] ++ e2).
      split; [rewrite Ht2, Ht1, <- !app_assoc; reflexivity|].
      rewrite !reports_app, Hu1. cbn [app]. split.
      * change (reports [Log [Lit "Failed to add release notes for "; Fmt code]])
          with [(code, false)]. cbn [app]. constructor; [exact Hcode|exact Hrep].
      * change (reports [Log [Lit "Failed to add release notes for "; Fmt code]])
          with [(code, false)]. rewrite updated_app.
        change (updated [(code, false)]) with 0. lia.
Qed.

Lemma py_len_truthy (v : value) (k : Z) :
  py_truthy v = true -> py_len v = Ret k -> 1 <= k.
Proof.
  destruct v as [|b|n|s|l|d]; cbn; try discriminate; intros Ht Hk;
    injection Hk as <-.
  - destruct s; [discriminate|cbn; lia].
  - destruct l; [discriminate|cbn [List.length]; lia].
  - destruct d; [discriminate|cbn [List.length]; lia].
Qed.

(** Outside dry-run mode, a stage that comes back with a result has
    written one report line per listed localization, in order, whether
    its update went through or not, and the result is True exactly when
    at least one line reports a success. *)
Lemma add_release_notes_reports (version : value) (notes : string)
    (w w' : world) (res : bool) :
  add_release_notes_all_locales version notes false w = (Ret res, w') ->
  exists evs : list event,
    trace w' = trace w ++ evs /\
    (res = true <-> 0 < updated (reports evs)) /\
    (forall response w1 localizations locs,
        make_api_request GET (localizations_endpoint version) VNone
          (record w [Log [Lit "Adding release notes for all localizations..."]])
          = (Ret response, w1) ->
        py_truthy response = true ->
        py_get response "data" (VList []) = Ret localizations ->
        py_truthy localizations = true ->
        py_iter localizations = Ret locs ->
        Forall2 (fun loc r => locale_of loc = Ret (fst r)) locs (reports evs)).
Proof.
  intros H. unfold add_release_notes_all_locales in H.
  apply bind_ret_inv in H as ([] & w0 & Hlog & H).
  unfold log, emit in Hlog. injection Hlog as <-.
  fold (record w [Log [Lit "Adding release notes for all localizations..."]]) in H.
  set (w0 := record w _) in *.
  apply bind_ret_inv in H as (response & w1 & Hreq & H).
  destruct (make_api_request_unreported GET (localizations_endpoint version) VNone w0)
    as (e1 & Ht1 & Hu1).
  rewrite Hreq in Ht1. cbn [snd] in Ht1. apply reports_unreported in Hu1.
  assert (Ht0 : trace w0 = trace w ++ [Log [Lit "Adding release notes for all localizations..."]])
    by reflexivity.
  destruct (py_truthy response) eqn:Hresp; cbn [negb] in H.
  2:{ unfold ret in H. injection H as <- <-.
      exists ([Log [Lit "Adding release notes for all localizations..."]] ++ e1).
      split; [rewrite Ht1, Ht0, <- app_assoc; reflexivity|].
      rewrite reports_app, Hu1. cbn. split; [split; [discriminate|lia]|].
      intros response' w1' localizations locs Hreq'.
      rewrite Hreq in Hreq'. injection Hreq' as <- <-. congruence. }
  apply bind_ret_inv in H as (localizations & w2 & Hget & H).
  unfold lift in Hget. injection Hget as Hget <-.
  destruct (py_truthy localizations) eqn:Hsome; cbn [negb] in H.
  2:{ apply bind_ret_inv in H as ([] & w3 & Hlog & H).
      unfold log, emit in Hlog. injection Hlog as <-.
      unfold ret in H. injection H as <- <-.
      exists ([Log [Lit "Adding release notes for all localizations..."]] ++ e1
              ++ [Log [Lit "No localizations found"]]).
      split; [cbn [trace]; rewrite Ht1, Ht0, <- !app_assoc; reflexivity|].
      rewrite !reports_app, Hu1. cbn. split; [split; [discriminate|lia]|].
      intros response' w1' localizations' locs Hreq'.
      rewrite Hreq in Hreq'. injection Hreq' as <- <-. congruence. }
  apply bind_ret_inv in H as (total & w3 & Hlen & H).
  unfold lift in Hlen. injection Hlen as Hlen <-.
  apply bind_ret_inv in H as (locs & w4 & Hiter & H).
  unfold lift in Hiter. injection Hiter as Hiter <-.
  apply bind_ret_inv in H as (n' & w5 & Hloop & H).
  apply update_locales_reports in Hloop as (e2 & Ht2 & Hrep & Hn).
  pose proof (py_len_truthy localizations total Hsome Hlen) as Htotal.
  assert (Hfinal : exists tail : list event,
             trace w' = trace w5 ++ tail /\ reports tail = [] /\
             (res = true <-> 0 < n')).
  { destruct (n' =? total) eqn:Hall.
    - apply Z.eqb_eq in Hall.
      apply bind_ret_inv in H as ([] & w6 & Hlog & H).
      unfold log, emit in Hlog. injection Hlog as <-.
      unfold ret in H. injection H as <- <-.
      eexists. split; [reflexivity|]. split; [reflexivity|].
      split; [lia|reflexivity].
    - destruct (n' >? 0) eqn:Hpos.
      + apply bind_ret_inv in H as ([] & w6 & Hlog & H).
        unfold log, emit in Hlog. injection Hlog as <-.
        unfold ret in H. injection H as <- <-.
        eexists. split; [reflexivity|]. split; [reflexivity|].
        apply Z.gtb_lt in Hpos. split; [lia|reflexivity].
      + apply bind_ret_inv in H as ([] & w6 & Hlog & H).
        unfold log, emit in Hlog. injection Hlog as <-.
        unfold ret in H. injection H as <- <-.
        eexists. split; [reflexivity|]. split; [reflexivity|].
        rewrite Z.gtb_ltb in Hpos. apply Z.ltb_ge in Hpos.
        split; [discriminate|lia]. }
  destruct Hfinal as (tail & Ht3 & Hu3 & Hres).
  exists ([Log [Lit "Adding release notes for all localizations..."]] ++ e1
          ++ e2 ++ tail).
  split; [rewrite Ht3, Ht2, Ht1, Ht0, <- !app_assoc; reflexivity|].
  rewrite !reports_app, Hu1, Hu3, app_nil_r. cbn [reports flat_map report_of app].
  split.
  - rewrite Hres, Hn. lia.
  - intros response' w1' localizations' locs' Hreq' _ Hget' _ Hiter'.
    rewrite Hreq in Hreq'. injection Hreq' as <- <-.
    rewrite Hget in Hget'. injection Hget' as <-.
    rewrite Hiter in Hiter'. injection Hiter' as <-.
    exact Hrep.
Qed.

(** ** Exit statuses of the run (lines 620-692) *)

Lemma add_release_notes_none_attached (version : value) (notes : string)
    (w w1 : world) (response localizations : value) :
  make_api_request GET (localizations_endpoint version) VNone
    (record w [Log [Lit "Adding release notes for all localizations..."]])
    = (Ret response, w1) ->
  py_truthy response = true ->
  py_get response "data" (VList []) = Ret localizations ->
  py_truthy localizations = false ->
  add_release_notes_all_locales version notes false w =
  (Ret false, record w1 [Log [Lit "No localizations found"]]).
Proof.
  intros Hreq Hresp Hget Hnone.
  unfold add_release_notes_all_locales. unfold bind at 1. unfold log at 1, emit at 1.
  fold (record w [Log [Lit "Adding release notes for all localizations..."]]).
  unfold bind at 1. rewrite Hreq, Hresp. cbn [negb].
  unfold bind at 1. unfold lift at 1. rewrite Hget, Hnone. reflexivity.
Qed.

(** C10: when the localization listing succeeds but holds no
    localization, [add_release_notes_all_locales] returns False without
    having sent any update, and the run exits with status 1; and when the
    review submission returns False, [main] still writes the summary and
    the run exits with status 0. *)
Theorem empty_listing_exits_1_failed_submission_exits_0 (fuel : nat)
    (args : arguments) (w : world) :
  dry_run args = false ->
  (forall b version_id w0 response localizations w1,
      link_version fuel args w = (Ret (b, version_id), w0) ->
      make_api_request GET (localizations_endpoint version_id) VNone
        (record w0 [Log [Lit "Adding release notes for all localizations..."]])
        = (Ret response, w1) ->
      py_truthy response = true ->
      py_get response "data" (VList []) = Ret localizations ->
      py_truthy localizations = false ->
      add_release_notes_all_locales version_id RELEASE_NOTES false w0
        = (Ret false, record w1 [Log [Lit "No localizations found"]]) /\
      (exists evs : list event,
          trace w1 = trace w0 ++ evs /\ forallb calm evs = true) /\
      program fuel args w = (Some 1, record w1 [Log [Lit "No localizations found"]])) /\
  (forall b version_id w0 w1,
      annotate_version fuel args w = (Ret (b, version_id), w0) ->
      submit_for_review version_id (app_id b) false w0 = (Ret false, w1) ->
      program fuel args w = (Some 0, record w1 (manual_action_summary b))).
Proof.
  intros Hlive. split.
  - intros b version_id w0 response localizations w1 Hlink Hreq Hresp Hget Hnone.
    pose proof (add_release_notes_none_attached version_id RELEASE_NOTES w0 w1
                  response localizations Hreq Hresp Hget Hnone) as Hnotes.
    split; [exact Hnotes|]. split.
    + destruct (make_api_request_get_calm (localizations_endpoint version_id) VNone
                  (record w0 [Log [Lit "Adding release notes for all localizations..."]]))
        as (evs & Ht & Hc).
      rewrite Hreq in Ht. cbn [snd record trace] in Ht.
      rewrite Ht, <- app_assoc. eexists. split; [reflexivity|].
      cbn [app forallb]. exact Hc.
    + unfold program, main, annotate_version.
      unfold bind at 1 2. rewrite Hlink.
      unfold bind at 1. cbn [snd]. rewrite Hlive, Hnotes. reflexivity.
  - intros b version_id w0 w1 Hnote Hsubmit.
    unfold program, main. unfold bind at 1. rewrite Hnote.
    unfold bind at 1. cbn [fst snd]. rewrite Hlive, Hsubmit.
    unfold bind, print_blank, log, emit, ret, record, manual_action_summary.
    cbn [fst snd replies cursor now trace].
    f_equal. apply world_eq; try reflexivity.
    rewrite <- !app_assoc. reflexivity.
Qed.

(** ** More on the request helper: recovery, footprint, abnormal ends *)

Lemma attempt_loop_ok (m : method) (url : fstring) (data : value) (retries : Z)
    (n : nat) (attempt : Z) (w : world) (l : N) (resp : response) (v : value) :
  replies w (cursor w) = Responds l resp ->
  status_code resp < 400 ->
  content resp = Json v ->
  attempt_loop m url data retries (S n) attempt w =
  (Ret v, mkWorld (replies w) (S (cursor w)) (now w + Z.of_N l)
            (trace w ++ [Request m url (sent m data)])).
Proof.
  intros Hr Hst Hc.
  cbn [attempt_loop]. unfold bind at 1. unfold send at 1. cbn [fst snd].
  rewrite Hr.
  replace (status_code resp =? 429) with false by (symmetry; apply Z.eqb_neq; lia).
  replace (status_code resp >=? 400) with false
    by (symmetry; rewrite Z.geb_leb; apply Z.leb_gt; lia).
  rewrite Hc. reflexivity.
Qed.

(** One plain failure, then a reply that is handed back: two requests
    and the pause of 5 seconds between them. *)
Lemma make_api_request_second_try (m : method) (endpoint : fstring) (data : value)
    (w : world) (l : N) (resp : response) (v : value) :
  key_ready = true ->
  plain_failure (replies w (cursor w)) = true ->
  replies w (S (cursor w)) = Responds l resp ->
  status_code resp < 400 ->
  content resp = Json v ->
  exists evs : list event,
    make_api_request m endpoint data w =
      (Ret v, mkWorld (replies w) (S (S (cursor w)))
                (now w + Z.of_N (latency_of (replies w (cursor w))) + 5000 + Z.of_N l)
                (trace w ++ evs)).
Proof.
  intros Hkey Hf Hr Hst Hc.
  unfold make_api_request, make_api_request_with. unfold bind at 1.
  rewrite (generate_jwt_token_ready w Hkey). change (Z.to_nat 3) with 3%nat.
  destruct (attempt_loop_failure m (Lit BASE_URL :: endpoint) data 3 2 0 w Hf
              ltac:(lia) ltac:(rewrite sleep_max; lia)) as (e0 & _ & Hrest).
  change (0 <? 3 - 1) with true in Hrest. cbv iota in Hrest.
  destruct Hrest as [_ E]. rewrite E.
  rewrite (attempt_loop_ok m (Lit BASE_URL :: endpoint) data 3 1 (0 + 1) _ l resp v);
    [|exact Hr|exact Hst|exact Hc].
  cbn [replies cursor now trace].
  exists (e0 ++ [Request m (Lit BASE_URL :: endpoint) (sent m data)]).
  f_equal. apply world_eq; [reflexivity|lia|rewrite <- app_assoc; reflexivity].
Qed.

Lemma attempt_loop_recovers (m : method) (url : fstring) (data : value)
    (retries : Z) (l : N) (resp : response) (v : value) :
  status_code resp < 400 ->
  content resp = Json v ->
  5 * retries <= SLEEP_MAX ->
  forall (k n : nat) (attempt : Z) (w : world),
    0 <= attempt ->
    attempt + Z.of_nat k < retries ->
    (k <= n)%nat ->
    (forall i, (i < k)%nat -> plain_failure (replies w (cursor w + i)) = true) ->
    replies w (cursor w + k) = Responds l resp ->
    exists (evs : list event) (t : Z),
      attempt_loop m url data retries (S n) attempt w =
        (Ret v, mkWorld (replies w) (cursor w + k + 1) t (trace w ++ evs)) /\
      sleeps evs = map (fun i => 5 * (attempt + Z.of_nat i + 1)) (seq 0 k) /\
      requests evs = repeat (m, url) (S k).
Proof.
  intros Hst Hc Hmax k.
  induction k as [|k IH]; intros n attempt w Ha Hlt Hkn Hfail Hok.
  - rewrite Nat.add_0_r in Hok.
    rewrite (attempt_loop_ok m url data retries n attempt w l resp v Hok Hst Hc).
    exists [Request m url (sent m data)], (now w + Z.of_N l).
    split; [|split; reflexivity].
    f_equal. apply world_eq; [lia|reflexivity|reflexivity].
  - destruct n as [|n]; [lia|].
    pose proof (Hfail 0%nat ltac:(lia)) as H0. rewrite Nat.add_0_r in H0.
    destruct (attempt_loop_failure m url data retries (S n) attempt w H0 Ha
                ltac:(lia)) as (e0 & Hq0 & Hrest).
    replace (attempt <? retries - 1) with true in Hrest
      by (symmetry; apply Z.ltb_lt; lia).
    destruct Hrest as [Hs0 E0]. rewrite E0.
    set (w1 := mkWorld _ _ _ _).
    destruct (IH n (attempt + 1) w1) as (evs & t & E1 & Hs1 & Hq1).
    + lia.
    + lia.
    + lia.
    + intros i Hi. subst w1. cbn [replies cursor].
      replace (S (cursor w) + i)%nat with (cursor w + S i)%nat by lia.
      apply Hfail. lia.
    + subst w1. cbn [replies cursor].
      replace (S (cursor w) + k)%nat with (cursor w + S k)%nat by lia. exact Hok.
    + exists (e0 ++ evs), t. split; [|split].
      * rewrite E1. subst w1. cbn [replies cursor trace].
        f_equal. apply world_eq; [lia|reflexivity|].
        rewrite <- app_assoc. reflexivity.
      * unfold sleeps in *. rewrite flat_map_app, Hs0, Hs1.
        cbn [seq map app]. f_equal; [f_equal; lia|].
        rewrite <- seq_shift, map_map. apply map_ext. intros i. lia.
      * unfold requests in *. rewrite flat_map_app, Hq0, Hq1. reflexivity.
Qed.

(** X1: after k < 3 plain failures a reply with a status below 400 and a
    JSON body is handed back as the result: k + 1 requests in all, with
    pauses of 5, 10, ... seconds between them. *)
Theorem retry_recovers (m : method) (endpoint : fstring) (data : value)
    (w : world) (k : nat) (l : N) (resp : response) (v : value) :
  key_ready = true ->
  (k < 3)%nat ->
  (forall i, (i < k)%nat -> plain_failure (replies w (cursor w + i)) = true) ->
  replies w (cursor w + k) = Responds l resp ->
  status_code resp < 400 ->
  content resp = Json v ->
  exists (evs : list event) (t : Z),
    make_api_request m endpoint data w =
      (Ret v, mkWorld (replies w) (cursor w + k + 1) t (trace w ++ evs)) /\
    sleeps evs = map (fun i => 5 * (Z.of_nat i + 1)) (seq 0 k) /\
    requests evs = repeat (m, Lit BASE_URL :: endpoint) (S k).
Proof.
  intros Hkey Hk Hfail Hok Hst Hc.
  unfold make_api_request, make_api_request_with. unfold bind at 1.
  rewrite (generate_jwt_token_ready w Hkey).
  change (Z.to_nat 3) with 3%nat.
  destruct (attempt_loop_recovers m (Lit BASE_URL :: endpoint) data 3 l resp v
              Hst Hc ltac:(rewrite sleep_max; lia) k 2 0 w)
    as (evs & t & E & Hs & Hq); try assumption; try lia.
  exists evs, t. split; [exact E|]. split; [|exact Hq].
  rewrite Hs. apply map_ext. intros i. lia.
Qed.

(** X2: a call of the helper with method [m] adds to the trace only
    requests of method [m], sleeps and the helper's own log lines, whatever
    the replies; a GET call therefore never sends a POST or PATCH. *)
Theorem request_helper_footprint (m : method) (endpoint : fstring) (data : value)
    (w : world) :
  (exists evs : list event,
      trace (snd (make_api_request m endpoint data w)) = trace w ++ evs /\
      forallb (helper_event m) evs = true) /\
  (exists evs : list event,
      trace (snd (make_api_request GET endpoint data w)) = trace w ++ evs /\
      forallb calm evs = true).
Proof.
  split.
  - apply make_api_request_footprint.
  - apply make_api_request_get_calm.
Qed.

Lemma generate_jwt_token_fails (w : world) :
  key_ready = false ->
  exists evs : list event,
    generate_jwt_token w =
      (match P8_KEY_PATH cfg with Some _ => Exit 1 | None => Raise TypeError end,
       record w evs) /\
    requests evs = [] /\ sleeps evs = [].
Proof.
  unfold key_ready, generate_jwt_token. intros H.
  destruct (P8_KEY_PATH cfg) as [path|].
  - destruct (key_file_exists cfg); cbn [negb].
    + destruct (jwt_signs cfg); [discriminate|].
      eexists. split; [reflexivity|]. split; reflexivity.
    + exists [Log [Lit "P8 key file not found: "; Lit path];
              Log [Lit "Set APP_STORE_P8_KEY_PATH or place the key at the default location"]].
      split; [|split; reflexivity].
      unfold bind, log, emit, sys_exit, lift, record.
      cbn [fst snd replies cursor now trace]. rewrite <- app_assoc. reflexivity.
  - exists []. split; [|split; reflexivity].
    unfold raise, lift, record. rewrite app_nil_r. destruct w; reflexivity.
Qed.

(** X3: when the token cannot be made, every call of the helper ends
    before any request is sent and without sleeping.  With the key path
    a string and the key file missing or not signing, the process ends
    with status 1; with no key path at all (neither a key identifier nor
    APP_STORE_P8_KEY_PATH in the environment) [os.path.exists(None)]
    raises TypeError instead. *)
Theorem unsigned_request_exits_1 (m : method) (endpoint : fstring) (data : value)
    (w : world) :
  key_ready = false ->
  exists evs : list event,
    make_api_request m endpoint data w =
      (match P8_KEY_PATH cfg with Some _ => Exit 1 | None => Raise TypeError end,
       record w evs) /\
    requests evs = [] /\ sleeps evs = [] /\
    (APP_STORE_P8_KEY_PATH cfg = None -> env_set (API_KEY_ID cfg) = false ->
     P8_KEY_PATH cfg = None) /\
    (env_set (API_KEY_ID cfg) = true -> P8_KEY_PATH cfg <> None).
Proof.
  intros Hkey. destruct (generate_jwt_token_fails w Hkey) as (evs & E & Hq & Hs).
  exists evs. split; [|split; [assumption|split; [assumption|split]]].
  - unfold make_api_request, make_api_request_with, bind. rewrite E.
    destruct (P8_KEY_PATH cfg); reflexivity.
  - unfold P8_KEY_PATH, env_set. intros -> Hid.
    destruct (API_KEY_ID cfg) as [k|]; [|reflexivity].
    apply negb_false_iff in Hid. rewrite Hid. reflexivity.
  - unfold P8_KEY_PATH, env_set. intros Hid.
    destruct (APP_STORE_P8_KEY_PATH cfg); [discriminate|].
    destruct (API_KEY_ID cfg) as [k|]; [|discriminate].
    apply negb_true_iff in Hid. rewrite Hid. discriminate.
Qed.

(** X4: an HTTP error other than 429 whose JSON body the error report
    cannot read (for one, an empty 'errors' list) is not retried: the
    exception of the report leaves the helper after that one request. *)
Theorem unreadable_error_body_raises (m : method) (endpoint : fstring)
    (data : value) (w : world) (l : N) (resp : response) (error_data : value)
    (e : exn) :
  key_ready = true ->
  replies w (cursor w) = Responds l resp ->
  400 <= status_code resp ->
  status_code resp <> 429 ->
  content resp = Json error_data ->
  error_detail error_data = Raise e ->
  make_api_request m endpoint data w =
  (Raise e,
   mkWorld (replies w) (S (cursor w)) (now w + Z.of_N l)
     (trace w ++ [Request m (Lit BASE_URL :: endpoint) (sent m data)])).
Proof.
  intros Hkey Hr H400 H429 Hc Hd.
  unfold make_api_request, make_api_request_with. unfold bind at 1.
  rewrite (generate_jwt_token_ready w Hkey).
  change (Z.to_nat 3) with 3%nat.
  cbn [attempt_loop]. unfold bind at 1. unfold send at 1. cbn [fst snd].
  rewrite Hr.
  replace (status_code resp =? 429) with false by (symmetry; apply Z.eqb_neq; lia).
  replace (status_code resp >=? 400) with true
    by (symmetry; rewrite Z.geb_leb; apply Z.leb_le; lia).
  rewrite Hc. unfold bind at 1. unfold lift at 1. rewrite Hd. reflexivity.
Qed.

(** X5: a 429 response whose Retry-After header cannot be slept makes
    the helper raise after that one request, without having slept:
    ValueError when [int()] cannot read the header or reads it as a
    negative number down to -9223372036, OverflowError when it reads a
    number beyond 9223372036 either way. *)
Theorem bad_retry_after_raises (m : method) (endpoint : fstring) (data : value)
    (w : world) (l : N) (resp : response) (h : string) :
  key_ready = true ->
  replies w (cursor w) = Responds l resp ->
  status_code resp = 429 ->
  retry_after resp = Some h ->
  match py_int h with
  | Some s => s < 0 \/ 9223372036 < s
  | None => True
  end ->
  exists w',
    make_api_request m endpoint data w =
      (Raise (match py_int h with
              | Some s =>
                  if (s <? -9223372036) || (9223372036 <? s) then OverflowError
                  else ValueError
              | None => ValueError
              end), w') /\
    cursor w' = S (cursor w) /\
    now w' = now w + Z.of_N l /\
    sleeps (trace w') = sleeps (trace w).
Proof.
  intros Hkey Hr H429 Hh Hbad.
  unfold make_api_request, make_api_request_with. unfold bind at 1.
  rewrite (generate_jwt_token_ready w Hkey).
  change (Z.to_nat 3) with 3%nat.
  cbn [attempt_loop]. unfold bind at 1. unfold send at 1. cbn [fst snd].
  rewrite Hr, H429. cbn [Z.eqb Pos.eqb].
  unfold bind at 1. unfold lift at 1. unfold retry_after_seconds. rewrite Hh.
  destruct (py_int h) as [s|].
  - unfold bind at 1. unfold log at 1, emit at 1.
    unfold bind at 1. unfold sleep. rewrite sleep_max.
    change (- (9223372036)) with (-9223372036).
    destruct ((s <? -9223372036) || (9223372036 <? s)) eqn:Hover.
    + eexists. split; [reflexivity|].
      cbn [cursor now trace]. repeat split.
      unfold sleeps. rewrite !flat_map_app. cbn. rewrite !app_nil_r. reflexivity.
    + apply orb_false_iff in Hover as [Hlo Hhi].
      apply Z.ltb_ge in Hlo, Hhi.
      replace (s <? 0) with true by (symmetry; apply Z.ltb_lt; lia).
      eexists. split; [reflexivity|].
      cbn [cursor now trace]. repeat split.
      unfold sleeps. rewrite !flat_map_app. cbn. rewrite !app_nil_r. reflexivity.
  - eexists. split; [reflexivity|].
    cbn [cursor now trace]. repeat split.
    unfold sleeps. rewrite flat_map_app. cbn. apply app_nil_r.
Qed.

Lemma make_api_request_interrupted (m : method) (endpoint : fstring) (data : value)
    (w : world) (l : N) :
  key_ready = true ->
  replies w (cursor w) = Interrupted l ->
  make_api_request m endpoint data w =
  (Raise KeyboardInterrupt,
   mkWorld (replies w) (S (cursor w)) (now w + Z.of_N l)
     (trace w ++ [Request m (Lit BASE_URL :: endpoint) (sent m data)])).
Proof.
  intros Hkey Hr.
  unfold make_api_request, make_api_request_with. unfold bind at 1.
  rewrite (generate_jwt_token_ready w Hkey).
  change (Z.to_nat 3) with 3%nat.
  cbn [attempt_loop]. unfold bind at 1. unfold send at 1. cbn [fst snd].
  rewrite Hr. reflexivity.
Qed.

(** ** The first stages of [main] (lines 594-640) *)

Lemma program_locate_exit (fuel : nat) (args : arguments) (w w' : world) (c : Z) :
  locate_build fuel args w = (Exit c, w') ->
  program fuel args w = (Some c, w').
Proof.
  intros H. unfold program, main, annotate_version, link_version.
  unfold bind at 1 2 3. rewrite H. reflexivity.
Qed.

Lemma program_locate_raise (fuel : nat) (args : arguments) (w w' : world) (e : exn) :
  locate_build fuel args w = (Raise e, w') ->
  program fuel args w =
  match e with
  | KeyboardInterrupt => (Some 130, record w' [Log []; Log [Lit "Interrupted by user"]])
  | _ => (Some 1, record w' [Log []; Log [Lit "Unexpected error: "; FmtExn e]])
  end.
Proof.
  intros H. unfold program, main, annotate_version, link_version.
  unfold bind at 1 2 3. rewrite H.
  destruct e; unfold bind, print_blank, log, emit, record; cbn [fst snd];
    cbn [replies cursor now trace]; rewrite <- app_assoc; reflexivity.
Qed.

Lemma run_log {B} (msg : fstring) (k : unit -> M B) (w : world) :
  bind (log msg) k w = k tt (record w [Log msg]).
Proof. reflexivity. Qed.

Lemma run_ret {A B} (a : A) (k : A -> M B) (w : world) :
  bind (ret a) k w = k a w.
Proof. reflexivity. Qed.

Lemma run_lift {A B} (a : A) (k : A -> M B) (w : world) :
  bind (lift (Ret a)) k w = k a w.
Proof. reflexivity. Qed.

Lemma run_bind {A B C} (c : M A) (f : A -> M B) (k : B -> M C) (w : world) :
  bind (bind c f) k w = bind c (fun a => bind (f a) k) w.
Proof.
  unfold bind. destruct (c w) as [[a|e|code|] w1]; reflexivity.
Qed.

Lemma record_nil (w : world) : record w [] = w.
Proof. destruct w. unfold record. cbn. rewrite app_nil_r. reflexivity. Qed.

Lemma for_each_log (f : string -> fstring) (l : list string) (w : world) :
  for_each l (fun var => log (f var)) w
  = (Ret tt, record w (map (fun var => Log (f var)) l)).
Proof.
  revert w. induction l as [|x l IH]; intros w.
  - cbn. rewrite record_nil. reflexivity.
  - cbn [for_each map]. rewrite run_log, IH, record_record. reflexivity.
Qed.

Lemma check_environment_variables_ok (w : world) :
  credentials_set = true -> check_environment_variables w = (Ret tt, w).
Proof.
  unfold credentials_set, check_environment_variables. intros H.
  apply andb_true_iff in H as [-> ->]. reflexivity.
Qed.

Lemma check_environment_variables_missing (w : world) :
  credentials_set = false ->
  check_environment_variables w = (Exit 1, record w (missing_report missing_variables)) /\
  missing_variables <> [].
Proof.
  unfold credentials_set, check_environment_variables. intros H.
  fold missing_variables.
  assert (Hne : missing_variables <> []).
  { unfold missing_variables.
    destruct (env_set (API_KEY_ID cfg)), (env_set (ISSUER_ID cfg));
      try discriminate H; cbn; discriminate. }
  split; [|exact Hne].
  destruct missing_variables as [|x l] eqn:E; [congruence|].
  rewrite run_log.
  unfold bind at 1. rewrite for_each_log.
  unfold print_blank. rewrite !run_log. unfold sys_exit, lift.
  rewrite !record_record. unfold missing_report. reflexivity.
Qed.

Lemma find_bundle_id_run (p : string) (w : world) :
  find_bundle_id p w =
  (Ret (match project_file cfg p with Detected b => VStr b | _ => VNone end),
   record w [Log [Lit "Detecting bundle ID from Xcode project..."];
             match project_file cfg p with
             | NoProjectFile => Log [Lit "Could not find project.pbxproj file"]
             | Detected b => Log [Lit "Found bundle ID: "; Lit b]
             | NoMatch => Log [Lit "Could not parse bundle ID from project file"]
             end]).
Proof.
  unfold find_bundle_id. rewrite run_log.
  destruct (project_file cfg p); rewrite run_log; unfold ret;
    rewrite record_record; reflexivity.
Qed.

(** With the credentials set and the version parsed, the run gets to the
    bundle identifier having written its opening lines only. *)
Lemma locate_build_startup (fuel : nat) (args : arguments) (w : world)
    (parsed : string * value) :
  credentials_set = true ->
  parse_version (version args) = Ret parsed ->
  locate_build fuel args w =
  after_bundle fuel args parsed (resolved_bundle args)
    (record w (startup_events args parsed ++ bundle_events args)).
Proof.
  intros Hcred Hparse. unfold locate_build.
  rewrite !run_log. unfold bind at 1.
  rewrite (check_environment_variables_ok _ Hcred).
  rewrite !record_record.
  assert (Hnotice :
    forall (B : Type) (k : unit -> M B) (w0 : world),
      bind (if dry_run args
            then log [Lit "DRY RUN MODE - No changes will be made"] ;; print_blank
            else ret tt) k w0
      = k tt (record w0 (dry_run_notice args))).
  { intros B k w0. unfold dry_run_notice. destruct (dry_run args).
    - rewrite run_bind, run_log. unfold print_blank. rewrite run_log, record_record.
      reflexivity.
    - rewrite run_ret, record_nil. reflexivity. }
  rewrite Hnotice, record_record. rewrite Hparse, run_lift.
  assert (Hline :
    forall (B : Type) (k : unit -> M B) (w0 : world),
      bind (if py_contains "+" (version args)
            then log [Lit "Parsed: Version "; Lit (fst parsed); Lit ", Build ";
                      Fmt (snd parsed)]
            else log [Lit "Version "; Lit (fst parsed);
                      Lit " (no specific build number)"]) k w0
      = k tt (record w0 [if py_contains "+" (version args) then
                           Log [Lit "Parsed: Version "; Lit (fst parsed);
                                Lit ", Build "; Fmt (snd parsed)]
                         else
                           Log [Lit "Version "; Lit (fst parsed);
                                Lit " (no specific build number)"]])).
  { intros B k w0. destruct (py_contains "+" (version args)); apply run_log. }
  rewrite Hline, record_record. unfold print_blank at 1. rewrite run_log, record_record.
  assert (Hbundle :
    forall (B : Type) (k : value -> M B) (w0 : world),
      bind (if env_set (bundle_id args)
            then ret match bundle_id args with Some b => VStr b | None => VNone end
            else find_bundle_id (project_path args)) k w0
      = k (resolved_bundle args) (record w0 (bundle_events args))).
  { intros B k w0. unfold resolved_bundle, bundle_events.
    destruct (env_set (bundle_id args)).
    - rewrite run_ret, record_nil. reflexivity.
    - unfold bind. rewrite find_bundle_id_run. reflexivity. }
  rewrite Hbundle, record_record.
  unfold after_bundle, startup_events, banner.
  rewrite <- !app_assoc. reflexivity.
Qed.

(** X6: without both credentials in the environment the run names the
    missing variables and exits with status 1; no HTTP call is made. *)
Theorem missing_credentials_exit_1 (fuel : nat) (args : arguments) (w : world) :
  credentials_set = false ->
  program fuel args w =
    (Some 1, record w (banner ++ missing_report missing_variables)) /\
  (env_set (API_KEY_ID cfg) = false -> In "APP_STORE_API_KEY_ID" missing_variables) /\
  (env_set (ISSUER_ID cfg) = false -> In "APP_STORE_ISSUER_ID" missing_variables).
Proof.
  intros Hcred. split.
  - apply program_locate_exit. unfold locate_build.
    rewrite !run_log. unfold bind at 1.
    rewrite (proj1 (check_environment_variables_missing _ Hcred)).
    rewrite !record_record. reflexivity.
  - unfold missing_variables. split; intros ->.
    + left. reflexivity.
    + apply in_or_app. right. left. reflexivity.
Qed.

(** X7: a version argument with two or more '+' ends the run with status
    1 through the handler of unexpected errors, before the bundle
    identifier is looked for and before any HTTP call. *)
Theorem malformed_version_exits_1 (fuel : nat) (args : arguments) (w : world)
    (v b c : string) :
  credentials_set = true ->
  version args = (v ++ "+" ++ b ++ "+" ++ c)%string ->
  program fuel args w =
  (Some 1,
   record w (banner ++ dry_run_notice args ++
             [Log []; Log [Lit "Unexpected error: "; FmtExn ValueError]])).
Proof.
  intros Hcred Hversion.
  rewrite (program_locate_raise fuel args w
             (record w (banner ++ dry_run_notice args)) ValueError).
  - rewrite record_record, <- app_assoc. reflexivity.
  - unfold locate_build. rewrite !run_log. unfold bind at 1.
    rewrite (check_environment_variables_ok _ Hcred). rewrite !record_record.
    rewrite Hversion, parse_version_many_plus.
    unfold dry_run_notice. destruct (dry_run args).
    + rewrite run_bind, run_log. unfold print_blank. rewrite run_log.
      rewrite !record_record. reflexivity.
    + rewrite run_ret. unfold bind, lift. rewrite app_nil_r. reflexivity.
Qed.

(** X8: when no bundle identifier is given on the command line and none
    is detected in the project, the run exits with status 1 before any
    HTTP call. *)
Theorem undetected_bundle_exits_1 (fuel : nat) (args : arguments) (w : world)
    (parsed : string * value) :
  credentials_set = true ->
  parse_version (version args) = Ret parsed ->
  py_truthy (resolved_bundle args) = false ->
  program fuel args w =
  (Some 1,
   record w (startup_events args parsed ++ bundle_events args ++
             [Log [Lit "Could not detect bundle ID. Use --bundle-id to specify manually"]])).
Proof.
  intros Hcred Hparse Hbundle. apply program_locate_exit.
  rewrite (locate_build_startup fuel args w parsed Hcred Hparse).
  unfold after_bundle. rewrite Hbundle. cbn [negb].
  rewrite run_log, record_record, <- app_assoc. reflexivity.
Qed.

Lemma find_app_by_bundle_id_none (bundle : value) (w w1 : world) (response : value) :
  make_api_request GET (apps_endpoint bundle) VNone
    (record w [Log [Lit "Finding app with bundle ID: "; Fmt bundle]])
    = (Ret response, w1) ->
  no_data response = Ret true ->
  find_app_by_bundle_id bundle w =
  (Ret VNone,
   record w1 [Log [Lit "App not found with bundle ID: "; Fmt bundle];
              Log [Lit "Make sure the app exists in App Store Connect"]]).
Proof.
  intros Hreq Hnd. unfold find_app_by_bundle_id. rewrite run_log.
  unfold bind at 1. change [Lit "/apps?filter[bundleId]="; Fmt bundle]
    with (apps_endpoint bundle). rewrite Hreq.
  rewrite Hnd, run_lift. rewrite !run_log. unfold ret. rewrite record_record.
  reflexivity.
Qed.

(** X9: when the app lookup fails or finds no app for the bundle
    identifier, [find_app_by_bundle_id] returns None and the run exits with
    status 1 with nothing sent after the lookup. *)
Theorem app_not_found_exits_1 (fuel : nat) (args : arguments) (w w1 : world)
    (parsed : string * value) (response : value) :
  credentials_set = true ->
  parse_version (version args) = Ret parsed ->
  py_truthy (resolved_bundle args) = true ->
  make_api_request GET (apps_endpoint (resolved_bundle args)) VNone
    (record w (startup_events args parsed ++ bundle_events args ++
               [Log []; Log [Lit "Finding app with bundle ID: ";
                             Fmt (resolved_bundle args)]]))
    = (Ret response, w1) ->
  no_data response = Ret true ->
  program fuel args w =
  (Some 1,
   record w1 [Log [Lit "App not found with bundle ID: "; Fmt (resolved_bundle args)];
              Log [Lit "Make sure the app exists in App Store Connect"]]).
Proof.
  intros Hcred Hparse Hbundle Hreq Hnd. apply program_locate_exit.
  rewrite (locate_build_startup fuel args w parsed Hcred Hparse).
  unfold after_bundle. rewrite Hbundle. cbn [negb].
  unfold print_blank at 1. rewrite run_log, record_record. unfold bind at 1.
  rewrite (find_app_by_bundle_id_none (resolved_bundle args) _ w1 response).
  - reflexivity.
  - rewrite record_record, <- !app_assoc. exact Hreq.
  - exact Hnd.
Qed.

(** X10: an interrupt during the app lookup is not caught by the request
    helper: the run writes its interrupt line and exits with status 130
    after that one request. *)
Theorem interrupted_lookup_exits_130 (fuel : nat) (args : arguments) (w : world)
    (parsed : string * value) (l : N) :
  credentials_set = true ->
  key_ready = true ->
  parse_version (version args) = Ret parsed ->
  py_truthy (resolved_bundle args) = true ->
  replies w (cursor w) = Interrupted l ->
  exists w',
    program fuel args w = (Some 130, w') /\
    cursor w' = S (cursor w) /\
    last_event (trace w') = Some (Log [Lit "Interrupted by user"]).
Proof.
  intros Hcred Hkey Hparse Hbundle Hr.
  set (w0 := record w (startup_events args parsed ++ bundle_events args ++
                       [Log []; Log [Lit "Finding app with bundle ID: ";
                                     Fmt (resolved_bundle args)]])).
  assert (Hloc :
    locate_build fuel args w =
    (Raise KeyboardInterrupt,
     mkWorld (replies w0) (S (cursor w0)) (now w0 + Z.of_N l)
       (trace w0 ++ [Request GET (Lit BASE_URL :: apps_endpoint (resolved_bundle args))
                       (sent GET VNone)]))).
  { rewrite (locate_build_startup fuel args w parsed Hcred Hparse).
    unfold after_bundle. rewrite Hbundle. cbn [negb].
    unfold print_blank at 1. rewrite run_log, record_record. unfold bind at 1.
    unfold find_app_by_bundle_id. rewrite run_log, record_record, <- !app_assoc.
    fold w0. unfold bind at 1.
    change [Lit "/apps?filter[bundleId]="; Fmt (resolved_bundle args)]
      with (apps_endpoint (resolved_bundle args)).
    rewrite (make_api_request_interrupted GET _ VNone w0 l Hkey Hr). reflexivity. }
  rewrite (program_locate_raise fuel args w _ KeyboardInterrupt Hloc).
  eexists. split; [reflexivity|]. split; [reflexivity|].
  unfold last_event, record. cbn [trace]. rewrite !rev_app_distr. reflexivity.
Qed.

(** ** More on the build wait and the lookups *)

Lemma wait_loop_calm (app expected : value) (max start : Z) (fuel : nat) :
  forall ls lv, emits calm (wait_loop fuel app expected max start ls lv).
Proof.
  induction fuel as [|fuel IH]; intros ls lv.
  - apply emits_lift.
  - cbn [wait_loop].
    repeat first
      [ lazymatch goal with
        | |- emits _ (make_api_request GET _ _) => apply make_api_request_get_calm
        | |- emits _ (wait_loop fuel _ _ _ _ _ _) => apply IH
        | |- emits _ (if ?b then _ else _) => destruct b
        end
      | emits_step ].
Qed.

Lemma wait_for_build_processing_calm (fuel : nat) (app expected : value) (max : Z)
    (dry : bool) :
  emits calm (wait_for_build_processing fuel app expected max dry).
Proof.
  unfold wait_for_build_processing.
  repeat first
    [ lazymatch goal with
      | |- emits _ (wait_loop _ _ _ _ _ _ _) => apply wait_loop_calm
      | |- emits _ (if ?b then _ else _) => destruct b
      end
    | emits_step ].
Qed.

(** X11: the stages up to the build wait only read: whatever the mode,
    the fuel and the replies, [locate_build] sends no POST and no PATCH. *)
Theorem locate_build_read_only (fuel : nat) (args : arguments) (w : world) :
  exists evs : list event,
    trace (snd (locate_build fuel args w)) = trace w ++ evs /\
    forallb calm evs = true.
Proof.
  revert w. change (emits calm (locate_build fuel args)).
  unfold locate_build.
  repeat first
    [ lazymatch goal with
      | |- emits _ check_environment_variables =>
          apply check_environment_variables_calm
      | |- emits _ (find_bundle_id _) => apply find_bundle_id_calm
      | |- emits _ (find_app_by_bundle_id _) => apply find_app_by_bundle_id_calm
      | |- emits _ (wait_for_build_processing _ _ _ _ _) =>
          apply wait_for_build_processing_calm
      | |- emits _ (if ?b then _ else _) => destruct b
      end
    | emits_step ].
Qed.

Lemma wait_for_build_processing_start (fuel : nat) (app expected : value)
    (max : Z) (w : world) :
  wait_for_build_processing fuel app expected max false w =
  wait_loop fuel app expected max (now w) VNone VNone
    (record w [if py_truthy expected then
                 Log [Lit "Waiting for build "; Fmt expected;
                      Lit " to finish processing (max "; Fmt (VInt max);
                      Lit " min)..."]
               else
                 Log [Lit "Waiting for latest build to finish processing (max ";
                      Fmt (VInt max); Lit " min)..."]]).
Proof.
  unfold wait_for_build_processing.
  destruct (py_truthy expected); rewrite run_log; reflexivity.
Qed.

(** X12: a first poll that fails or returns no build ends the wait at
    once: None comes back with no pause, whatever the time limit. *)
Theorem poll_without_data_ends_wait (fuel : nat) (app expected : value) (max : Z)
    (w w1 : world) (response : value) :
  make_api_request GET (builds_endpoint app) VNone
    (record w [if py_truthy expected then
                 Log [Lit "Waiting for build "; Fmt expected;
                      Lit " to finish processing (max "; Fmt (VInt max);
                      Lit " min)..."]
               else
                 Log [Lit "Waiting for latest build to finish processing (max ";
                      Fmt (VInt max); Lit " min)..."]])
    = (Ret response, w1) ->
  no_data response = Ret true ->
  wait_for_build_processing (S fuel) app expected max false w =
  (Ret VNone,
   record w1 [Log [Lit "No builds found"];
              Log [Lit "Make sure you uploaded the IPA with xcrun altool first"]]).
Proof.
  intros Hreq Hnd. rewrite wait_for_build_processing_start.
  apply (wait_loop_no_data fuel app expected max _ VNone VNone _ w1 response Hreq Hnd).
Qed.

(** X13: when the build wait returns None (or any falsy value), the run
    exits with status 1 and nothing more is sent. *)
Theorem failed_build_wait_exits_1 (fuel : nat) (args : arguments)
    (w w1 w2 : world) (parsed : string * value) (app build : value) :
  credentials_set = true ->
  parse_version (version args) = Ret parsed ->
  py_truthy (resolved_bundle args) = true ->
  find_app_by_bundle_id (resolved_bundle args)
    (record w (startup_events args parsed ++ bundle_events args ++ [Log []]))
    = (Ret app, w1) ->
  py_truthy app = true ->
  wait_for_build_processing fuel app (snd parsed) 60 (dry_run args)
    (record w1 [Log []]) = (Ret build, w2) ->
  py_truthy build = false ->
  program fuel args w = (Some 1, w2).
Proof.
  intros Hcred Hparse Hbundle Happ Hfound Hwait Hnone.
  apply program_locate_exit.
  rewrite (locate_build_startup fuel args w parsed Hcred Hparse).
  unfold after_bundle. rewrite Hbundle. cbn [negb].
  unfold print_blank at 1. rewrite run_log, record_record, <- !app_assoc.
  unfold bind at 1. rewrite Happ, Hfound. cbn [negb].
  unfold print_blank at 1. rewrite run_log. unfold bind at 1.
  rewrite Hwait, Hnone. reflexivity.
Qed.

Lemma find_build_skips (expected : value) (pre rest : list value) :
  (forall x, In x pre -> label_matches expected x = Some false) ->
  find_build expected (pre ++ rest) = find_build expected rest.
Proof.
  induction pre as [|x pre IH]; intros H; [reflexivity|].
  cbn [app find_build].
  pose proof (H x (or_introl eq_refl)) as Hx. unfold label_matches in Hx.
  destruct (py_item x "attributes") as [attrs| | |]; cbn [rbind] in *;
    try discriminate.
  destruct (py_get attrs "version" (VStr EmptyString)) as [bv| | |];
    cbn [rbind] in *; try discriminate.
  injection Hx as ->. apply IH. intros y Hy. apply H. right. exact Hy.
Qed.

(** X14: the search of the listing returns the first entry whose version
    label equals the expected build number, without reading the entries
    after it, and None when no entry matches. *)
Theorem find_build_first_match (expected : value) (pre post : list value)
    (build : value) :
  (forall x, In x pre -> label_matches expected x = Some false) ->
  (label_matches expected build = Some true ->
   find_build expected (pre ++ build :: post) = Ret build) /\
  find_build expected pre = Ret VNone.
Proof.
  intros Hpre. split.
  - intros Hb. rewrite (find_build_skips expected pre _ Hpre).
    cbn [find_build]. unfold label_matches in Hb.
    destruct (py_item build "attributes") as [attrs| | |]; cbn [rbind] in *;
      try discriminate.
    destruct (py_get attrs "version" (VStr EmptyString)) as [bv| | |];
      cbn [rbind] in *; try discriminate.
    injection Hb as ->. reflexivity.
  - rewrite <- (app_nil_r pre). rewrite (find_build_skips expected pre [] Hpre).
    reflexivity.
Qed.

Lemma polled_found (expected : value) (r : reply) (id ps : value) :
  polled expected r = Some (id, ps) ->
  exists l resp response target v,
    r = Responds l resp /\ status_code resp < 400 /\ content resp = Json response /\
    no_data response = Ret false /\ target_of expected response = Ret target /\
    py_truthy target = true /\ py_item target "id" = Ret id /\
    build_state target = Ret ps /\ build_label target = Ret v.
Proof.
  unfold polled. intros H.
  destruct r as [l resp| | |]; try discriminate.
  destruct (status_code resp <? 400) eqn:Hst; try discriminate.
  destruct (content resp) as [| |response] eqn:Hc; try discriminate.
  destruct (no_data response) as [[|]| | |] eqn:Hnd; try discriminate.
  destruct (target_of expected response) as [target| | |] eqn:Ht; try discriminate.
  destruct (py_truthy target) eqn:Htr; try discriminate.
  destruct (py_item target "id") as [id'| | |] eqn:Hid; try discriminate.
  destruct (build_state target) as [ps'| | |] eqn:Hps; try discriminate.
  destruct (build_label target) as [v| | |] eqn:Hv; try discriminate.
  injection H as <- <-. apply Z.ltb_lt in Hst.
  exists l, resp, response, target, v. repeat split; assumption.
Qed.

Lemma wait_loop_succeeds (app expected : value) (max start L : Z) (id : value) :
  key_ready = true ->
  0 <= L ->
  forall (n fuel : nat) (ls lv : value) (w : world),
    (n < fuel)%nat ->
    (forall i, Z.of_N (latency_of (replies w i)) <= L) ->
    (forall i, (i < n)%nat ->
       exists id', polled expected (replies w (cursor w + i))
                   = Some (id', VStr "PROCESSING")) ->
    polled expected (replies w (cursor w + n)) = Some (id, VStr "VALID") ->
    now w - start + Z.of_nat n * (5000 + L) <= 1000 * (max * 60) ->
    exists evs t,
      wait_loop fuel app expected max start ls lv w =
        (Ret id, mkWorld (replies w) (cursor w + n + 1) t (trace w ++ evs)) /\
      sleeps evs = repeat 5 n /\
      forallb calm evs = true.
Proof.
  intros Hkey HL n.
  induction n as [|n IH]; intros fuel ls lv w Hfuel Hlat Hproc Hvalid Htime.
  - destruct fuel as [|fuel]; [lia|].
    rewrite Nat.add_0_r in Hvalid.
    apply polled_found in Hvalid
      as (l & resp & response & target & v & Hr & Hst & Hc & Hnd & Ht & Htr & Hid
          & Hps & Hv).
    pose proof (make_api_request_ok GET (builds_endpoint app) VNone w l resp response
                  Hkey Hr Hst Hc) as Hreq.
    rewrite (wait_loop_found fuel app expected max start ls lv w _ response target
               id (VStr "VALID") v Hreq Hnd Ht (fun _ => Htr) Hid Hps Hv).
    cbn [py_eq String.eqb Ascii.eqb Bool.eqb].
    destruct (changed (VStr "VALID") v ls lv);
      (eexists; eexists; split;
       [ unfold record; cbn [replies cursor now trace]; f_equal;
         apply world_eq; [lia|reflexivity|rewrite <- !app_assoc; reflexivity]
       | split; reflexivity ]).
  - destruct fuel as [|fuel]; [lia|].
    destruct (Hproc 0%nat ltac:(lia)) as (id0 & Hp0). rewrite Nat.add_0_r in Hp0.
    apply polled_found in Hp0
      as (l & resp & response & target & v & Hr & Hst & Hc & Hnd & Ht & Htr & Hid
          & Hps & Hv).
    pose proof (make_api_request_ok GET (builds_endpoint app) VNone w l resp response
                  Hkey Hr Hst Hc) as Hreq.
    pose proof (Hlat (cursor w)) as Hl. rewrite Hr in Hl. cbn [latency_of] in Hl.
    rewrite (wait_loop_found fuel app expected max start ls lv w _ response target
               id0 (VStr "PROCESSING") v Hreq Hnd Ht (fun _ => Htr) Hid Hps Hv).
    cbn [py_eq String.eqb Ascii.eqb Bool.eqb now].
    replace (now w + Z.of_N l - start >? 1000 * (max * 60)) with false
      by (symmetry; rewrite Z.gtb_ltb; apply Z.ltb_ge; lia).
    replace (nap target (VStr "PROCESSING")) with 5
      by (unfold nap; rewrite Htr; reflexivity).
    set (w2 := if changed (VStr "PROCESSING") v ls lv then record _ _ else _).
    assert (Hw2 : exists e2, w2 = mkWorld (replies w) (S (cursor w)) (now w + Z.of_N l)
                                    (trace w ++ e2) /\
                            sleeps e2 = [] /\ forallb calm e2 = true).
    { subst w2. destruct (changed (VStr "PROCESSING") v ls lv).
      - eexists. split; [unfold record; cbn [replies cursor now trace];
                         rewrite <- app_assoc; reflexivity|split; reflexivity].
      - eexists. split; [reflexivity|split; reflexivity]. }
    destruct Hw2 as (e2 & Ew2 & Hs2 & Hc2).
    destruct (IH fuel
                (if changed (VStr "PROCESSING") v ls lv then VStr "PROCESSING" else ls)
                (if changed (VStr "PROCESSING") v ls lv then v else lv)
                (asleep w2 5)) as (evs & t & E & Hs & Hcalm).
    + lia.
    + intros i. rewrite Ew2. apply Hlat.
    + intros i Hi. rewrite Ew2. cbn [asleep replies cursor].
      replace (S (cursor w) + i)%nat with (cursor w + S i)%nat by lia.
      apply Hproc. lia.
    + rewrite Ew2. cbn [asleep replies cursor].
      replace (S (cursor w) + n)%nat with (cursor w + S n)%nat by lia. exact Hvalid.
    + rewrite Ew2. cbn [asleep now]. lia.
    + rewrite E, Ew2. cbn [asleep replies cursor trace].
      exists (e2 ++ [Sleep 5] ++ evs), t. split; [|split].
      * f_equal. apply world_eq; [lia|reflexivity|].
        rewrite <- !app_assoc. reflexivity.
      * unfold sleeps in *. rewrite !flat_map_app, Hs2, Hs. reflexivity.
      * rewrite !forallb_app, Hc2, Hcalm. reflexivity.
Qed.

(** X24: when the builds listing, answered at once each time, shows the
    build PROCESSING on n polls and VALID on the next one, and n pauses of
    5 seconds with the calls in between fit in the time limit, the wait
    returns the build identifier after n + 1 requests and n pauses of 5
    seconds, having sent nothing but GET requests. *)
Theorem wait_succeeds_after_processing (fuel n : nat) (app expected : value)
    (max L : Z) (w : world) (id : value) :
  key_ready = true ->
  0 <= L ->
  (n < fuel)%nat ->
  (forall i, Z.of_N (latency_of (replies w i)) <= L) ->
  (forall i, (i < n)%nat ->
     exists id', polled expected (replies w (cursor w + i))
                 = Some (id', VStr "PROCESSING")) ->
  polled expected (replies w (cursor w + n)) = Some (id, VStr "VALID") ->
  Z.of_nat n * (5000 + L) <= 1000 * (max * 60) ->
  exists evs t,
    wait_for_build_processing fuel app expected max false w =
      (Ret id, mkWorld (replies w) (cursor w + n + 1) t (trace w ++ evs)) /\
    sleeps evs = repeat 5 n /\
    forallb calm evs = true.
Proof.
  intros Hkey HL Hfuel Hlat Hproc Hvalid Htime.
  rewrite wait_for_build_processing_start.
  set (w0 := record w _).
  destruct (wait_loop_succeeds app expected max (now w) L id Hkey HL n fuel
              VNone VNone w0) as (evs & t & E & Hs & Hc); try assumption.
  - cbn [record now w0]. lia.
  - rewrite E. subst w0. cbn [record replies cursor trace].
    eexists; exists t. split; [|split].
    + rewrite <- app_assoc. reflexivity.
    + unfold sleeps in *. cbn [flat_map List.app]. destruct (py_truthy expected); exact Hs.
    + cbn [List.app forallb]. destruct (py_truthy expected); exact Hc.
Qed.

(** ** Version resolution, build link, review submission and the end of
    the run *)

Lemma run_request {B} (m : method) (endpoint : fstring) (data : value)
    (k : value -> M B) (w w1 : world) (response : value) :
  make_api_request m endpoint data w = (Ret response, w1) ->
  bind (make_api_request m endpoint data) k w = k response w1.
Proof. intros H. unfold bind. rewrite H. reflexivity. Qed.

(** X15: a version that exists and is not in a submitted state is reused:
    after a lookup answered at once, [get_or_create_version] returns the
    identifier of the first record, in dry-run mode or not, having sent
    that one GET request and nothing else. *)
Theorem existing_version_is_reused (app : value) (v : string) (dry : bool)
    (w : world) (l : N) (resp : response) (response data id state : value) :
  key_ready = true ->
  replies w (cursor w) = Responds l resp ->
  status_code resp < 400 ->
  content resp = Json response ->
  py_truthy response = true ->
  py_get response "data" VNone = Ret data ->
  py_truthy data = true ->
  first_version_id response = Ret id ->
  first_version_state response = Ret state ->
  py_in state submitted_states = false ->
  get_or_create_version app v dry w =
  (Ret id,
   mkWorld (replies w) (S (cursor w)) (now w + Z.of_N l)
     (trace w ++
      [Log [Lit "Looking for version "; Lit v; Lit "..."];
       Request GET (Lit BASE_URL :: versions_endpoint app v) VNone;
       Log [Lit "Found existing version: "; Lit v; Lit " (State: "; Fmt state;
            Lit ")"]])).
Proof.
  intros Hkey Hr Hst Hc Hresp Hdata Hsome Hid Hstate Hin.
  unfold get_or_create_version. rewrite run_log.
  rewrite (run_request GET _ VNone _ _ _ response
             (make_api_request_ok GET (versions_endpoint app v) VNone
                (record w [Log [Lit "Looking for version "; Lit v; Lit "..."]])
                l resp response Hkey Hr Hst Hc)).
  rewrite Hresp. cbn [negb]. rewrite Hdata, run_lift, Hsome.
  rewrite Hid, run_lift, Hstate, run_lift, run_log, Hin.
  unfold ret, record. cbn [replies cursor now trace sent].
  f_equal. apply world_eq; try reflexivity.
  rewrite <- !app_assoc. reflexivity.
Qed.

(** X16: when the lookup, answered at once, finds no version and the run
    is not a dry run, the version is created by one POST to
    /appStoreVersions that carries the version string and the app
    identifier, and the identifier of the answer is returned. *)
Theorem missing_version_is_created (app : value) (v : string) (w : world)
    (l1 l2 : N) (resp1 resp2 : response) (response data created id : value) :
  key_ready = true ->
  replies w (cursor w) = Responds l1 resp1 ->
  status_code resp1 < 400 ->
  content resp1 = Json response ->
  py_truthy response = true ->
  py_get response "data" VNone = Ret data ->
  py_truthy data = false ->
  replies w (S (cursor w)) = Responds l2 resp2 ->
  status_code resp2 < 400 ->
  content resp2 = Json created ->
  py_truthy created = true ->
  data_id created = Ret id ->
  get_or_create_version app v false w =
  (Ret id,
   mkWorld (replies w) (S (S (cursor w))) (now w + Z.of_N l1 + Z.of_N l2)
     (trace w ++
      [Log [Lit "Looking for version "; Lit v; Lit "..."];
       Request GET (Lit BASE_URL :: versions_endpoint app v) VNone;
       Log [Lit "Creating new version "; Lit v; Lit "..."];
       Request POST [Lit BASE_URL; Lit "/appStoreVersions"] (version_payload app v);
       Log [Lit "Created version: "; Lit v]])).
Proof.
  intros Hkey Hr1 Hst1 Hc1 Hresp Hdata Hnone Hr2 Hst2 Hc2 Hcreated Hid.
  unfold get_or_create_version. rewrite run_log.
  rewrite (run_request GET _ VNone _ _ _ response
             (make_api_request_ok GET (versions_endpoint app v) VNone
                (record w [Log [Lit "Looking for version "; Lit v; Lit "..."]])
                l1 resp1 response Hkey Hr1 Hst1 Hc1)).
  rewrite Hresp. cbn [negb]. rewrite Hdata, run_lift, Hnone.
  rewrite run_log.
  fold (version_payload app v).
  erewrite (run_request POST [Lit "/appStoreVersions"] (version_payload app v));
    [|apply (make_api_request_ok POST [Lit "/appStoreVersions"] (version_payload app v)
               _ l2 resp2 created Hkey); [exact Hr2|exact Hst2|exact Hc2]].
  rewrite Hcreated. cbn [negb]. fold (data_id created). rewrite Hid, run_lift, run_log.
  unfold ret, record. cbn [replies cursor now trace sent].
  f_equal. apply world_eq; try reflexivity.
  rewrite <- !app_assoc. reflexivity.
Qed.

(** X17: whenever version resolution returns None or any other falsy
    value (the lookup failed, the creation failed, or the version is
    already submitted), the run stops there with exit status 0. *)
Theorem unresolved_version_exits_0 (fuel : nat) (args : arguments)
    (w w0 w1 : world) (b : located) (version_id : value) :
  locate_build fuel args w = (Ret b, w0) ->
  get_or_create_version (app_id b) (version_part b) (dry_run args) w0
    = (Ret version_id, w1) ->
  py_truthy version_id = false ->
  program fuel args w =
  (Some 0,
   if dry_run args then w1
   else record w1 [Log [Lit "Version may already be submitted"]]).
Proof.
  intros Hloc Hver Hnone.
  unfold program, main, annotate_version, link_version.
  unfold bind at 1 2 3. rewrite Hloc.
  unfold bind at 1. rewrite Hver, Hnone. cbn [negb].
  destruct (dry_run args); reflexivity.
Qed.

(** X18: when the build link returns False (its PATCH got no usable
    answer), the run exits with status 1 before the release notes. *)
Theorem failed_link_exits_1 (fuel : nat) (args : arguments)
    (w w0 w1 w2 : world) (b : located) (version_id : value) :
  locate_build fuel args w = (Ret b, w0) ->
  get_or_create_version (app_id b) (version_part b) (dry_run args) w0
    = (Ret version_id, w1) ->
  py_truthy version_id = true ->
  link_build_to_version version_id (build_id b) (dry_run args) (record w1 [Log []])
    = (Ret false, w2) ->
  dry_run args = false /\ program fuel args w = (Some 1, w2).
Proof.
  intros Hloc Hver Hsome Hlink. split.
  - destruct (dry_run args) eqn:Hdry; [|reflexivity].
    unfold link_build_to_version in Hlink. rewrite run_log in Hlink. discriminate.
  - unfold program, main, annotate_version, link_version.
    unfold bind at 1 2 3. rewrite Hloc.
    unfold bind at 1. rewrite Hver, Hsome. cbn [negb].
    unfold print_blank at 1. rewrite run_log. unfold bind at 1.
    rewrite Hlink. reflexivity.
Qed.

(** X19: the review submission falls back to the legacy endpoint only
    when its first call (creating the submission) gets no usable answer:
    the stage then returns what [submit_for_review_legacy] returns. When
    the submission is created and adding the version to it fails, the
    stage returns False with nothing sent after that call. *)
Theorem review_submission_fallback (version app : value) (w w1 : world)
    (r1 : value) :
  make_api_request POST [Lit "/reviewSubmissions"] (create_payload app)
    (record w [Log [Lit "Submitting for review..."];
               Log [Lit "Creating review submission..."]])
    = (Ret r1, w1) ->
  (py_truthy r1 = false ->
   submit_for_review version app false w =
   submit_for_review_legacy version
     (record w1 [Log [Lit "Trying legacy submission endpoint..."]])) /\
  (forall submission r2 w2,
      py_truthy r1 = true ->
      data_id r1 = Ret submission ->
      make_api_request POST [Lit "/reviewSubmissionItems"]
        (item_payload submission version)
        (record w1 [Log [Lit "Created review submission: "; Fmt submission];
                    Log [Lit "Adding version to submission..."]])
        = (Ret r2, w2) ->
      py_truthy r2 = false ->
      submit_for_review version app false w =
      (Ret false,
       record w2 [Log [Lit "Failed to add version to submission"];
                  Log [Lit "Please submit manually via App Store Connect"]])).
Proof.
  intros Hcreate. split.
  - intros Hnone. unfold submit_for_review. cbv zeta.
    fold (create_payload app). rewrite !run_log, record_record. cbn [List.app].
    rewrite (run_request POST _ _ _ _ _ r1 Hcreate).
    rewrite Hnone. cbn [negb]. rewrite run_log. reflexivity.
  - intros submission r2 w2 Hsome Hid Hitem Hnone.
    unfold submit_for_review. cbv zeta.
    fold (create_payload app). rewrite !run_log, record_record. cbn [List.app].
    rewrite (run_request POST _ _ _ _ _ r1 Hcreate).
    rewrite Hsome. cbn [negb]. fold (data_id r1). rewrite Hid, run_lift.
    rewrite !run_log, record_record. cbn [List.app].
    fold (item_payload submission version).
    rewrite (run_request POST _ _ _ _ _ r2 Hitem).
    rewrite Hnone. cbn [negb]. rewrite !run_log, record_record. reflexivity.
Qed.

(** X20: when the review submission returns True outside dry-run mode,
    the run writes the success summary and ends with exit status 0. *)
Theorem submitted_run_exits_0 (fuel : nat) (args : arguments) (w w0 w1 : world)
    (b : located) (version_id : value) :
  dry_run args = false ->
  annotate_version fuel args w = (Ret (b, version_id), w0) ->
  submit_for_review version_id (app_id b) false w0 = (Ret true, w1) ->
  program fuel args w = (Some 0, record w1 (success_summary b)).
Proof.
  intros Hlive Hnote Hsubmit.
  unfold program, main. unfold bind at 1. rewrite Hnote.
  unfold bind at 1. cbn [fst snd]. rewrite Hlive, Hsubmit.
  unfold print_blank. rewrite !run_log. unfold log, emit, record, success_summary.
  cbn [fst snd replies cursor now trace].
  f_equal. apply world_eq; try reflexivity.
  rewrite <- !app_assoc. reflexivity.
Qed.

(** X22: when the release-notes stage returns False for any reason (the
    listing failed, it was empty, or every update failed), the run exits
    with status 1 before the review submission. *)
Theorem failed_release_notes_exit_1 (fuel : nat) (args : arguments)
    (w w0 w1 : world) (b : located) (version_id : value) :
  link_version fuel args w = (Ret (b, version_id), w0) ->
  add_release_notes_all_locales version_id RELEASE_NOTES (dry_run args) w0
    = (Ret false, w1) ->
  dry_run args = false /\ program fuel args w = (Some 1, w1).
Proof.
  intros Hlink Hnotes. split.
  - destruct (dry_run args) eqn:Hdry; [|reflexivity].
    unfold add_release_notes_all_locales in Hnotes. rewrite run_log in Hnotes.
    discriminate.
  - unfold program, main, annotate_version.
    unfold bind at 1 2. rewrite Hlink.
    unfold bind at 1. cbn [snd]. rewrite Hnotes. reflexivity.
Qed.

(** Budgets of HTTP calls, read off the shape of each stage. *)
Ltac calls_step :=
  lazymatch goal with
  | |- calls_le _ (let _ := _ in _) => cbv zeta
  | |- calls_le ?k (bind (make_api_request _ _ _) _) =>
      apply (calls_le_bind 3 (k - 3)); [apply make_api_request_calls|intros ?]
  | |- calls_le _ (bind _ _) => apply calls_le_bind0; [|intros ?]
  | |- calls_le _ (ret _) => apply calls_le_ret
  | |- calls_le _ (lift _) => apply calls_le_lift
  | |- calls_le _ (sys_exit _) => apply calls_le_lift
  | |- calls_le _ (log _) => apply calls_le_log
  | |- calls_le _ print_blank => apply calls_le_log
  | |- calls_le _ (if ?b then _ else _) => destruct b
  end.

Lemma submit_for_review_legacy_calls (version : value) :
  calls_le 3 (submit_for_review_legacy version).
Proof. unfold submit_for_review_legacy. repeat calls_step. Qed.

Lemma update_locales_calls (notes : string) (locs : list value) :
  forall n, calls_le (3 * List.length locs) (update_locales notes locs n).
Proof.
  induction locs as [|loc locs IH]; intros n.
  - apply calls_le_ret.
  - cbn [update_locales List.length].
    replace (3 * S (List.length locs))%nat with (3 + 3 * List.length locs)%nat by lia.
    apply calls_le_bind0; [apply calls_le_lift|intros ?].
    apply calls_le_bind0; [apply calls_le_lift|intros ?].
    cbv zeta.
    apply (calls_le_bind 3 (3 * List.length locs));
      [apply make_api_request_calls|intros response].
    destruct (py_truthy response);
      (apply calls_le_bind0; [apply calls_le_log|intros _; apply IH]).
Qed.

(** X23: budgets of HTTP calls, whatever the replies: the app lookup and
    the build link make at most 3 calls each, version resolution at most
    6, the review submission at most 9, and the release-notes loop at
    most 3 per localization. *)
Theorem stage_call_budgets :
  (forall bundle, calls_le 3 (find_app_by_bundle_id bundle)) /\
  (forall app v dry, calls_le 6 (get_or_create_version app v dry)) /\
  (forall version build dry, calls_le 3 (link_build_to_version version build dry)) /\
  (forall version app dry, calls_le 9 (submit_for_review version app dry)) /\
  (forall notes locs n,
      calls_le (3 * List.length locs) (update_locales notes locs n)).
Proof.
  repeat split.
  - intros bundle. unfold find_app_by_bundle_id. repeat calls_step.
  - intros app v dry. unfold get_or_create_version. repeat calls_step.
  - intros version build dry. unfold link_build_to_version. repeat calls_step.
  - intros version app dry. unfold submit_for_review.
    repeat first
      [ lazymatch goal with
        | |- calls_le _ (submit_for_review_legacy _) =>
            apply (calls_le_weaken 3); [cbn; lia|apply submit_for_review_legacy_calls]
        end
      | calls_step ].
  - intros notes locs n. apply update_locales_calls.
Qed.

(** ** The bundle identifier in the project file *)

Lemma string_forall_impl (p q : ascii -> bool) (s : string) :
  (forall c, p c = true -> q c = true) ->
  string_forall p s = true -> string_forall q s = true.
Proof.
  intros Hpq. induction s as [|c s IH]; [reflexivity|].
  cbn. intros H. apply andb_true_iff in H as [Hc Hs].
  rewrite (Hpq c Hc), (IH Hs). reflexivity.
Qed.

Lemma string_forall_app (p : ascii -> bool) (a b : string) :
  string_forall p (a ++ b)%string = string_forall p a && string_forall p b.
Proof.
  induction a as [|c a IH]; [reflexivity|].
  cbn. rewrite IH. apply andb_assoc.
Qed.

Lemma string_app_nil_r (s : string) : (s ++ EmptyString)%string = s.
Proof. induction s as [|c s IH]; [reflexivity|]. cbn. rewrite IH. reflexivity. Qed.

Lemma strip_prefix_app (p s : string) : strip_prefix p (p ++ s)%string = Some s.
Proof.
  induction p as [|c p IH]; [reflexivity|].
  cbn. rewrite Ascii.eqb_refl. exact IH.
Qed.

Lemma lstrip_app (p : ascii -> bool) (a s : string) :
  string_forall p a = true -> lstrip p (a ++ s)%string = lstrip p s.
Proof.
  induction a as [|c a IH]; [reflexivity|].
  cbn. intros H. apply andb_true_iff in H as [Hc Ha]. rewrite Hc. exact (IH Ha).
Qed.

Lemma lstrip_none (p : ascii -> bool) (s : string) :
  string_forall (fun c => negb (p c)) s = true -> lstrip p s = s.
Proof.
  destruct s as [|c s]; [reflexivity|].
  cbn. intros H. apply andb_true_iff in H as [Hc _].
  apply negb_true_iff in Hc. rewrite Hc. reflexivity.
Qed.

Lemma rstrip_app (p : ascii -> bool) (a b : string) :
  string_forall (fun c => negb (p c)) a = true ->
  string_forall p b = true ->
  rstrip p (a ++ b)%string = a.
Proof.
  intros Ha Hb. induction a as [|c a IH].
  - cbn. induction b as [|d b IHb]; [reflexivity|].
    cbn in *. apply andb_true_iff in Hb as [Hd Hb].
    rewrite (IHb Hb), Hd. reflexivity.
  - cbn in *. apply andb_true_iff in Ha as [Hc Ha].
    apply negb_true_iff in Hc. rewrite (IH Ha).
    destruct a; [rewrite Hc|]; reflexivity.
Qed.

Lemma span_until_app (stop : ascii -> bool) (a s : string) (c : ascii) :
  string_forall (fun x => negb (stop x)) a = true ->
  stop c = true ->
  span_until stop (a ++ String c s)%string = (a, String c s).
Proof.
  intros Ha Hc. induction a as [|x a IH].
  - cbn. rewrite Hc. reflexivity.
  - cbn in *. apply andb_true_iff in Ha as [Hx Ha].
    apply negb_true_iff in Hx. rewrite Hx, (IH Ha). reflexivity.
Qed.

Lemma search_skip (pre s : string) :
  string_forall (fun c => negb (Ascii.eqb c "P")) pre = true ->
  search match_assignment (pre ++ s)%string = search match_assignment s.
Proof.
  induction pre as [|c pre IH]; [reflexivity|].
  cbn [string_forall]. intros H. apply andb_true_iff in H as [Hc Hpre].
  apply negb_true_iff in Hc.
  change (String c pre ++ s)%string with (String c (pre ++ s)%string).
  cbn [search]. unfold match_assignment at 1. cbn [KEY strip_prefix].
  rewrite Ascii.eqb_sym, Hc. exact (IH Hpre).
Qed.

Lemma space_not_semicolon (c : ascii) : is_space c = true -> is_semicolon c = false.
Proof.
  unfold is_semicolon. intros H. destruct (Ascii.eqb c ";") eqn:E; [|reflexivity].
  apply Ascii.eqb_eq in E. subst c. discriminate H.
Qed.

Lemma match_assignment_group (ws1 t group post : string) :
  string_forall is_space ws1 = true ->
  lstrip is_space t = group ->
  group <> EmptyString ->
  string_forall (fun c => negb (is_semicolon c)) t = true ->
  match_assignment (KEY ++ ws1 ++ "=" ++ t ++ ";" ++ post)%string = Some group.
Proof.
  intros Hws1 Hgroup Hne Hsemi.
  unfold match_assignment. rewrite strip_prefix_app.
  rewrite (lstrip_app is_space ws1 _ Hws1).
  change ("=" ++ t ++ ";" ++ post)%string
    with (String "=" (t ++ String ";" post)%string).
  cbn [lstrip]. change (is_space "=") with false. cbv iota.
  rewrite Ascii.eqb_refl.
  rewrite (span_until_app is_semicolon t post ";" Hsemi eq_refl).
  destruct t as [|c t]; [cbn in Hgroup; congruence|].
  rewrite Hgroup. destruct group; [congruence|reflexivity].
Qed.

(** X25: in a project file whose first [PRODUCT_BUNDLE_IDENTIFIER]
    assignment has the form [KEY = id;] or [KEY = "id";], with any white
    space around the [=], an identifier written without white space,
    quote or semicolon and not starting with [$(], and no letter P before
    the key, the identifier read from the file is [id]. *)
Theorem bundle_id_of_first_assignment (pre ws1 ws2 id post : string)
    (quoted : bool) :
  string_forall (fun c => negb (Ascii.eqb c "P")) pre = true ->
  string_forall is_space ws1 = true ->
  string_forall is_space ws2 = true ->
  id <> EmptyString ->
  string_forall is_plain id = true ->
  strip_prefix "$(" id = None ->
  let q := if quoted then dquote else EmptyString in
  bundle_id_of_content
    (pre ++ KEY ++ ws1 ++ "=" ++ (ws2 ++ q ++ id ++ q) ++ ";" ++ post)%string
  = Some id.
Proof.
  intros Hpre Hws1 Hws2 Hne Hplain Hvar q.
  assert (Hns : string_forall (fun c => negb (is_space c)) id = true).
  { apply (string_forall_impl is_plain); [|exact Hplain].
    intros c H. unfold is_plain in H.
    apply andb_true_iff in H as [H _]. apply andb_true_iff in H as [H _]. exact H. }
  assert (Hnq : string_forall (fun c => negb (is_quote c)) id = true).
  { apply (string_forall_impl is_plain); [|exact Hplain].
    intros c H. unfold is_plain in H.
    apply andb_true_iff in H as [H _]. apply andb_true_iff in H as [_ H]. exact H. }
  assert (Hnsemi : string_forall (fun c => negb (is_semicolon c)) id = true).
  { apply (string_forall_impl is_plain); [|exact Hplain].
    intros c H. unfold is_plain in H. apply andb_true_iff in H as [_ H]. exact H. }
  assert (Hqs : string_forall (fun c => negb (is_space c)) q = true)
    by (subst q; destruct quoted; reflexivity).
  assert (Hqq : string_forall is_quote q = true)
    by (subst q; destruct quoted; reflexivity).
  assert (Hqsemi : string_forall (fun c => negb (is_semicolon c)) q = true)
    by (subst q; destruct quoted; reflexivity).
  assert (Hgroup : lstrip is_space (ws2 ++ q ++ id ++ q)%string = (q ++ id ++ q)%string).
  { rewrite (lstrip_app is_space ws2 _ Hws2). apply lstrip_none.
    rewrite !string_forall_app, Hqs, Hns. reflexivity. }
  assert (Hgne : (q ++ id ++ q)%string <> EmptyString).
  { destruct id; [congruence|]. subst q. destruct quoted; discriminate. }
  assert (Hrun : string_forall (fun c => negb (is_semicolon c))
                   (ws2 ++ q ++ id ++ q)%string = true).
  { rewrite !string_forall_app, Hqsemi, Hnsemi, !andb_true_r.
    apply (string_forall_impl is_space); [|exact Hws2].
    intros c H. rewrite (space_not_semicolon c H). reflexivity. }
  unfold bundle_id_of_content.
  rewrite (search_skip pre _ Hpre).
  assert (Hsearch :
    search match_assignment
      (KEY ++ ws1 ++ "=" ++ (ws2 ++ q ++ id ++ q) ++ ";" ++ post)%string
    = Some (q ++ id ++ q)%string).
  { change (KEY ++ ws1 ++ "=" ++ (ws2 ++ q ++ id ++ q) ++ ";" ++ post)%string
      with (String "P" ("RODUCT_BUNDLE_IDENTIFIER" ++ ws1 ++ "="
                        ++ (ws2 ++ q ++ id ++ q) ++ ";" ++ post)%string).
    cbn [search].
    change (String "P" ("RODUCT_BUNDLE_IDENTIFIER" ++ ws1 ++ "="
                        ++ (ws2 ++ q ++ id ++ q) ++ ";" ++ post)%string)
      with (KEY ++ ws1 ++ "=" ++ (ws2 ++ q ++ id ++ q) ++ ";" ++ post)%string.
    rewrite (match_assignment_group ws1 _ _ post Hws1 Hgroup Hgne Hrun).
    reflexivity. }
  rewrite Hsearch.
  assert (Hstrip1 : py_strip is_space (q ++ id ++ q)%string = (q ++ id ++ q)%string).
  { unfold py_strip. rewrite lstrip_none
      by (rewrite !string_forall_app, Hqs, Hns; reflexivity).
    rewrite <- (string_app_nil_r (q ++ id ++ q)%string) at 1.
    apply rstrip_app; [|reflexivity].
    rewrite !string_forall_app, Hqs, Hns. reflexivity. }
  assert (Hstrip2 : py_strip is_quote (q ++ id ++ q)%string = id).
  { unfold py_strip. rewrite (lstrip_app is_quote q _ Hqq).
    assert (Hhead : lstrip is_quote (id ++ q)%string = (id ++ q)%string).
    { destruct id as [|c id']; [congruence|].
      cbn in Hnq. apply andb_true_iff in Hnq as [Hc _].
      apply negb_true_iff in Hc. cbn. rewrite Hc. reflexivity. }
    rewrite Hhead. apply rstrip_app; assumption. }
  cbv zeta. rewrite Hstrip1, Hstrip2, Hvar. reflexivity.
Qed.

End Pipeline.

(** ** The statements at concrete inputs *)

Local Open Scope list_scope.

Lemma rate_limit_consumes_attempt_witness :
  attempt_loop decimal true GET [Lit BASE_URL; Lit "/apps"] VNone 3 1 2
    (script [] (rate_limited (Some "2")))
  = (Ret VNone,
     mkWorld (replies (script [] (rate_limited (Some "2")))) 1 2000
       [Request GET [Lit BASE_URL; Lit "/apps"] VNone;
        Log [Lit "Rate limited. Waiting "; Fmt (VInt 2); Lit "s..."];
        Sleep 2]) /\
  (let r := make_api_request decimal true cfg0 GET [Lit "/apps"] VNone
              (script [rate_limited (Some "2")] (ok app_listing)) in
   fst r = Ret app_listing /\ cursor (snd r) = 2%nat /\
   sleeps (trace (snd r)) = [2]).
Proof.
  split.
  - apply (proj1 (proj2 (rate_limit_consumes_attempt decimal true cfg0 GET
                           [Lit "/apps"] VNone 0 2
                           (script [] (rate_limited (Some "2"))) 0%N
                           (mkResponse 429 (Some "2") Empty) 2
                           eq_refl eq_refl eq_refl ltac:(lia)))).
  - cbv zeta.
    rewrite (proj1 (proj2 (proj2 (rate_limit_consumes_attempt decimal true cfg0 GET
                                    [Lit "/apps"] VNone 0 0
                                    (script [rate_limited (Some "2")] (ok app_listing))
                                    0%N (mkResponse 429 (Some "2") Empty) 2
                                    eq_refl eq_refl eq_refl ltac:(lia))))
               eq_refl).
    vm_compute. repeat split.
Defined.

(** C1 as stated fails: three 429 replies use up the three attempts, and
    the 429 on the last attempt is followed by the None result, not by a
    fourth request. *)
Lemma rate_limited_three_times_fails :
  let r := make_api_request decimal true cfg0 GET [Lit "/apps"] VNone
             (script [] (rate_limited None)) in
  fst r = Ret VNone /\ cursor (snd r) = 3%nat /\ sleeps (trace (snd r)) = [60; 60; 60].
Proof. vm_compute. repeat split. Qed.

Lemma three_failures_give_up_witness :
  exists evs : list event,
    make_api_request decimal true cfg0 POST [Lit "/appStoreVersions"] VNone
      (script [] server_error)
    = (Ret VNone,
       mkWorld (replies (script [] server_error)) 3 15000 evs) /\
    requests evs = [(POST, [Lit BASE_URL; Lit "/appStoreVersions"]);
                    (POST, [Lit BASE_URL; Lit "/appStoreVersions"]);
                    (POST, [Lit BASE_URL; Lit "/appStoreVersions"])] /\
    sleeps evs = [5; 10].
Proof.
  apply (three_failures_give_up decimal true cfg0 POST [Lit "/appStoreVersions"]
           VNone (script [] server_error)).
  - reflexivity.
  - intros [|i] Hi; reflexivity.
Defined.

(** C2 as stated fails on failing responses of status 429: after a 429
    with Retry-After 7 and two 500 responses the helper has slept 7 and
    10 seconds, not 5 and 10. *)
Lemma rate_limited_then_errors_sleeps :
  let r := make_api_request decimal true cfg0 GET [Lit "/apps"] VNone
             (script [rate_limited (Some "7")] server_error) in
  fst r = Ret VNone /\ cursor (snd r) = 3%nat /\ sleeps (trace (snd r)) = [7; 10].
Proof. vm_compute. repeat split. Qed.

Lemma parse_version_by_plus_count_witness :
  parse_version "1.13.0+30" = Ret ("1.13.0", VStr "30").
Proof.
  apply (proj1 (proj2 (parse_version_by_plus_count "1.13.0+30")) "1.13.0" "30");
    reflexivity.
Defined.

(** C3 as stated fails on a string with two '+': nothing is split, the
    parse raises. *)
Lemma parse_version_two_plus_raises :
  parse_version "1.13.0+30+1" = Raise ValueError.
Proof. reflexivity. Qed.

Lemma submitted_version_exits_0_witness :
  fst (program decimal true cfg0 5 args_live world_in_review) = Some 0.
Proof.
  edestruct (submitted_version_exits_0 decimal true cfg0 5 args_live world_in_review)
    as (_ & _ & H).
  - lazy. reflexivity.
  - lazy. reflexivity.
  - reflexivity.
  - lazy. reflexivity.
  - reflexivity.
  - reflexivity.
  - lazy. reflexivity.
  - cbn. right. left. reflexivity.
  - rewrite H. reflexivity.
Defined.

Lemma wait_returns_at_timeout_witness :
  (exists w',
     wait_for_build_processing decimal true cfg0 14 (VStr "app-1") (VStr "30") 1 false
       (script [server_error] (ok other_builds)) = (Ret VNone, w') /\
     1000 * (1 * 60) < now w' - now (script [server_error] (ok other_builds))
       <= 1000 * (1 * 60) + 30000 + 5000) /\
  fst (wait_for_build_processing decimal true cfg0 1 (VStr "app-1") (VStr "30") 1 false
         (script [] (ok empty_listing))) = Ret VNone.
Proof.
  split.
  - apply (proj1 (wait_returns_at_timeout decimal true cfg0 14 (VStr "app-1") (VStr "30")
                    1 5000 (script [server_error] (ok other_builds)))).
    + lia.
    + intros [r c t tr] Hr Hc. cbn [replies cursor script] in Hr, Hc. subst r.
      destruct c as [|c].
      * destruct (make_api_request_second_try decimal true cfg0 GET
                    (builds_endpoint (VStr "app-1")) VNone
                    (mkWorld (fun i => nth i [server_error] (ok other_builds)) 0 t tr)
                    0%N (mkResponse 200 None (Json other_builds)) other_builds)
          as (evs & E); [reflexivity|reflexivity|reflexivity|cbn; lia|reflexivity|].
        eexists. eexists. split; [exact E|]. split; [reflexivity|].
        cbn [now replies cursor nth latency_of server_error http]. lia.
      * eexists. eexists. split; [|split].
        -- apply (make_api_request_ok decimal true cfg0 GET
                    (builds_endpoint (VStr "app-1")) VNone
                    (mkWorld (fun i => nth i [server_error] (ok other_builds)) (S c) t tr)
                    0%N (mkResponse 200 None (Json other_builds)) other_builds);
             [reflexivity|cbn [replies cursor nth]; destruct c; reflexivity
             |cbn; lia|reflexivity].
        -- reflexivity.
        -- cbn [now]. lia.
    + cbn. lia.
  - rewrite (proj1 (proj2 (wait_returns_at_timeout decimal true cfg0 0 (VStr "app-1")
                             (VStr "30") 1 0 (script [] (ok empty_listing))))
               empty_listing
               (snd (make_api_request decimal true cfg0 GET
                       (builds_endpoint (VStr "app-1")) VNone
                       (record (script [] (ok empty_listing))
                          [wait_header (VStr "30") 1])))).
    + reflexivity.
    + vm_compute. reflexivity.
    + reflexivity.
Defined.

(** C5 as stated fails when the listing is empty: the expected build
    never appears, and the wait returns None on its first poll, with no
    time elapsed of the 60 minutes. *)
Lemma empty_listing_ends_wait_early :
  let r := wait_for_build_processing decimal true cfg0 5 (VStr "app-1") (VStr "30") 60
             false (script [] (ok empty_listing)) in
  fst r = Ret VNone /\ cursor (snd r) = 1%nat /\ now (snd r) = 0 /\
  sleeps (trace (snd r)) = [].
Proof. vm_compute. repeat split. Qed.

Lemma found_build_poll_witness :
  fst (wait_for_build_processing decimal true cfg0 1 (VStr "app-1") (VStr "30") 60 false
         (script [] (ok (builds_listing "VALID"))))
  = Ret (VStr "b-30").
Proof.
  edestruct (found_build_poll decimal true cfg0 0 (VStr "app-1") (VStr "30") 60 0
               VNone VNone
               (record (script [] (ok (builds_listing "VALID")))
                  [wait_header (VStr "30") 60]))
    as (Hfirst & Hvalid & _).
  - lazy. reflexivity.
  - reflexivity.
  - reflexivity.
  - reflexivity.
  - reflexivity.
  - reflexivity.
  - reflexivity.
  - rewrite (Hfirst (script [] (ok (builds_listing "VALID")))
               eq_refl eq_refl eq_refl eq_refl).
    rewrite (Hvalid eq_refl). reflexivity.
Defined.

(** C6 as stated fails: a build that is found and stays in PROCESSING
    never becomes INVALID, yet the wait returns None once a poll ends
    after the time limit (here 1 minute: 14 polls, 13 pauses of 5
    seconds); the lines written are the progress line and the
    still-processing report, not the processing-failed one. *)
Lemma processing_build_times_out :
  let r := wait_for_build_processing decimal true cfg0 20 (VStr "app-1") (VStr "30") 1
             false (script [] (ok (builds_listing "PROCESSING"))) in
  fst r = Ret VNone /\
  cursor (snd r) = 14%nat /\
  sleeps (trace (snd r)) = repeat 5 13 /\
  logs (trace (snd r)) =
    [[Lit "Waiting for build "; Fmt (VStr "30"); Lit " to finish processing (max ";
      Fmt (VInt 1); Lit " min)..."];
     [Lit "Build "; Fmt (VStr "30"); Lit " - State: "; Fmt (VStr "PROCESSING")];
     [Lit "Timeout after "; Fmt (VInt 1); Lit " minutes"];
     [Lit "Build "; Fmt (VStr "30");
      Lit " is still processing. Run this script again later:"];
     [Lit "  ./submit_to_app_store.py "; Fmt (VStr "30")]].
Proof. vm_compute. repeat split. Qed.


(** C8 fails on the code: of three localizations the first is updated,
    the update of the second is answered with an HTTP 500 whose 'errors'
    list is empty, and the error report of the request helper raises
    IndexError.  The failure is not logged for that locale, the third
    localization is never updated although its update would go through,
    the stage does not report a result, and the run ends with status 1. *)
Theorem unreadable_update_error_aborts_run :
  let stage := add_release_notes_all_locales decimal true cfg0 (VStr "ver-1")
                 RELEASE_NOTES false
                 (script [ok three_localizations; ok created; unreadable_error]
                         (ok created)) in
  let r := program decimal true cfg0 5 args_live world_notes_abort in
  fst stage = Raise IndexError /\
  fst r = Some 1 /\
  reports (trace (snd r)) = [(VStr "en-US", true)] /\
  requests (trace (snd r)) =
    [(GET, [Lit BASE_URL; Lit "/apps?filter[bundleId]="; Fmt (VStr "com.example.app")]);
     (GET, Lit BASE_URL :: builds_endpoint (VStr "app-1"));
     (GET, Lit BASE_URL :: versions_endpoint (VStr "app-1") "1.13.0");
     (PATCH, [Lit BASE_URL; Lit "/appStoreVersions/"; Fmt (VStr "ver-1")]);
     (GET, Lit BASE_URL :: localizations_endpoint (VStr "ver-1"));
     (PATCH, [Lit BASE_URL; Lit "/appStoreVersionLocalizations/"; Fmt (VStr "l1")]);
     (PATCH, [Lit BASE_URL; Lit "/appStoreVersionLocalizations/"; Fmt (VStr "l2")])] /\
  last (logs (trace (snd r))) [] = [Lit "Unexpected error: "; FmtExn IndexError].
Proof. vm_compute. repeat split. Qed.

(** C9 fails on the code: the version is not there, its creation fails on
    three POST requests, and the run exits with status 0. *)
Theorem failed_version_creation_exits_0 :
  let r := program decimal true cfg0 5 args_live world_creation_fails in
  fst r = Some 0 /\
  requests (trace (snd r)) =
    [(GET, [Lit BASE_URL; Lit "/apps?filter[bundleId]="; Fmt (VStr "com.example.app")]);
     (GET, Lit BASE_URL :: builds_endpoint (VStr "app-1"));
     (GET, Lit BASE_URL :: versions_endpoint (VStr "app-1") "1.13.0");
     (POST, [Lit BASE_URL; Lit "/appStoreVersions"]);
     (POST, [Lit BASE_URL; Lit "/appStoreVersions"]);
     (POST, [Lit BASE_URL; Lit "/appStoreVersions"])] /\
  last (logs (trace (snd r))) [] = [Lit "Version may already be submitted"].
Proof. vm_compute. repeat split. Qed.

Lemma empty_listing_exits_1_failed_submission_exits_0_witness :
  fst (program decimal true cfg0 5 args_live world_no_localization) = Some 1 /\
  fst (program decimal true cfg0 5 args_live world_submission_fails) = Some 0.
Proof.
  split.
  - destruct (empty_listing_exits_1_failed_submission_exits_0 decimal true cfg0 5
                args_live world_no_localization eq_refl) as (H & _).
    edestruct H as (_ & _ & Hexit).
    + lazy. reflexivity.
    + lazy. reflexivity.
    + reflexivity.
    + reflexivity.
    + reflexivity.
    + rewrite Hexit. reflexivity.
  - destruct (empty_listing_exits_1_failed_submission_exits_0 decimal true cfg0 5
                args_live world_submission_fails eq_refl) as (_ & H).
    erewrite H.
    + reflexivity.
    + lazy. reflexivity.
    + lazy. reflexivity.
Defined.

(** ** The further properties at concrete inputs *)

Lemma retry_recovers_witness :
  exists (evs : list event) (t : Z),
    make_api_request decimal true cfg0 GET [Lit "/apps"] VNone
      (script [server_error; server_error] (ok app_listing))
    = (Ret app_listing,
       mkWorld (replies (script [server_error; server_error] (ok app_listing)))
         3 t evs) /\
    sleeps evs = [5; 10] /\
    requests evs = repeat (GET, [Lit BASE_URL; Lit "/apps"]) 3.
Proof.
  apply (retry_recovers decimal true cfg0 GET [Lit "/apps"] VNone
           (script [server_error; server_error] (ok app_listing)) 2 0%N
           (mkResponse 200 None (Json app_listing)) app_listing).
  - reflexivity.
  - lia.
  - intros [|[|i]] Hi; [reflexivity|reflexivity|lia].
  - reflexivity.
  - cbn. lia.
  - reflexivity.
Defined.

Lemma unsigned_request_exits_1_witness :
  (exists evs : list event,
     make_api_request decimal true cfg_no_key GET [Lit "/apps"] VNone
       (script [] (ok app_listing))
     = (Exit 1, record (script [] (ok app_listing)) evs) /\
     requests evs = [] /\ sleeps evs = []) /\
  fst (make_api_request decimal true cfg_no_path GET [Lit "/apps"] VNone
         (script [] (ok app_listing))) = Raise TypeError.
Proof.
  split.
  - destruct (unsigned_request_exits_1 decimal true cfg_no_key GET [Lit "/apps"] VNone
                (script [] (ok app_listing)) eq_refl) as (evs & E & Hq & Hs & _).
    exists evs. split; [exact E|split; assumption].
  - destruct (unsigned_request_exits_1 decimal true cfg_no_path GET [Lit "/apps"] VNone
                (script [] (ok app_listing)) eq_refl) as (evs & E & _).
    rewrite E. reflexivity.
Defined.

Lemma unreadable_error_body_raises_witness :
  fst (make_api_request decimal true cfg0 GET [Lit "/apps"] VNone
         (script [] unreadable_error)) = Raise IndexError.
Proof.
  rewrite (unreadable_error_body_raises decimal true cfg0 GET [Lit "/apps"] VNone
             (script [] unreadable_error) 0%N
             (mkResponse 500 None (Json (VDict [("errors", VList [])])))
             (VDict [("errors", VList [])]) IndexError);
    first [reflexivity | cbn; lia | discriminate].
Defined.

Lemma bad_retry_after_raises_witness :
  (exists w',
     make_api_request decimal true cfg0 GET [Lit "/apps"] VNone
       (script [] (rate_limited (Some "soon"))) = (Raise ValueError, w') /\
     cursor w' = 1%nat /\ sleeps (trace w') = []) /\
  (exists w',
     make_api_request decimal true cfg0 GET [Lit "/apps"] VNone
       (script [] (rate_limited (Some "9223372037"))) = (Raise OverflowError, w') /\
     cursor w' = 1%nat /\ sleeps (trace w') = []).
Proof.
  split.
  - destruct (bad_retry_after_raises decimal true cfg0 GET [Lit "/apps"] VNone
                (script [] (rate_limited (Some "soon"))) 0%N
                (mkResponse 429 (Some "soon") Empty) "soon"
                eq_refl eq_refl eq_refl eq_refl I) as (w' & E & Hc & _ & Hs).
    exists w'. split; [exact E|split; assumption].
  - assert (Hbad : match decimal "9223372037" with
                    | Some s => s < 0 \/ 9223372036 < s
                    | None => True
                    end) by (vm_compute; right; reflexivity).
    destruct (bad_retry_after_raises decimal true cfg0 GET [Lit "/apps"] VNone
                (script [] (rate_limited (Some "9223372037"))) 0%N
                (mkResponse 429 (Some "9223372037") Empty) "9223372037"
                eq_refl eq_refl eq_refl eq_refl Hbad)
      as (w' & E & Hc & _ & Hs).
    exists w'. split; [exact E|split; assumption].
Defined.

Lemma missing_credentials_exit_1_witness :
  fst (program decimal true cfg_no_issuer 5 args_live world_all_ok) = Some 1 /\
  In "APP_STORE_ISSUER_ID" (missing_variables cfg_no_issuer).
Proof.
  destruct (missing_credentials_exit_1 decimal true cfg_no_issuer 5 args_live
              world_all_ok eq_refl) as (H & _ & Hissuer).
  split; [rewrite H; reflexivity|apply Hissuer; reflexivity].
Defined.

Lemma malformed_version_exits_1_witness :
  fst (program decimal true cfg0 5 args_two_plus world_all_ok) = Some 1.
Proof.
  rewrite (malformed_version_exits_1 decimal true cfg0 5 args_two_plus world_all_ok
             "1.13.0" "30" "1" eq_refl eq_refl).
  reflexivity.
Defined.

Lemma undetected_bundle_exits_1_witness :
  fst (program decimal true cfg_no_bundle 5 args_no_bundle world_all_ok) = Some 1.
Proof.
  rewrite (undetected_bundle_exits_1 decimal true cfg_no_bundle 5 args_no_bundle
             world_all_ok ("1.13.0", VNone) eq_refl eq_refl eq_refl).
  reflexivity.
Defined.

Lemma app_not_found_exits_1_witness :
  fst (program decimal true cfg0 5 args_live world_no_app) = Some 1.
Proof.
  erewrite (app_not_found_exits_1 decimal true cfg0 5 args_live world_no_app _
              ("1.13.0", VStr "30") empty_listing).
  - reflexivity.
  - reflexivity.
  - reflexivity.
  - reflexivity.
  - lazy. reflexivity.
  - reflexivity.
Defined.

Lemma interrupted_lookup_exits_130_witness :
  exists w',
    program decimal true cfg0 5 args_live (script [] (Interrupted 0))
      = (Some 130, w') /\
    cursor w' = 1%nat /\
    last_event (trace w') = Some (Log [Lit "Interrupted by user"]).
Proof.
  apply (interrupted_lookup_exits_130 decimal true cfg0 5 args_live
           (script [] (Interrupted 0)) ("1.13.0", VStr "30") 0%N);
    reflexivity.
Defined.

Lemma poll_without_data_ends_wait_witness :
  fst (wait_for_build_processing decimal true cfg0 1 (VStr "app-1") (VStr "30") 60
         false (script [] (ok empty_listing))) = Ret VNone.
Proof.
  erewrite (poll_without_data_ends_wait decimal true cfg0 0 (VStr "app-1") (VStr "30")
              60 (script [] (ok empty_listing)) _ empty_listing).
  - reflexivity.
  - lazy. reflexivity.
  - reflexivity.
Defined.

Lemma failed_build_wait_exits_1_witness :
  fst (program decimal true cfg0 5 args_live world_no_build) = Some 1.
Proof.
  erewrite (failed_build_wait_exits_1 decimal true cfg0 5 args_live world_no_build
              _ _ ("1.13.0", VStr "30") (VStr "app-1") VNone).
  - reflexivity.
  - reflexivity.
  - reflexivity.
  - reflexivity.
  - lazy. reflexivity.
  - reflexivity.
  - lazy. reflexivity.
  - reflexivity.
Defined.

Lemma find_build_first_match_witness :
  find_build (VStr "30")
    ([VDict [("attributes", VDict [("version", VStr "29")])]]
     ++ build_30 "VALID" :: [VNone])
  = Ret (build_30 "VALID") /\
  find_build (VStr "30") [VDict [("attributes", VDict [("version", VStr "29")])]]
  = Ret VNone.
Proof.
  destruct (find_build_first_match (VStr "30")
              [VDict [("attributes", VDict [("version", VStr "29")])]] [VNone]
              (build_30 "VALID")) as (Hfirst & Hnone).
  - intros x [<-|[]]. reflexivity.
  - split; [apply Hfirst; reflexivity|exact Hnone].
Defined.

Lemma existing_version_is_reused_witness :
  fst (get_or_create_version decimal true cfg0 (VStr "app-1") "1.13.0" false
         (script [] (ok (version_listing "PREPARE_FOR_SUBMISSION"))))
  = Ret (VStr "ver-1").
Proof.
  erewrite (existing_version_is_reused decimal true cfg0 (VStr "app-1") "1.13.0" false
              (script [] (ok (version_listing "PREPARE_FOR_SUBMISSION"))) 0%N
              (mkResponse 200 None (Json (version_listing "PREPARE_FOR_SUBMISSION")))
              (version_listing "PREPARE_FOR_SUBMISSION"));
    first [reflexivity | cbn; lia].
Defined.

Lemma missing_version_is_created_witness :
  fst (get_or_create_version decimal true cfg0 (VStr "app-1") "1.13.0" false
         (script [ok empty_listing] (ok created)))
  = Ret (VStr "ver-1").
Proof.
  erewrite (missing_version_is_created decimal true cfg0 (VStr "app-1") "1.13.0"
              (script [ok empty_listing] (ok created)) 0%N 0%N
              (mkResponse 200 None (Json empty_listing))
              (mkResponse 200 None (Json created)) empty_listing _ created);
    first [reflexivity | cbn; lia].
Defined.

Lemma unresolved_version_exits_0_witness :
  fst (program decimal true cfg0 5 args_live world_creation_fails) = Some 0.
Proof.
  erewrite (unresolved_version_exits_0 decimal true cfg0 5 args_live
              world_creation_fails).
  - reflexivity.
  - lazy. reflexivity.
  - lazy. reflexivity.
  - reflexivity.
Defined.

Lemma failed_link_exits_1_witness :
  fst (program decimal true cfg0 5 args_live world_link_fails) = Some 1.
Proof.
  edestruct (failed_link_exits_1 decimal true cfg0 5 args_live world_link_fails)
    as (_ & H).
  - lazy. reflexivity.
  - lazy. reflexivity.
  - reflexivity.
  - lazy. reflexivity.
  - rewrite H. reflexivity.
Defined.

Lemma review_submission_fallback_witness :
  fst (submit_for_review decimal true cfg0 (VStr "ver-1") (VStr "app-1") false
         (script [server_error; server_error; server_error] (ok created)))
  = Ret true.
Proof.
  edestruct (review_submission_fallback decimal true cfg0 (VStr "ver-1") (VStr "app-1")
               (script [server_error; server_error; server_error] (ok created)))
    as (H & _).
  - lazy. reflexivity.
  - rewrite (H eq_refl). reflexivity.
Defined.

Lemma submitted_run_exits_0_witness :
  fst (program decimal true cfg0 5 args_live world_all_ok) = Some 0.
Proof.
  erewrite (submitted_run_exits_0 decimal true cfg0 5 args_live world_all_ok).
  - reflexivity.
  - reflexivity.
  - lazy. reflexivity.
  - lazy. reflexivity.
Defined.

Lemma parse_version_round_trip_witness :
  "1.13.0+30"%string = ("1.13.0" ++ "+" ++ "30")%string /\
  py_contains "+" "1.13.0" = false /\ py_contains "+" "30" = false.
Proof.
  apply (parse_version_round_trip "1.13.0+30" "1.13.0" (VStr "30")).
  reflexivity.
Defined.

Lemma failed_release_notes_exit_1_witness :
  fst (program decimal true cfg0 5 args_live world_notes_fail) = Some 1.
Proof.
  edestruct (failed_release_notes_exit_1 decimal true cfg0 5 args_live
               world_notes_fail) as (_ & H).
  - lazy. reflexivity.
  - lazy. reflexivity.
  - rewrite H. reflexivity.
Defined.

Lemma wait_succeeds_after_processing_witness :
  exists evs t,
    wait_for_build_processing decimal true cfg0 3 (VStr "app-1") (VStr "30") 60 false
      world_processing_twice
    = (Ret (VStr "b-30"),
       mkWorld (replies world_processing_twice) 3 t evs) /\
    sleeps evs = [5; 5] /\
    forallb calm evs = true.
Proof.
  apply (wait_succeeds_after_processing decimal true cfg0 3 2 (VStr "app-1")
           (VStr "30") 60 0 world_processing_twice (VStr "b-30")).
  - reflexivity.
  - lia.
  - lia.
  - intros [|[|[|i]]]; cbn; lia.
  - intros [|[|i]] Hi; [exists (VStr "b-30"); reflexivity
                       |exists (VStr "b-30"); reflexivity|lia].
  - reflexivity.
  - lia.
Defined.

Lemma bundle_id_of_first_assignment_witness :
  bundle_id_of_content
    ((tab ++ tab) ++ KEY ++ " " ++ "=" ++ (" " ++ dquote ++ "com.example.app" ++ dquote)
     ++ ";" ++ newline)%string
  = Some "com.example.app"%string.
Proof.
  apply (bundle_id_of_first_assignment (tab ++ tab) " " " " "com.example.app"
           newline true); first [reflexivity | discriminate].
Defined.
